(** * virtualenv legacy builder: a shallow embedding and its properties

    This development follows [virtualenv/builders/legacy.py]:
    - the [SITE] template and its rendering by [str.replace];
    - the start-up script the template renders to, run on a model of the
      interpreter state ([sys.prefix], [sys.path], [sys.modules],
      [sys.flags]);
    - [LegacyBuilder]: [check_available], [_get_base_python_info] and
      [create_virtual_environment], run on a model of the file system.

    Python [str] values are [string]s, dictionaries are [gmap]s, a failing
    statement is a result in a sum type and the state it leaves behind is
    returned next to it. *)

From Stdlib Require Import Ascii String.
From stdpp Require Import gmap strings list fin_maps pretty.

Local Open Scope string_scope.
Set Warnings "-register-all".

(** ** Python [str] primitives *)

Module Str.

Definition nl : string := String "010"%char EmptyString.
Definition dq : string := String "034"%char EmptyString.
Definition sep : ascii := "/"%char.

(** A double-quoted literal as it stands in a Python source text. *)
Definition quoted (s : string) : string := dq +:+ s +:+ dq.

(** [s.startswith(p)] *)
Fixpoint startswith (p s : string) : bool :=
  match p, s with
  | EmptyString, _ => true
  | String _ _, EmptyString => false
  | String a p', String b s' => if decide (a = b) then startswith p' s' else false
  end.

(** [s.endswith("/")] *)
Fixpoint endswith_sep (s : string) : bool :=
  match s with
  | EmptyString => false
  | String c EmptyString => if decide (c = sep) then true else false
  | String _ s' => endswith_sep s'
  end.

(** [s[n:]] *)
Fixpoint drop (n : nat) (s : string) : string :=
  match n, s with
  | O, _ => s
  | S _, EmptyString => EmptyString
  | S n', String _ s' => drop n' s'
  end.

(** [sep.join(parts)] *)
Fixpoint join (sp : string) (parts : list string) : string :=
  match parts with
  | [] => EmptyString
  | [x] => x
  | x :: rest => x +:+ sp +:+ join sp rest
  end.

(** The scan of [s.replace(old, new)] for a non-empty [old]: leftmost
    occurrences, not overlapping.  [skip] counts the characters of a
    matched occurrence that are still to be passed over. *)
Fixpoint replace_go (old new : string) (skip : nat) (s : string) : string :=
  match s with
  | EmptyString => EmptyString
  | String c s' =>
      match skip with
      | S k => replace_go old new k s'
      | O =>
          if startswith old s
          then new +:+ replace_go old new (String.length old - 1) s'
          else String c (replace_go old new 0 s')
      end
  end.

(** With an empty [old], Python puts [new] before every character and at
    the end. *)
Fixpoint intersperse (new s : string) : string :=
  match s with
  | EmptyString => new
  | String c s' => new +:+ String c (intersperse new s')
  end.

(** [s.replace(old, new)] *)
Definition replace (old new s : string) : string :=
  match old with
  | EmptyString => intersperse new s
  | String _ _ => replace_go old new 0 s
  end.

(** [s.count(t)] for a non-empty [t]: occurrences that do not overlap. *)
Fixpoint count_go (t : string) (skip : nat) (s : string) : nat :=
  match s with
  | EmptyString => 0
  | String _ s' =>
      match skip with
      | S k => count_go t k s'
      | O =>
          if startswith t s
          then S (count_go t (String.length t - 1) s')
          else count_go t 0 s'
      end
  end.

Definition count (t s : string) : nat :=
  match t with
  | EmptyString => S (String.length s)
  | String _ _ => count_go t 0 s
  end.

(** [t in s] *)
Fixpoint contains (t s : string) : bool :=
  startswith t s ||
  match s with
  | EmptyString => false
  | String _ s' => contains t s'
  end.

(** [s.split("\n")] *)
Fixpoint split_lines_go (cur : string) (s : string) : list string :=
  match s with
  | EmptyString => [String.rev cur]
  | String c s' =>
      if decide (c = "010"%char)
      then String.rev cur :: split_lines_go EmptyString s'
      else split_lines_go (String c cur) s'
  end.

Definition split_lines (s : string) : list string :=
  split_lines_go EmptyString s.

End Str.

(** ** [os.path.join] (posixpath) *)

Module OsPath.

(** One step of the loop in [posixpath.join]: a component that starts with
    the separator replaces what was accumulated; after an empty path or a
    trailing separator the component is appended as it is; otherwise a
    separator comes in between. *)
Definition join (a b : string) : string :=
  if Str.startswith "/" b then b
  else if decide (a = EmptyString) then b
  else if Str.endswith_sep a then a +:+ b
  else a +:+ "/" +:+ b.

(** [os.path.join(a, b, c)] *)
Definition join3 (a b c : string) : string := join (join a b) c.

(** A path as a relative component is appended to it: empty, or ending
    with the separator. *)
Definition with_sep (a : string) : string :=
  if decide (a = EmptyString) then a
  else if Str.endswith_sep a then a
  else a +:+ "/".

End OsPath.

(** ** The [SITE] template *)

(** The text of [SITE] with its five placeholder sites as arguments. *)
Definition site_lines (prefix exec_prefix base_prefix base_exec_prefix site : string)
  : list string :=
  [ EmptyString
  ; "import sys"
  ; "import os.path"
  ; EmptyString
  ; "# We want to make sure that our sys.prefix and sys.exec_prefix match the"
  ; "# locations in our virtual enviornment."
  ; "sys.prefix = " +:+ Str.quoted prefix
  ; "sys.exec_prefix = " +:+ Str.quoted exec_prefix
  ; EmptyString
  ; "# We want to record what the " +:+ Str.quoted "real/base"
      +:+ " prefix is of the virtual environment."
  ; "sys.base_prefix = " +:+ Str.quoted base_prefix
  ; "sys.base_exec_prefix = " +:+ Str.quoted base_exec_prefix
  ; EmptyString
  ; "# At the point this code is running, the only paths on the sys.path are the"
  ; "# paths that the interpreter adds itself. These are essentially the locations"
  ; "# it looks for the various stdlib modules. Since we are inside of a virtual"
  ; "# environment these will all be relative to the sys.prefix and sys.exec_prefix,"
  ; "# however we want to change these to be relative to sys.base_prefix and"
  ; "# sys.base_exec_prefix instead."
  ; "new_sys_path = []"
  ; "for path in sys.path:"
  ; "    # TODO: Is there a better way to determine this?"
  ; "    if path.startswith(sys.prefix):"
  ; "        path = os.path.join("
  ; "            sys.base_prefix,"
  ; "            path[len(sys.prefix) + 1:],"
  ; "        )"
  ; "    elif path.startswith(sys.exec_prefix):"
  ; "        path = os.path.join("
  ; "            sys.base_exec_prefix,"
  ; "            path[len(sys.exec_prefix) + 1:],"
  ; "        )"
  ; EmptyString
  ; "    new_sys_path.append(path)"
  ; "sys.path = new_sys_path"
  ; EmptyString
  ; "# We want to empty everything that has already been imported from the"
  ; "# sys.modules so that any additional imports of these modules will import them"
  ; "# from the base Python and not from the copies inside of the virtual"
  ; "# environment. This will ensure that our copies will only be used for"
  ; "# bootstrapping the virtual environment."
  ; "for key in list(sys.modules):"
  ; "    # We don't want to purge these modules because if we do, then things break"
  ; "    # very badly."
  ; "    if key in [" +:+ Str.quoted "sys" +:+ ", " +:+ Str.quoted "site" +:+ ", "
      +:+ Str.quoted "sitecustomize" +:+ ", " +:+ Str.quoted "__builtin__" +:+ ", "
      +:+ Str.quoted "__main__" +:+ "]:"
  ; "        continue"
  ; EmptyString
  ; "    del sys.modules[key]"
  ; EmptyString
  ; "# We want to trick the interpreter into thinking that the user specific"
  ; "# site-packages has been requested to be disabled. We'll do this by mimicing"
  ; "# that sys.flags.no_user_site has been set to False, however sys.flags is a"
  ; "# read-only structure so we'll temporarily replace it with one that has the"
  ; "# same values except for sys.flags.no_user_site which will be set to True."
  ; "_real_sys_flags = sys.flags"
  ; "class AttrDict(dict):"
  ; "    def __init__(self, *args, **kwargs):"
  ; "        dict.__init__(self, *args, **kwargs)"
  ; "    def __getattr__(self, name):"
  ; "        return self[name]"
  ; "sys.flags = AttrDict((k, getattr(sys.flags, k)) for k in dir(sys.flags))"
  ; "sys.flags[" +:+ Str.quoted "no_user_site" +:+ "] = True"
  ; EmptyString
  ; "# Next we want to import the *real* site module from the base Python. Actually"
  ; "# attempting to do an import here will just import this module again, so we'll"
  ; "# just read the real site module and exec it."
  ; "with open(" +:+ Str.quoted site +:+ ") as fp:"
  ; "    exec(fp.read())"
  ; EmptyString
  ; "# Finally we'll restore the real sys.flags"
  ; "sys.flags = _real_sys_flags"
  ; EmptyString
  ].

Definition site_text (prefix exec_prefix base_prefix base_exec_prefix site : string)
  : string :=
  Str.join Str.nl (site_lines prefix exec_prefix base_prefix base_exec_prefix site).

Definition SITE : string :=
  site_text "__PREFIX__" "__EXEC_PREFIX__" "__BASE_PREFIX__"
            "__BASE_EXEC_PREFIX__" "__SITE__".

(** The five [data.replace] calls of [create_virtual_environment], in the
    order of the source; [destination] fills both the prefix and the
    exec-prefix placeholder. *)
Definition render_site (destination sys_prefix sys_exec_prefix site_py : string)
  : string :=
  let data := SITE in
  let data := Str.replace "__PREFIX__" destination data in
  let data := Str.replace "__EXEC_PREFIX__" destination data in
  let data := Str.replace "__BASE_PREFIX__" sys_prefix data in
  let data := Str.replace "__BASE_EXEC_PREFIX__" sys_exec_prefix data in
  let data := Str.replace "__SITE__" site_py data in
  data.

Definition placeholders : list string :=
  [ "__PREFIX__"; "__EXEC_PREFIX__"; "__BASE_PREFIX__"
  ; "__BASE_EXEC_PREFIX__"; "__SITE__" ].

(** ** A state monad with exceptions

    A statement runs on a state and leaves a state behind, also when it
    raises: nothing is rolled back. *)

Inductive result (E A : Type) : Type :=
| Ok (a : A)
| Err (e : E).
Arguments Ok {E A} a.
Arguments Err {E A} e.

Definition M (S E A : Type) : Type := S → S * result E A.

Section Monad.
Context {S E : Type}.

Definition ret {A} (a : A) : M S E A := λ s, (s, Ok a).
Definition raise {A} (e : E) : M S E A := λ s, (s, Err e).
Definition bind {A B} (m : M S E A) (k : A → M S E B) : M S E B :=
  λ s, match m s with
       | (s', Ok a) => k a s'
       | (s', Err e) => (s', Err e)
       end.
Definition gets {A} (f : S → A) : M S E A := λ s, (s, Ok (f s)).
Definition modify (f : S → S) : M S E unit := λ s, (f s, Ok tt).
Definition lift {A} (r : result E A) : M S E A := λ s, (s, r).

(** [for x in l: body(x)] *)
Fixpoint for_each {A} (l : list A) (body : A → M S E unit) : M S E unit :=
  match l with
  | [] => ret tt
  | x :: l' => bind (body x) (λ _, for_each l' body)
  end.
End Monad.

Global Instance M_ret {S E} : MRet (M S E) := λ A, ret.
Global Instance M_bind {S E} : MBind (M S E) := λ A B k m, bind m k.

(** The pure fragment: a result without a state. *)
Definition rbind {E A B} (r : result E A) (k : A → result E B) : result E B :=
  match r with
  | Ok a => k a
  | Err e => Err e
  end.

(** ** The start-up script *)

Module Script.

(** Attribute values of [sys.flags]. *)
Inductive pyval : Type :=
| PInt (z : Z)
| PBool (b : bool)
| PObject (id : positive).

(** What [sys.flags] is bound to: the interpreter's read-only structure, or
    the dictionary-backed stand-in of class [AttrDict]. *)
Inductive flags_obj : Type :=
| RealFlags (attrs : gmap string pyval)
| AttrDict (items : gmap string pyval).

Inductive exn : Type :=
| KeyError (key : string)
| IOError (path : string)
| NameError (name : string)
| Raised (what : string).

(** The part of the interpreter the script reads and writes: attributes of
    the [sys] module, and the script's global [_real_sys_flags] (unbound
    until the script assigns it).  [sys.base_prefix] and
    [sys.base_exec_prefix] are assigned by the script before it reads
    them. *)
Record interp : Type := Interp {
  sys_prefix : string;
  sys_exec_prefix : string;
  sys_base_prefix : string;
  sys_base_exec_prefix : string;
  sys_path : list string;
  sys_modules : gmap string positive;
  sys_flags : flags_obj;
  _real_sys_flags : option flags_obj;
}.

Definition set_prefixes (p e bp be : string) (st : interp) : interp :=
  Interp p e bp be (sys_path st) (sys_modules st) (sys_flags st)
         (_real_sys_flags st).
Definition set_sys_path (l : list string) (st : interp) : interp :=
  Interp (sys_prefix st) (sys_exec_prefix st) (sys_base_prefix st)
         (sys_base_exec_prefix st) l (sys_modules st) (sys_flags st)
         (_real_sys_flags st).
Definition set_sys_modules (m : gmap string positive) (st : interp) : interp :=
  Interp (sys_prefix st) (sys_exec_prefix st) (sys_base_prefix st)
         (sys_base_exec_prefix st) (sys_path st) m (sys_flags st)
         (_real_sys_flags st).
Definition set_sys_flags (f : flags_obj) (st : interp) : interp :=
  Interp (sys_prefix st) (sys_exec_prefix st) (sys_base_prefix st)
         (sys_base_exec_prefix st) (sys_path st) (sys_modules st) f
         (_real_sys_flags st).
Definition set_real_sys_flags (f : option flags_obj) (st : interp) : interp :=
  Interp (sys_prefix st) (sys_exec_prefix st) (sys_base_prefix st)
         (sys_base_exec_prefix st) (sys_path st) (sys_modules st)
         (sys_flags st) f.

(** The five literals of a rendered script. *)
Record literals : Type := Literals {
  lit_prefix : string;
  lit_exec_prefix : string;
  lit_base_prefix : string;
  lit_base_exec_prefix : string;
  lit_site : string;
}.

Abbreviation stmt := (M interp exn unit).

(** [sys.prefix = ...] to [sys.base_exec_prefix = ...] *)
Definition assign_prefixes (c : literals) : stmt :=
  modify (set_prefixes (lit_prefix c) (lit_exec_prefix c)
                       (lit_base_prefix c) (lit_base_exec_prefix c)).

(** The body of [for path in sys.path], up to the [append]: the value of
    [path] that is appended. *)
Definition rewritten (st : interp) (path : string) : string :=
  if Str.startswith (sys_prefix st) path then
    OsPath.join (sys_base_prefix st)
                (Str.drop (String.length (sys_prefix st) + 1) path)
  else if Str.startswith (sys_exec_prefix st) path then
    OsPath.join (sys_base_exec_prefix st)
                (Str.drop (String.length (sys_exec_prefix st) + 1) path)
  else path.

(** The loop, with [new_sys_path] as the accumulator. *)
Fixpoint rewrite_loop (st : interp) (new_sys_path todo : list string)
  : list string :=
  match todo with
  | [] => new_sys_path
  | path :: todo' =>
      rewrite_loop st (new_sys_path ++ [rewritten st path]) todo'
  end.

(** [new_sys_path = []; for ...; sys.path = new_sys_path] *)
Definition rewrite_sys_path : stmt :=
  modify (λ st, set_sys_path (rewrite_loop st [] (sys_path st)) st).

(** The list literal of the [if key in [...]] test. *)
Definition keep : list string :=
  ["sys"; "site"; "sitecustomize"; "__builtin__"; "__main__"].

(** [del sys.modules[key]] *)
Definition del_module (key : string) : stmt :=
  λ st, match sys_modules st !! key with
        | Some _ => (set_sys_modules (delete key (sys_modules st)) st, Ok tt)
        | None => (st, Err (KeyError key))
        end.

(** The loop over a snapshot [keys] of the registry's names. *)
Definition purge_keys (keys : list string) : stmt :=
  for_each keys (λ key,
    if bool_decide (key ∈ keep) then ret tt else del_module key).

(** [for key in list(sys.modules): ...] *)
Definition purge_modules : stmt :=
  keys ← gets (λ st, (map_to_list (sys_modules st)).*1);
  purge_keys keys.

Section Runtime.
(** [open(path).read()]: the text of a file, when it can be read. *)
Variable read_source : string → option string.
(** [exec(source)] in the script's namespace. *)
Variable exec_source : string → stmt.
(** What [dir] and [getattr] show of an [AttrDict] instance: the
    attributes of its class, not its items. *)
Variable attrdict_attrs : gmap string pyval.

(** [(k, getattr(sys.flags, k)) for k in dir(sys.flags)] *)
Definition flag_attrs (f : flags_obj) : gmap string pyval :=
  match f with
  | RealFlags attrs => attrs
  | AttrDict _ => attrdict_attrs
  end.

(** [_real_sys_flags = sys.flags] to [sys.flags["no_user_site"] = True] *)
Definition spoof_flags : stmt :=
  modify (λ st, set_real_sys_flags (Some (sys_flags st)) st) ;;
  modify (λ st, set_sys_flags (AttrDict (flag_attrs (sys_flags st))) st) ;;
  modify (λ st,
    match sys_flags st with
    | AttrDict items =>
        set_sys_flags (AttrDict (<["no_user_site" := PBool true]> items)) st
    | RealFlags _ => st
    end).

(** [with open(site) as fp: exec(fp.read())] *)
Definition exec_site (c : literals) : stmt :=
  match read_source (lit_site c) with
  | None => raise (IOError (lit_site c))
  | Some source => exec_source source
  end.

(** [sys.flags = _real_sys_flags] *)
Definition restore_flags : stmt :=
  saved ← gets _real_sys_flags;
  match saved with
  | Some f => modify (set_sys_flags f)
  | None => raise (NameError "_real_sys_flags")
  end.

(** The rendered script, top to bottom. *)
Definition run (c : literals) : stmt :=
  assign_prefixes c ;;
  rewrite_sys_path ;;
  purge_modules ;;
  spoof_flags ;;
  exec_site c ;;
  restore_flags.
End Runtime.

(** The allow-list as the specification words it: the core runtime module,
    the start-up module, the pre-start-up customization hook and the
    top-level program module. *)
Definition spec_keep : list string :=
  ["sys"; "site"; "sitecustomize"; "__main__"].


End Script.

(** ** Values decoded from JSON *)

Inductive json : Type :=
| JNull
| JBool (b : bool)
| JInt (z : Z)
| JFloat (lexeme : string)
| JStr (s : string)
| JArr (items : list json)
| JObj (members : list (string * json)).

(** ** The builder *)

Module Builder.

Inductive probe_cause : Type :=
| CannotLaunch
| NonZeroExit (returncode : Z)
| OutputNotUtf8
| OutputNotJson.

(** The failures of a construction.  The first three are the kinds the
    design names; [KeyError] and [TypeError] are Python's own, raised when
    the probed value does not have the shape the builder reads;
    [Unsupported] is no error of the program: it marks a run that this
    development does not follow, because it would need the text [str]
    gives for a float, a list or a dictionary.  Every statement about a
    probed value of any shape is made for values that do not lead there. *)
Inductive error : Type :=
| ProbeFailure (cause : probe_cause)
| MissingDependencyModule (missing : string)
| FilesystemError (path : string)
| KeyError (key : string)
| TypeError
| Unsupported (what : string).

Global Instance result_ret : MRet (result error) := λ A, Ok.
Global Instance result_bind : MBind (result error) := λ A B k r, rbind r k.

(** *** The file system *)

Inductive node : Type :=
| Dir
| File (data : string) (executable : bool).

Abbreviation fs := (gmap string node).
Abbreviation action := (M fs error unit).

(** Modelled from the spec: [ensure_directory] of [virtualenv._utils],
    which is not among the sources.  "Create if absent, no error if
    exists"; a file in the way is a [FilesystemError]. *)
Definition ensure_directory (directory : string) : action :=
  λ t, match t !! directory with
       | None => (<[directory := Dir]> t, Ok tt)
       | Some Dir => (t, Ok tt)
       | Some (File _ _) => (t, Err (FilesystemError directory))
       end.

(** Modelled from the spec: [copyfile] of [virtualenv._utils], which is not
    among the sources.  The destination receives the bytes of the source
    and its executable bit, over whatever file was there; a source that
    does not exist is reported by name as [MissingDependencyModule]; a
    directory on either side is a [FilesystemError]. *)
Definition copyfile (srcfile destfile : string) : action :=
  λ t, match t !! srcfile with
       | None => (t, Err (MissingDependencyModule srcfile))
       | Some Dir => (t, Err (FilesystemError srcfile))
       | Some (File data x) =>
           match t !! destfile with
           | Some Dir => (t, Err (FilesystemError destfile))
           | _ => (<[destfile := File data x]> t, Ok tt)
           end
       end.

(** [open(dst, "w")]: the file is created, or truncated with its mode
    kept. *)
Definition open_w (dst : string) : action :=
  λ t, match t !! dst with
       | None => (<[dst := File EmptyString false]> t, Ok tt)
       | Some (File _ x) => (<[dst := File EmptyString x]> t, Ok tt)
       | Some Dir => (t, Err (FilesystemError dst))
       end.

(** [dst_fp.write(data)] on the file just opened. *)
Definition write (dst data : string) : action :=
  λ t, match t !! dst with
       | Some (File old x) => (<[dst := File (old +:+ data) x]> t, Ok tt)
       | _ => (t, Err (FilesystemError dst))
       end.

(** *** Reading the probed value *)

(** The binding of [key] in a decoded object: of several, the last. *)
Fixpoint assoc_last (key : string) (members : list (string * json))
  : option json :=
  match members with
  | [] => None
  | (k, v) :: rest =>
      match assoc_last key rest with
      | Some v' => Some v'
      | None => if decide (k = key) then Some v else None
      end
  end.

(** [v[key]] for a [str] key. *)
Definition subscript (v : json) (key : string) : result error json :=
  match v with
  | JObj members =>
      match assoc_last key members with
      | Some x => Ok x
      | None => Err (KeyError key)
      end
  | _ => Err TypeError
  end.

(** A value used where the code needs a [str]. *)
Definition as_str (v : json) : result error string :=
  match v with
  | JStr s => Ok s
  | _ => Err TypeError
  end.

Fixpoint chars (s : string) : list json :=
  match s with
  | EmptyString => []
  | String c s' => JStr (String c EmptyString) :: chars s'
  end.

(** [v[:n]], as the sequence [map] then walks. *)
Definition slice_to (n : nat) (v : json) : result error (list json) :=
  match v with
  | JArr items => Ok (take n items)
  | JStr s => Ok (take n (chars s))
  | _ => Err TypeError
  end.

(** [str(v)] for [None], a boolean, an integer and a string.  For a
    float, a list and a dictionary Python gives a text as well; that text
    is not defined here, and the result [Unsupported] marks it. *)
Definition py_str (v : json) : result error string :=
  match v with
  | JNull => Ok "None"
  | JBool true => Ok "True"
  | JBool false => Ok "False"
  | JInt z => Ok (pretty z)
  | JStr s => Ok s
  | JFloat _ => Err (Unsupported "str of a float")
  | JArr _ => Err (Unsupported "str of a list")
  | JObj _ => Err (Unsupported "str of a dict")
  end.

Fixpoint map_str (l : list json) : result error (list string) :=
  match l with
  | [] => Ok []
  | v :: l' =>
      s ← py_str v;
      rest ← map_str l';
      Ok (s :: rest)
  end.

(** ["python{}".format(".".join(map(str, base_python["sys.version_info"][:n])))] *)
Definition python_name (base_python : json) (n : nat) : result error string :=
  version_info ← subscript base_python "sys.version_info";
  parts ← slice_to n version_info;
  strs ← map_str parts;
  Ok ("python" +:+ Str.join "." strs).

(** [os.path.join(base_python["lib"], name)] *)
Definition lib_file (base_python : json) (name : string) : result error string :=
  lib ← subscript base_python "lib";
  lib ← as_str lib;
  Ok (OsPath.join lib name).

(** The five replacements of the template, with the three values read
    from the probed record in the order of the source. *)
Definition render (base_python : json) (destination : string)
  : result error string :=
  sys_prefix ← subscript base_python "sys.prefix";
  sys_prefix ← as_str sys_prefix;
  sys_exec_prefix ← subscript base_python "sys.exec_prefix";
  sys_exec_prefix ← as_str sys_exec_prefix;
  site_py ← subscript base_python "site.py";
  site_py ← as_str site_py;
  Ok (render_site destination sys_prefix sys_exec_prefix site_py).

(** The set literal [modules]. *)
Definition modules : gset string :=
  {[ "posixpath.py"; "stat.py"; "genericpath.py"; "warnings.py";
     "linecache.py"; "types.py"; "UserDict.py"; "_abcoll.py"; "abc.py";
     "_weakrefset.py"; "copy_reg.py" ]}.

(** *** [LegacyBuilder] *)

Record LegacyBuilder : Type := { python : string }.

(** [check_available] *)
Definition check_available (python : string) : bool := true.

(** How the child process ended. *)
Inductive completed : Type :=
| NotStarted
| Exited (returncode : Z) (stdout : string).

(** [subprocess.check_output] on a process that ended as [p]. *)
Definition check_output (p : completed) : result error string :=
  match p with
  | NotStarted => Err (ProbeFailure CannotLaunch)
  | Exited returncode stdout =>
      if decide (returncode = 0%Z) then Ok stdout
      else Err (ProbeFailure (NonZeroExit returncode))
  end.

Section Host.
(** Running the interpreter at a path on the inline program. *)
Variable spawn : string → completed.
(** [bytes.decode("utf8")] *)
Variable decode_utf8 : string → option string.
(** [json.loads] *)
Variable json_loads : string → option json.

(** [_get_base_python_info] *)
Definition _get_base_python_info (self : LegacyBuilder) : result error json :=
  output ← check_output (spawn (python self));
  match decode_utf8 output with
  | None => Err (ProbeFailure OutputNotUtf8)
  | Some text =>
      match json_loads text with
      | None => Err (ProbeFailure OutputNotJson)
      | Some value => Ok value
      end
  end.

(** [create_virtual_environment].  [order] is the order in which the
    [for] loop visits the set [modules]. *)
Definition create_virtual_environment
    (self : LegacyBuilder) (order : list string) (destination : string)
  : action :=
  base_python ← lift (_get_base_python_info self);
  let bin_dir := OsPath.join destination "bin" in
  ensure_directory bin_dir;;
  for_each [0; 1; 2] (λ i,
    executable ← lift (subscript base_python "sys.executable");
    name ← lift (python_name base_python i);
    executable ← lift (as_str executable);
    copyfile executable (OsPath.join bin_dir name));;
  name ← lift (python_name base_python 2);
  let lib_dir := OsPath.join3 destination "lib" name in
  ensure_directory lib_dir;;
  let site_packages_dir := OsPath.join lib_dir "site-packages" in
  ensure_directory site_packages_dir;;
  src ← lift (lib_file base_python "os.py");
  copyfile src (OsPath.join lib_dir "os.py");;
  for_each order (λ module,
    src ← lift (lib_file base_python module);
    copyfile src (OsPath.join lib_dir module));;
  let dst := OsPath.join lib_dir "site.py" in
  open_w dst;;
  data ← lift (render base_python destination);
  write dst data.
End Host.

(** *** The layout, as the design states it *)

Record EnvironmentLayout : Type := Layout {
  bin_dir : string;
  lib_dir : string;
  site_packages_dir : string;
}.

(** The three directories [create_virtual_environment] computes. *)
Definition layout (base_python : json) (destination : string)
  : result error EnvironmentLayout :=
  name ← python_name base_python 2;
  let lib := OsPath.join3 destination "lib" name in
  Ok (Layout (OsPath.join destination "bin") lib
             (OsPath.join lib "site-packages")).

(** What the inline program reports about an interpreter. *)
Record BaseInterpreterInfo : Type := Info {
  major : Z;
  minor : Z;
  micro : Z;
  releaselevel : string;
  serial : Z;
  executable : string;
  prefix : string;
  exec_prefix : string;
  lib : string;
  site_py : string;
}.

(** The dictionary of the inline program, as [json.loads] gives it back. *)
Definition info_json (i : BaseInterpreterInfo) : json :=
  JObj [ ("sys.version_info",
          JArr [JInt (major i); JInt (minor i); JInt (micro i);
                JStr (releaselevel i); JInt (serial i)])
       ; ("sys.executable", JStr (executable i))
       ; ("sys.prefix", JStr (prefix i))
       ; ("sys.exec_prefix", JStr (exec_prefix i))
       ; ("lib", JStr (lib i))
       ; ("site.py", JStr (site_py i)) ].

(** The record of [i] with the micro component [p]. *)
Definition with_micro (p : Z) (i : BaseInterpreterInfo) : BaseInterpreterInfo :=
  Info (major i) (minor i) p (releaselevel i) (serial i) (executable i)
       (prefix i) (exec_prefix i) (lib i) (site_py i).

(** *** The construction as a list of file operations *)

Inductive op : Type :=
| EnsureDirectory (directory : string)
| CopyFile (srcfile destfile : string)
| WriteText (dst data : string).

Definition run_op (o : op) : action :=
  match o with
  | EnsureDirectory directory => ensure_directory directory
  | CopyFile srcfile destfile => copyfile srcfile destfile
  | WriteText dst data => open_w dst;; write dst data
  end.

Definition run_ops (ops : list op) : action := for_each ops run_op.

(** The path an operation writes. *)
Definition target (o : op) : string :=
  match o with
  | EnsureDirectory directory => directory
  | CopyFile _ destfile => destfile
  | WriteText dst _ => dst
  end.

(** The operations of [create_virtual_environment] for a record of the
    documented shape, in the order of the source. *)
Definition plan (i : BaseInterpreterInfo) (order : list string)
    (destination : string) : list op :=
  let bin_dir := OsPath.join destination "bin" in
  let name := "python" +:+ pretty (major i) +:+ "." +:+ pretty (minor i) in
  let lib_dir := OsPath.join3 destination "lib" name in
  [ EnsureDirectory bin_dir
  ; CopyFile (executable i) (OsPath.join bin_dir "python")
  ; CopyFile (executable i) (OsPath.join bin_dir ("python" +:+ pretty (major i)))
  ; CopyFile (executable i) (OsPath.join bin_dir name)
  ; EnsureDirectory lib_dir
  ; EnsureDirectory (OsPath.join lib_dir "site-packages")
  ; CopyFile (OsPath.join (lib i) "os.py") (OsPath.join lib_dir "os.py") ]
  ++ ((λ module, CopyFile (OsPath.join (lib i) module)
                          (OsPath.join lib_dir module)) <$> order)
  ++ [ WriteText (OsPath.join lib_dir "site.py")
         (render_site destination (prefix i) (exec_prefix i) (site_py i)) ].

(** What an operation leaves at its target, the sources being read from
    [t]. *)
Definition effect (t : fs) (o : op) : option (string * node) :=
  match o with
  | EnsureDirectory directory => Some (directory, Dir)
  | CopyFile srcfile destfile =>
      match t !! srcfile with
      | Some (File data x) => Some (destfile, File data x)
      | _ => None
      end
  | WriteText dst data =>
      Some (dst, File data match t !! dst with
                           | Some (File _ x) => x
                           | _ => false
                           end)
  end.

Definition effects (t : fs) (ops : list op) : list (string * node) :=
  omap (effect t) ops.

(** The tree a list of operations writes. *)
Definition image (t : fs) (ops : list op) : fs := list_to_map (effects t ops).

(** An operation that [t] does not stand in the way of. *)
Definition ready (t : fs) (o : op) : Prop :=
  match o with
  | EnsureDirectory directory =>
      t !! directory = None ∨ t !! directory = Some Dir
  | CopyFile srcfile destfile =>
      (∃ data x, t !! srcfile = Some (File data x)) ∧ t !! destfile ≠ Some Dir
  | WriteText dst _ => t !! dst ≠ Some Dir
  end.

(** No two operations leave different things at one path. *)
Definition functional (l : list (string * node)) : Prop :=
  ∀ k v v', (k, v) ∈ l → (k, v') ∈ l → v = v'.

(** The operations do not overwrite what they copy from. *)
Definition stable (t : fs) (ops : list op) : Prop :=
  ∀ srcfile destfile, CopyFile srcfile destfile ∈ ops →
    image t ops !! srcfile = None ∨ image t ops !! srcfile = t !! srcfile.

(** Nothing exists below [destination]. *)
Definition empty_below (destination : string) (t : fs) : Prop :=
  ∀ path, Str.startswith (OsPath.with_sep destination) path = true →
          t !! path = None.

Definition is_file (t : fs) (path : string) : Prop :=
  ∃ data x, t !! path = Some (File data x).

(** A base installation that has every file the builder copies. *)
Definition complete_base (t : fs) (i : BaseInterpreterInfo) : Prop :=
  is_file t (executable i)
  ∧ is_file t (OsPath.join (lib i) "os.py")
  ∧ ∀ m, m ∈ modules → is_file t (OsPath.join (lib i) m).

(** The sources of the copies are files. *)
Definition sources_ok (t : fs) (ops : list op) : Prop :=
  ∀ srcfile destfile, CopyFile srcfile destfile ∈ ops → is_file t srcfile.

End Builder.

(** ** A decoder for plain JSON texts

    Enough of [json.loads] and of [bytes.decode] to run the builder on
    concrete outputs: ASCII texts made of objects, arrays, strings without
    escapes, integers and the three literals.  A text outside this fragment
    is not decoded. *)

Module JsonText.

Definition is_ws (c : ascii) : bool :=
  bool_decide (c = " "%char) || bool_decide (c = "009"%char)
  || bool_decide (c = "010"%char) || bool_decide (c = "013"%char).

Fixpoint skip_ws (s : string) : string :=
  match s with
  | String c s' => if is_ws c then skip_ws s' else s
  | EmptyString => s
  end.

Definition digit (c : ascii) : option Z :=
  let n := nat_of_ascii c in
  if bool_decide (48 ≤ n ≤ 57)%nat then Some (Z.of_nat (n - 48)) else None.

Fixpoint digits (acc : Z) (s : string) : Z * string :=
  match s with
  | String c s' =>
      match digit c with
      | Some d => digits (10 * acc + d) s'
      | None => (acc, s)
      end
  | EmptyString => (acc, s)
  end.

(** An integer without sign: a lone zero, or digits that do not start with
    zero; a fraction or an exponent after it is outside the fragment. *)
Definition natural (s : string) : option (Z * string) :=
  match s with
  | String c s' =>
      match digit c with
      | Some d =>
          let '(n, rest) :=
            if bool_decide (d = 0%Z) then (0%Z, s') else digits d s' in
          if Str.startswith "." rest || Str.startswith "e" rest
             || Str.startswith "E" rest
          then None else Some (n, rest)
      | None => None
      end
  | EmptyString => None
  end.

(** The characters of a string up to its closing quote. *)
Fixpoint text (acc : string) (s : string) : option (string * string) :=
  match s with
  | EmptyString => None
  | String c s' =>
      if bool_decide (c = "034"%char) then Some (String.rev acc, s')
      else if bool_decide (c = "\"%char) then None
      else if bool_decide (nat_of_ascii c < 32)%nat then None
      else text (String c acc) s'
  end.

Fixpoint value (fuel : nat) (s : string) : option (json * string) :=
  match fuel with
  | O => None
  | S fuel =>
      let s := skip_ws s in
      if Str.startswith "null" s then Some (JNull, Str.drop 4 s)
      else if Str.startswith "true" s then Some (JBool true, Str.drop 4 s)
      else if Str.startswith "false" s then Some (JBool false, Str.drop 5 s)
      else if Str.startswith Str.dq s then
        '(x, rest) ← text EmptyString (Str.drop 1 s); Some (JStr x, rest)
      else if Str.startswith "-" s then
        '(n, rest) ← natural (Str.drop 1 s); Some (JInt (- n), rest)
      else if Str.startswith "[" s then
        let s := skip_ws (Str.drop 1 s) in
        if Str.startswith "]" s then Some (JArr [], Str.drop 1 s)
        else '(l, rest) ← items fuel [] s; Some (JArr l, rest)
      else if Str.startswith "{" s then
        let s := skip_ws (Str.drop 1 s) in
        if Str.startswith "}" s then Some (JObj [], Str.drop 1 s)
        else '(l, rest) ← members fuel [] s; Some (JObj l, rest)
      else
        '(n, rest) ← natural s; Some (JInt n, rest)
  end
with items (fuel : nat) (acc : list json) (s : string)
  : option (list json * string) :=
  match fuel with
  | O => None
  | S fuel =>
      '(v, rest) ← value fuel s;
      let rest := skip_ws rest in
      if Str.startswith "," rest then items fuel (v :: acc) (Str.drop 1 rest)
      else if Str.startswith "]" rest
      then Some (rev (v :: acc), Str.drop 1 rest)
      else None
  end
with members (fuel : nat) (acc : list (string * json)) (s : string)
  : option (list (string * json) * string) :=
  match fuel with
  | O => None
  | S fuel =>
      let s := skip_ws s in
      if Str.startswith Str.dq s then
        '(k, rest) ← text EmptyString (Str.drop 1 s);
        let rest := skip_ws rest in
        if Str.startswith ":" rest then
          '(v, rest) ← value fuel (Str.drop 1 rest);
          let rest := skip_ws rest in
          if Str.startswith "," rest
          then members fuel ((k, v) :: acc) (Str.drop 1 rest)
          else if Str.startswith "}" rest
          then Some (rev ((k, v) :: acc), Str.drop 1 rest)
          else None
        else None
      else None
  end.

(** One value, with nothing but white space around it. *)
Definition loads (s : string) : option json :=
  '(v, rest) ← value (S (String.length s)) s;
  match skip_ws rest with
  | EmptyString => Some v
  | String _ _ => None
  end.

Fixpoint all_ascii (s : string) : bool :=
  match s with
  | EmptyString => true
  | String c s' => bool_decide (nat_of_ascii c < 128)%nat && all_ascii s'
  end.

(** On ASCII bytes, decoding as UTF-8 changes nothing. *)
Definition decode (bytes : string) : option string :=
  if all_ascii bytes then Some bytes else None.

End JsonText.

(** ** A sample host *)

Module Sample.
Import Builder.

Definition base : BaseInterpreterInfo :=
  {| major := 3; minor := 8; micro := 2; releaselevel := "final";
     serial := 0; executable := "/usr/bin/python3.8"; prefix := "/usr";
     exec_prefix := "/usr"; lib := "/usr/lib/python3.8";
     site_py := "/usr/lib/python3.8/site.py" |}.

Definition member (k v : string) : string := Str.quoted k +:+ ": " +:+ v.

(** What [print(json.dumps({...}))] writes for [base]. *)
Definition output : string :=
  "{" +:+ member "sys.version_info" ("[3, 8, 2, " +:+ Str.quoted "final" +:+ ", 0]")
  +:+ ", " +:+ member "sys.executable" (Str.quoted "/usr/bin/python3.8")
  +:+ ", " +:+ member "sys.prefix" (Str.quoted "/usr")
  +:+ ", " +:+ member "sys.exec_prefix" (Str.quoted "/usr")
  +:+ ", " +:+ member "lib" (Str.quoted "/usr/lib/python3.8")
  +:+ ", " +:+ member "site.py" (Str.quoted "/usr/lib/python3.8/site.py")
  +:+ "}" +:+ Str.nl.

Definition builder : LegacyBuilder := {| python := "/usr/bin/python3.8" |}.

(** Only the interpreter of [builder] can be started. *)
Definition spawn (path : string) : completed :=
  if decide (path = "/usr/bin/python3.8") then Exited 0 output else NotStarted.

(** An interpreter that prints an empty list and exits with status 0. *)
Definition spawn_list (path : string) : completed :=
  Exited 0 ("[]" +:+ Str.nl).

Definition elf : string := "ELF-python3.8".

Definition lib_files (names : list string) : list (string * node) :=
  (λ name, ("/usr/lib/python3.8/" +:+ name, File ("# " +:+ name) false)) <$> names.

(** A base installation with every file the builder copies. *)
Definition disk : fs :=
  list_to_map
    (("/usr/bin/python3.8", File elf true)
     :: lib_files ("os.py" :: "site.py" :: elements modules)).

(** The same installation without [stat.py]. *)
Definition disk_without_stat : fs := delete "/usr/lib/python3.8/stat.py" disk.

Definition create (order : list string) (destination : string) : action :=
  create_virtual_environment spawn JsonText.decode JsonText.loads
                             builder order destination.

End Sample.


(** ** A sample interpreter state *)

Module ScriptSample.
Import Script.

Definition lits : literals :=
  Literals "/env" "/env" "/usr" "/usr" "/usr/lib/python2.7/site.py".

Definition real_flags : flags_obj :=
  RealFlags {[ "debug" := PInt 0; "no_user_site" := PInt 0 ]}.

Definition st0 : interp :=
  {| sys_prefix := "/env"; sys_exec_prefix := "/env";
     sys_base_prefix := EmptyString; sys_base_exec_prefix := EmptyString;
     sys_path := ["/env/lib/python2.7"; "/env/lib/python2.7/lib-dynload";
                  "/opt/extra"];
     sys_modules := {[ "sys" := 1%positive; "__builtin__" := 2%positive;
                       "os" := 3%positive; "site" := 4%positive ]};
     sys_flags := real_flags;
     _real_sys_flags := None |}.

Definition read_any (path : string) : option string := Some "pass".


(** A start-up module that runs to its end. *)
Definition exec_ok (source : string) : stmt := ret tt.

(** A start-up module that raises. *)
Definition exec_fails (source : string) : stmt := raise (Raised "ImportError").

End ScriptSample.

(** ** What an action may do to the tree

    A result is followed when it is not [Unsupported]: the run did not
    need a text that [Builder.py_str] leaves open.  An action is tame below
    [D] when its result is followed, it leaves every path that does not
    start with [D] as it was, and it leaves every path that existed in
    existence. *)

Definition followed {A : Type} (r : result Builder.error A) : Prop :=
  ∀ what, r ≠ Err (Builder.Unsupported what).

Definition tame (D : string) {A : Type}
    (a : M (gmap string Builder.node) Builder.error A) : Prop :=
  ∀ t,
    followed (a t).2
    ∧ (∀ k, Str.startswith D k = false → (a t).1 !! k = t !! k)
    ∧ (∀ k, is_Some (t !! k) → is_Some ((a t).1 !! k)).

(** A value whose text [Builder.py_str] gives. *)
Definition printable (x : json) : Prop :=
  match x with
  | JFloat _ | JArr _ | JObj _ => False
  | _ => True
  end.

(** A probed value whose version components, when they come as a list, are
    all printable. *)
Definition plain_version (v : json) : Prop :=
  ∀ items, Builder.subscript v "sys.version_info" = Ok (JArr items) →
           Forall printable items.

(** ** More sample hosts *)

Module Hosts.
Import Builder.

(** An interpreter that prints an empty object and exits with status 0. *)
Definition spawn_object (path : string) : completed :=
  Exited 0 ("{}" +:+ Str.nl).

(** A builder for a path at which nothing can be started. *)
Definition nowhere : LegacyBuilder := {| python := "/nowhere/python" |}.

End Hosts.

(** ** The template between its placeholder sites *)

Module Template.

(** The text of [s] before the first occurrence of [t], and the text after
    that occurrence. *)
Fixpoint before (t s : string) : string :=
  match s with
  | EmptyString => EmptyString
  | String c s' => if Str.startswith t s then EmptyString else String c (before t s')
  end.

Fixpoint after (t s : string) : string :=
  match s with
  | EmptyString => EmptyString
  | String _ s' =>
      if Str.startswith t s then Str.drop (String.length t) s else after t s'
  end.

Definition quote : ascii := "034"%char.

(** The six stretches of [SITE] around its five quoted placeholders. *)
Definition text0 : string := Eval vm_compute in
  before (Str.quoted "__PREFIX__") SITE.
Definition rest0 : string := Eval vm_compute in
  after (Str.quoted "__PREFIX__") SITE.
Definition text1 : string := Eval vm_compute in
  before (Str.quoted "__EXEC_PREFIX__") rest0.
Definition rest1 : string := Eval vm_compute in
  after (Str.quoted "__EXEC_PREFIX__") rest0.
Definition text2 : string := Eval vm_compute in
  before (Str.quoted "__BASE_PREFIX__") rest1.
Definition rest2 : string := Eval vm_compute in
  after (Str.quoted "__BASE_PREFIX__") rest1.
Definition text3 : string := Eval vm_compute in
  before (Str.quoted "__BASE_EXEC_PREFIX__") rest2.
Definition rest3 : string := Eval vm_compute in
  after (Str.quoted "__BASE_EXEC_PREFIX__") rest2.
Definition text4 : string := Eval vm_compute in
  before (Str.quoted "__SITE__") rest3.
Definition text5 : string := Eval vm_compute in
  after (Str.quoted "__SITE__") rest3.

(** A value between its two quotes, before the text [rest]. *)
Definition lit (v rest : string) : string :=
  String quote (v +:+ String quote rest).

(** The stretches with five values at the sites. *)
Definition assemble (v1 v2 v3 v4 v5 : string) : string :=
  text0 +:+ lit v1 (text1 +:+ lit v2 (text2 +:+ lit v3
    (text3 +:+ lit v4 (text4 +:+ lit v5 text5)))).

(** No text in [tokens] occurs in [v]. *)
Definition free_of (tokens : list string) (v : string) : Prop :=
  Forall (λ t, Str.contains t v = false) tokens.

End Template.

(** ** The construction before [site.py] is written *)

(** The operations of [Builder.plan] before the text of [site.py] is
    written. *)
Definition staging (i : Builder.BaseInterpreterInfo) (order : list string)
    (destination : string) : list Builder.op :=
  let bin_dir := OsPath.join destination "bin" in
  let name :=
    "python" +:+ pretty (Builder.major i) +:+ "." +:+ pretty (Builder.minor i) in
  let lib_dir := OsPath.join3 destination "lib" name in
  [ Builder.EnsureDirectory bin_dir
  ; Builder.CopyFile (Builder.executable i) (OsPath.join bin_dir "python")
  ; Builder.CopyFile (Builder.executable i)
      (OsPath.join bin_dir ("python" +:+ pretty (Builder.major i)))
  ; Builder.CopyFile (Builder.executable i) (OsPath.join bin_dir name)
  ; Builder.EnsureDirectory lib_dir
  ; Builder.EnsureDirectory (OsPath.join lib_dir "site-packages")
  ; Builder.CopyFile (OsPath.join (Builder.lib i) "os.py")
      (OsPath.join lib_dir "os.py") ]
  ++ ((λ module, Builder.CopyFile (OsPath.join (Builder.lib i) module)
                                  (OsPath.join lib_dir module)) <$> order).

(** A probed value that reads like the record of [i] at the three keys the
    construction uses before it opens [site.py]. *)
Definition same_layout (v : json) (i : Builder.BaseInterpreterInfo) : Prop :=
  Forall (λ key, Builder.subscript v key
                 = Builder.subscript (Builder.info_json i) key)
         ["sys.executable"; "sys.version_info"; "lib"].

Module Partial.
Import Builder.

(** What the inline program would write without the two prefixes. *)
Definition output : string :=
  "{" +:+ Sample.member "sys.version_info"
            ("[3, 8, 2, " +:+ Str.quoted "final" +:+ ", 0]")
  +:+ ", " +:+ Sample.member "sys.executable" (Str.quoted "/usr/bin/python3.8")
  +:+ ", " +:+ Sample.member "lib" (Str.quoted "/usr/lib/python3.8")
  +:+ ", " +:+ Sample.member "site.py" (Str.quoted "/usr/lib/python3.8/site.py")
  +:+ "}" +:+ Str.nl.

Definition value : json :=
  JObj [ ("sys.version_info",
          JArr [JInt 3; JInt 8; JInt 2; JStr "final"; JInt 0])
       ; ("sys.executable", JStr "/usr/bin/python3.8")
       ; ("lib", JStr "/usr/lib/python3.8")
       ; ("site.py", JStr "/usr/lib/python3.8/site.py") ].

Definition spawn (path : string) : completed := Exited 0 output.

End Partial.

(** * Properties *)

(** ** The availability check *)

(** C10: [check_available] answers [True] for every interpreter path. *)
Theorem check_available_always (python : string) :
  Builder.check_available python = true.
Proof. reflexivity. Qed.

(** ** Rendering the template *)

(** The placeholders do not overlap: each stands in the template only where
    the source writes it. *)
Lemma SITE_placeholder_counts :
  (λ token, Str.count token SITE) <$> placeholders = [1; 1; 1; 1; 1].
Proof. vm_compute. reflexivity. Qed.

(** C5: with destination [/env] and a base installation at [/usr] whose
    start-up module is [/usr/lib/startup.py], the rendered text holds no
    placeholder any more; it is the template with [/env] at the prefix and
    at the exec-prefix site, [/usr] at the two base sites and the path of
    the start-up module at the [open] site. *)
Theorem render_site_sample :
  let data := render_site "/env" "/usr" "/usr" "/usr/lib/startup.py" in
  Forall (λ token, Str.count token data = 0 ∧ Str.contains token data = false)
         placeholders
  ∧ data = site_text "/env" "/env" "/usr" "/usr" "/usr/lib/startup.py"
  ∧ Str.split_lines data !! 6 = Some ("sys.prefix = " +:+ Str.quoted "/env")
  ∧ Str.split_lines data !! 7 = Some ("sys.exec_prefix = " +:+ Str.quoted "/env")
  ∧ Str.split_lines data !! 10 = Some ("sys.base_prefix = " +:+ Str.quoted "/usr")
  ∧ Str.split_lines data !! 11
    = Some ("sys.base_exec_prefix = " +:+ Str.quoted "/usr")
  ∧ Str.split_lines data !! 66
    = Some ("with open(" +:+ Str.quoted "/usr/lib/startup.py" +:+ ") as fp:")
  ∧ Str.count "/env" data = 2
  ∧ Str.count "/usr" data = 3
  ∧ Str.count "/usr/lib/startup.py" data = 1.
Proof.
  intros data. split.
  - unfold placeholders.
    repeat (apply Forall_cons; split; [split; vm_compute; reflexivity|]).
    constructor.
  - repeat (split; [vm_compute; reflexivity|]). vm_compute; reflexivity.
Qed.

(** ** The start-up script: the search path *)

Lemma rewrite_loop_map (st : Script.interp) (todo new_sys_path : list string) :
  Script.rewrite_loop st new_sys_path todo
  = (new_sys_path ++ map (Script.rewritten st) todo)%list.
Proof.
  revert new_sys_path. induction todo as [|path todo IH]; intros acc; simpl.
  - by rewrite app_nil_r.
  - rewrite IH. by rewrite <- app_assoc.
Qed.

(** An entry that is the prefix, a separator and a relative remainder comes
    out as the base prefix, a separator and that remainder: the prefix is
    replaced. *)
Lemma rewritten_below_prefix (st : Script.interp) (rest : string) :
  Script.sys_base_prefix st ≠ EmptyString →
  Str.endswith_sep (Script.sys_base_prefix st) = false →
  Str.startswith "/" rest = false →
  Script.rewritten st (Script.sys_prefix st +:+ "/" +:+ rest)
  = Script.sys_base_prefix st +:+ "/" +:+ rest.
Proof.
  intros Hne Hend Hrest. unfold Script.rewritten.
  assert (Hpre : ∀ p s, Str.startswith p (p +:+ s) = true).
  { induction p as [|a p IH]; intros s; simpl; [done|].
    by rewrite decide_True. }
  assert (Hdrop : ∀ p s, Str.drop (String.length p + 1) (p +:+ "/" +:+ s) = s).
  { induction p as [|a p IH]; intros s; simpl; [done|]. apply IH. }
  rewrite Hpre, Hdrop. unfold OsPath.join.
  rewrite Hrest, Hend. by rewrite decide_False.
Qed.


(** On the sample state the two entries below [/env] move below [/usr] and
    the third stays. *)
Example rewrite_sys_path_sample :
  Script.sys_path
    ((Script.assign_prefixes ScriptSample.lits;; Script.rewrite_sys_path)
       ScriptSample.st0).1
  = ["/usr/lib/python2.7"; "/usr/lib/python2.7/lib-dynload"; "/opt/extra"].
Proof. reflexivity. Qed.


(** ** The start-up script: the module registry *)

Lemma set_sys_modules_same (st : Script.interp) :
  Script.set_sys_modules (Script.sys_modules st) st = st.
Proof. by destruct st. Qed.

(** The loop over any snapshot without repetition whose names are all
    registered: no [del] fails, and what is left are the entries whose name
    is on the list of the source or was not in the snapshot. *)
Lemma purge_keys_spec (keys : list string) (st : Script.interp) :
  NoDup keys →
  (∀ key, key ∈ keys → is_Some (Script.sys_modules st !! key)) →
  Script.purge_keys keys st
  = (Script.set_sys_modules
       (filter (λ kv, kv.1 ∈ Script.keep ∨ kv.1 ∉ keys) (Script.sys_modules st))
       st, Ok tt).
Proof.
  revert st. induction keys as [|key keys IH]; intros st Hnd Hin.
  - simpl. unfold ret. f_equal.
    rewrite map_filter_id; [by rewrite set_sys_modules_same|].
    intros k v _. right. apply not_elem_of_nil.
  - apply NoDup_cons in Hnd as [Hnot Hnd].
    unfold Script.purge_keys in *. simpl. unfold bind.
    case_bool_decide as Hkeep.
    + unfold ret. rewrite IH; [|done|intros k Hk; apply Hin; by right].
      f_equal. f_equal. apply map_filter_ext. intros k v _. simpl.
      rewrite not_elem_of_cons. split; [|tauto].
      intros [?|?]; [by left|]. destruct (decide (k = key)) as [->|]; auto.
    + unfold Script.del_module.
      destruct (Hin key) as [h Hh]; [by left|]. rewrite Hh.
      rewrite IH; [|done|].
      * f_equal. destruct st; simpl. unfold Script.set_sys_modules; simpl.
        f_equal. apply map_eq. intros k.
        rewrite !map_lookup_filter. destruct (decide (k = key)) as [->|Hne].
        -- rewrite lookup_delete_eq. simpl in Hh. rewrite Hh. simpl.
           rewrite option_guard_False; [done|].
           intros [?|Hn]; [done|]. apply Hn. by left.
        -- rewrite lookup_delete_ne by done.
           destruct (sys_modules !! k) as [h'|]; simpl; [|done].
           apply option_guard_iff. rewrite not_elem_of_cons. tauto.
      * intros k Hk. simpl. rewrite lookup_delete_ne; [apply Hin; by right|].
        intros ->. done.
Qed.

(** The loop of the script, over the registry's own names: what is left are
    exactly the entries whose name is on the list of the source. *)
Lemma purge_modules_spec (st : Script.interp) :
  Script.purge_modules st
  = (Script.set_sys_modules
       (filter (λ kv, kv.1 ∈ Script.keep) (Script.sys_modules st)) st, Ok tt).
Proof.
  unfold Script.purge_modules. simpl. unfold mbind, M_bind, bind, gets.
  rewrite purge_keys_spec.
  - f_equal. f_equal. apply map_filter_ext. intros k v Hk. simpl.
    split; [|by left]. intros [?|Hn]; [done|]. destruct Hn.
    apply list_elem_of_fmap. exists (k, v). split; [done|].
    by apply elem_of_map_to_list.
  - apply NoDup_fst_map_to_list.
  - intros key [[k v] [-> Hkv]]%list_elem_of_fmap.
    apply elem_of_map_to_list in Hkv. by exists v.
Qed.

(** The order of the snapshot does not matter. *)
Lemma purge_keys_any_order (keys : list string) (st : Script.interp) :
  keys ≡ₚ (map_to_list (Script.sys_modules st)).*1 →
  Script.purge_keys keys st = Script.purge_modules st.
Proof.
  intros Hperm. rewrite purge_modules_spec, purge_keys_spec.
  - f_equal. f_equal. apply map_filter_ext. intros k v Hk. simpl.
    split; [|by left]. intros [?|Hn]; [done|]. destruct Hn.
    rewrite Hperm. apply list_elem_of_fmap. exists (k, v). split; [done|].
    by apply elem_of_map_to_list.
  - rewrite Hperm. apply NoDup_fst_map_to_list.
  - intros key Hkey. rewrite Hperm in Hkey.
    apply list_elem_of_fmap in Hkey as [[k v] [-> Hkv]].
    apply elem_of_map_to_list in Hkv. by exists v.
Qed.

(** C2, as the code has it: the purge never fails, and the registry it
    leaves holds exactly the entries whose name is one of [sys], [site],
    [sitecustomize], [__builtin__] and [__main__]; every other entry is
    deleted. *)
Theorem purge_modules_survivors (st : Script.interp) :
  ∃ st',
    Script.purge_modules st = (st', Ok tt)
    ∧ ∀ name,
        Script.sys_modules st' !! name
        = if bool_decide
               (name ∈ ["sys"; "site"; "sitecustomize"; "__builtin__"; "__main__"])
          then Script.sys_modules st !! name
          else None.
Proof.
  eexists. split; [apply purge_modules_spec|]. intros name. simpl.
  rewrite map_lookup_filter. case_bool_decide as Hin.
  - destruct (Script.sys_modules st !! name); simpl; [|done].
    by rewrite option_guard_True.
  - destruct (Script.sys_modules st !! name); simpl; [|done].
    by rewrite option_guard_False.
Qed.

(** C2, against the list of four the specification gives: the built-in
    module survives the purge of the sample registry, and it is none of the
    four. *)
Lemma purge_keeps_builtin :
  let st' := (Script.purge_modules ScriptSample.st0).1 in
  Script.sys_modules st' !! "__builtin__" = Some 2%positive
  ∧ Script.sys_modules st' !! "os" = None
  ∧ "__builtin__" ∉ Script.spec_keep.
Proof.
  split; [|split].
  - vm_compute. reflexivity.
  - vm_compute. reflexivity.
  - unfold Script.spec_keep. rewrite !not_elem_of_cons. repeat split; try done.
    apply not_elem_of_nil.
Qed.

(** ** The start-up script: the flags *)

(** The script up to [exec]: the state the start-up module is run in has the
    original flags saved and the stand-in installed. *)
Lemma run_until_exec read_source exec_source attrdict_attrs c st :
  ∃ st1,
    Script._real_sys_flags st1 = Some (Script.sys_flags st)
    ∧ Script.sys_flags st1
      = Script.AttrDict (<["no_user_site" := Script.PBool true]>
                           (Script.flag_attrs attrdict_attrs (Script.sys_flags st)))
    ∧ Script.run read_source exec_source attrdict_attrs c st
      = match read_source (Script.lit_site c) with
        | None => (st1, Err (Script.IOError (Script.lit_site c)))
        | Some source =>
            match exec_source source st1 with
            | (st2, Ok _) => Script.restore_flags st2
            | (st2, Err e) => (st2, Err e)
            end
        end.
Proof.
  unfold Script.run. simpl. unfold mbind, M_bind, bind. simpl.
  rewrite purge_modules_spec. simpl.
  eexists. split; [|split]; [| |unfold Script.exec_site;
    destruct (read_source (Script.lit_site c)); reflexivity].
  - reflexivity.
  - reflexivity.
Qed.

(** What the script leaves when the start-up module runs to its end and has
    not rebound the script's [_real_sys_flags]. *)
Lemma run_normal_restores read_source exec_source attrdict_attrs c st st' :
  (∀ source s s', exec_source source s = (s', Ok tt) →
                  Script._real_sys_flags s' = Script._real_sys_flags s) →
  Script.run read_source exec_source attrdict_attrs c st = (st', Ok tt) →
  Script.sys_flags st' = Script.sys_flags st.
Proof.
  intros Hkeep.
  destruct (run_until_exec read_source exec_source attrdict_attrs c st)
    as (st1 & Hsaved & _ & ->).
  destruct (read_source (Script.lit_site c)) as [source|]; [|done].
  destruct (exec_source source st1) as [st2 [[]|e]] eqn:Hexec; [|done].
  apply Hkeep in Hexec. rewrite Hsaved in Hexec.
  unfold Script.restore_flags. simpl. unfold mbind, M_bind, bind, gets.
  rewrite Hexec. unfold modify. intros [= <-]. reflexivity.
Qed.

(** C6, as the code has it: when the execution of the base start-up module
    completes normally, without rebinding the name the script saved the
    flags under, the script ends with [sys.flags] bound to the original
    structure. *)
Theorem flags_restored_after_normal_exec
    read_source exec_source attrdict_attrs c st st' :
  (∀ source s s', exec_source source s = (s', Ok tt) →
                  Script._real_sys_flags s' = Script._real_sys_flags s) →
  Script.run read_source exec_source attrdict_attrs c st = (st', Ok tt) →
  Script.sys_flags st' = Script.sys_flags st.
Proof. apply run_normal_restores. Qed.

Lemma flags_restored_after_normal_exec_witness :
  Script.run ScriptSample.read_any ScriptSample.exec_ok ∅ ScriptSample.lits
             ScriptSample.st0
  = ((Script.run ScriptSample.read_any ScriptSample.exec_ok ∅
                 ScriptSample.lits ScriptSample.st0).1, Ok tt)
  ∧ Script.sys_flags
      (Script.run ScriptSample.read_any ScriptSample.exec_ok ∅
                  ScriptSample.lits ScriptSample.st0).1
    = Script.sys_flags ScriptSample.st0.
Proof.
  assert (H : Script.run ScriptSample.read_any ScriptSample.exec_ok ∅
                ScriptSample.lits ScriptSample.st0
              = ((Script.run ScriptSample.read_any ScriptSample.exec_ok ∅
                    ScriptSample.lits ScriptSample.st0).1, Ok tt)).
  { vm_compute. reflexivity. }
  split; [exact H|].
  apply (flags_restored_after_normal_exec
           ScriptSample.read_any ScriptSample.exec_ok ∅ ScriptSample.lits
           ScriptSample.st0 _).
  - intros source s s' Hexec. unfold ScriptSample.exec_ok, mret, M_ret, ret in Hexec.
    by inversion Hexec.
  - exact H.
Defined.

(** C6, as stated: when the start-up module raises, the failure leaves the
    script with the stand-in still bound to [sys.flags]. *)
Lemma flags_stay_spoofed_when_exec_fails :
  let out := Script.run ScriptSample.read_any ScriptSample.exec_fails ∅
                        ScriptSample.lits ScriptSample.st0 in
  out.2 = Err (Script.Raised "ImportError")
  ∧ Script.sys_flags out.1
    = Script.AttrDict {[ "debug" := Script.PInt 0;
                         "no_user_site" := Script.PBool true ]}
  ∧ Script.sys_flags out.1 ≠ Script.sys_flags ScriptSample.st0.
Proof.
  split; [|split].
  - vm_compute. reflexivity.
  - vm_compute. reflexivity.
  - vm_compute. discriminate.
Qed.

(** ** The probe *)

Section Probe.
Variable spawn : string → Builder.completed.
Variable decode_utf8 : string → option string.
Variable json_loads : string → option json.

Let probe := Builder._get_base_python_info spawn decode_utf8 json_loads.

(** The probe, by the way the child process ended. *)
Lemma probe_cases (self : Builder.LegacyBuilder) :
  probe self
  = match spawn (Builder.python self) with
    | Builder.NotStarted => Err (Builder.ProbeFailure Builder.CannotLaunch)
    | Builder.Exited returncode stdout =>
        if decide (returncode = 0%Z) then
          match decode_utf8 stdout with
          | None => Err (Builder.ProbeFailure Builder.OutputNotUtf8)
          | Some text =>
              match json_loads text with
              | None => Err (Builder.ProbeFailure Builder.OutputNotJson)
              | Some value => Ok value
              end
          end
        else Err (Builder.ProbeFailure (Builder.NonZeroExit returncode))
    end.
Proof.
  unfold probe, Builder._get_base_python_info.
  destruct (spawn (Builder.python self)) as [|returncode stdout]; simpl; [done|].
  destruct (decide (returncode = 0%Z)); simpl; done.
Qed.

(** The probe returns a value exactly when the process exits with status 0
    and its output decodes to that value. *)
Lemma probe_ok_iff (self : Builder.LegacyBuilder) (value : json) :
  probe self = Ok value
  ↔ ∃ stdout text,
      spawn (Builder.python self) = Builder.Exited 0 stdout
      ∧ decode_utf8 stdout = Some text
      ∧ json_loads text = Some value.
Proof.
  rewrite probe_cases. split.
  - destruct (spawn (Builder.python self)) as [|returncode stdout]; [done|].
    destruct (decide (returncode = 0%Z)) as [->|]; [|done].
    destruct (decode_utf8 stdout) as [text|] eqn:Hd; [|done].
    destruct (json_loads text) as [v|] eqn:Hl; [|done].
    intros [= ->]. by exists stdout, text.
  - intros (stdout & text & -> & Hd & Hl). simpl. by rewrite Hd, Hl.
Qed.

(** The probe fails exactly when the process cannot be started, exits with
    another status than 0, or writes what does not decode. *)
Lemma probe_err_iff (self : Builder.LegacyBuilder) :
  (∃ e, probe self = Err e)
  ↔ spawn (Builder.python self) = Builder.NotStarted
    ∨ (∃ returncode stdout,
         spawn (Builder.python self) = Builder.Exited returncode stdout
         ∧ returncode ≠ 0%Z)
    ∨ (∃ stdout,
         spawn (Builder.python self) = Builder.Exited 0 stdout
         ∧ (decode_utf8 stdout = None
            ∨ ∃ text, decode_utf8 stdout = Some text ∧ json_loads text = None)).
Proof.
  rewrite probe_cases. split.
  - destruct (spawn (Builder.python self)) as [|returncode stdout]; [by left|].
    destruct (decide (returncode = 0%Z)) as [->|Hne].
    + intros [e He]. right; right. exists stdout. split; [done|].
      destruct (decode_utf8 stdout) as [text|]; [|by left].
      right. exists text. split; [done|].
      by destruct (json_loads text).
    + intros _. right; left. by exists returncode, stdout.
  - intros [->|[(returncode & stdout & -> & Hne)|(stdout & -> & Hbad)]].
    + by eexists.
    + rewrite decide_False by done. by eexists.
    + simpl. destruct Hbad as [->|(text & -> & ->)]; by eexists.
Qed.

Lemma probe_err_kind (self : Builder.LegacyBuilder) (e : Builder.error) :
  probe self = Err e → ∃ cause, e = Builder.ProbeFailure cause.
Proof.
  rewrite probe_cases.
  destruct (spawn (Builder.python self)) as [|returncode stdout].
  - intros [= <-]. by eexists.
  - destruct (decide (returncode = 0%Z)); [|intros [= <-]; by eexists].
    destruct (decode_utf8 stdout) as [text|]; [|intros [= <-]; by eexists].
    destruct (json_loads text); [done|intros [= <-]; by eexists].
Qed.
End Probe.

(** C8, as the code has it: the probe either returns the value its output
    decodes to, as it is and whatever its shape, or fails; it fails exactly
    when the process cannot be launched, exits non-zero, or writes an output
    that is not UTF-8 text of a JSON value, and every failure is a
    [ProbeFailure]. *)
Theorem probe_outcome
    (spawn : string → Builder.completed)
    (decode_utf8 : string → option string)
    (json_loads : string → option json)
    (self : Builder.LegacyBuilder) :
  let r := Builder._get_base_python_info spawn decode_utf8 json_loads self in
  (∀ value,
     r = Ok value
     ↔ ∃ stdout text,
         spawn (Builder.python self) = Builder.Exited 0 stdout
         ∧ decode_utf8 stdout = Some text
         ∧ json_loads text = Some value)
  ∧ ((∃ e, r = Err e)
     ↔ spawn (Builder.python self) = Builder.NotStarted
       ∨ (∃ returncode stdout,
            spawn (Builder.python self) = Builder.Exited returncode stdout
            ∧ returncode ≠ 0%Z)
       ∨ (∃ stdout,
            spawn (Builder.python self) = Builder.Exited 0 stdout
            ∧ (decode_utf8 stdout = None
               ∨ ∃ text, decode_utf8 stdout = Some text
                         ∧ json_loads text = None)))
  ∧ (∀ e, r = Err e → ∃ cause, e = Builder.ProbeFailure cause).
Proof.
  intros r. split; [|split].
  - intros value. apply probe_ok_iff.
  - apply probe_err_iff.
  - intros e. apply probe_err_kind.
Qed.

(** C8, as stated: an interpreter that prints an empty list and exits with
    status 0 makes the probe return that list, which is no record of an
    interpreter and has no version tuple to read. *)
Lemma probe_returns_any_value :
  Builder._get_base_python_info
    Sample.spawn_list JsonText.decode JsonText.loads Sample.builder
  = Ok (JArr [])
  ∧ (∀ i, JArr [] ≠ Builder.info_json i)
  ∧ Builder.subscript (JArr []) "sys.version_info" = Err Builder.TypeError.
Proof.
  split; [vm_compute; reflexivity|]. split; [|reflexivity].
  intros i. discriminate.
Qed.

(** The construction then stops at its first read of the value, with the
    directory of the binaries already made. *)
Example create_after_shapeless_probe :
  Builder.create_virtual_environment
    Sample.spawn_list JsonText.decode JsonText.loads Sample.builder
    (elements Builder.modules) "/tmp/env" ∅
  = ({[ "/tmp/env/bin" := Builder.Dir ]}, Err Builder.TypeError).
Proof. vm_compute. reflexivity. Qed.

(** The probe of the sample host returns the record of the sample
    interpreter. *)
Lemma sample_probe :
  Builder._get_base_python_info
    Sample.spawn JsonText.decode JsonText.loads Sample.builder
  = Ok (Builder.info_json Sample.base).
Proof. vm_compute. reflexivity. Qed.

(** * The builder *)

Import Builder.

(** ** Strings and paths *)

#[local] Arguments String.append !_ _ / : simpl nomatch.

Lemma str_app_assoc (a b c : string) : (a +:+ b) +:+ c = a +:+ b +:+ c.
Proof. induction a as [|x a IH]; simpl; [done|]. by f_equal. Qed.

Lemma str_app_nil_r (a : string) : a +:+ EmptyString = a.
Proof. induction a as [|x a IH]; simpl; [done|]. by f_equal. Qed.

Lemma str_app_length (a b : string) :
  String.length (a +:+ b) = String.length a + String.length b.
Proof. induction a as [|x a IH]; simpl; [done|]. by f_equal. Qed.

Lemma str_app_ne_self (a t : string) : t ≠ EmptyString → a ≠ a +:+ t.
Proof.
  intros Ht Heq. apply (f_equal String.length) in Heq.
  rewrite str_app_length in Heq. destruct t; [done|]. simpl in Heq. lia.
Qed.

Lemma str_app_eq_nil (a b : string) :
  a +:+ b = EmptyString → a = EmptyString ∧ b = EmptyString.
Proof. by destruct a. Qed.

Lemma startswith_app (p s : string) : Str.startswith p (p +:+ s) = true.
Proof. induction p as [|a p IH]; simpl; [done|]. by rewrite decide_True. Qed.

Lemma startswith_app_both (d a b : string) :
  Str.startswith (d +:+ a) (d +:+ b) = Str.startswith a b.
Proof. induction d as [|x d IH]; simpl; [done|]. by rewrite decide_True. Qed.

Lemma startswith_trans (p q s : string) :
  Str.startswith p q = true → Str.startswith q s = true →
  Str.startswith p s = true.
Proof.
  revert q s. induction p as [|a p IH]; intros q s; [done|].
  destruct q as [|b q]; [done|]. destruct s as [|c s]; [done|]. simpl.
  destruct (decide (a = b)) as [->|]; [|done].
  destruct (decide (b = c)) as [->|]; [|done]. apply IH.
Qed.

Lemma endswith_sep_app (d t : string) :
  t ≠ EmptyString → Str.endswith_sep (d +:+ t) = Str.endswith_sep t.
Proof.
  intros Ht. induction d as [|x d IH]; [done|]. simpl.
  destruct (d +:+ t) eqn:E; [|done].
  apply str_app_eq_nil in E as [_ ?]. done.
Qed.

Lemma join_relative (a b : string) :
  Str.startswith "/" b = false → OsPath.join a b = OsPath.with_sep a +:+ b.
Proof.
  intros Hb. unfold OsPath.join, OsPath.with_sep. rewrite Hb.
  destruct (decide (a = EmptyString)) as [->|]; [done|].
  destruct (Str.endswith_sep a); [done|]. by rewrite str_app_assoc.
Qed.

Lemma with_sep_app (d t : string) :
  t ≠ EmptyString → OsPath.with_sep (d +:+ t) = d +:+ OsPath.with_sep t.
Proof.
  intros Ht. unfold OsPath.with_sep.
  rewrite endswith_sep_app by done.
  rewrite (decide_False (P := t = EmptyString)) by done.
  rewrite decide_False; [|by intros [_ ?]%str_app_eq_nil].
  destruct (Str.endswith_sep t); [done|]. by rewrite str_app_assoc.
Qed.

Lemma with_sep_suffix (t : string) :
  ∃ s, OsPath.with_sep t = t +:+ s.
Proof.
  unfold OsPath.with_sep. destruct (decide (t = EmptyString)).
  - exists EmptyString. by rewrite str_app_nil_r.
  - destruct (Str.endswith_sep t).
    + exists EmptyString. by rewrite str_app_nil_r.
    + by exists "/".
Qed.

(** The paths of the construction, below the destination. *)
Section Paths.
Variable destination : string.
Variable name : string.
Hypothesis name_python : Str.startswith "python" name = true.

Let D := OsPath.with_sep destination.

Lemma name_relative : Str.startswith "/" name = false.
Proof. destruct name as [|c s]; [done|]. simpl in *.
  destruct (decide ("p"%char = c)) as [<-|]; done. Qed.

Lemma name_nonempty : name ≠ EmptyString.
Proof. by destruct name. Qed.

Lemma bin_dir_path : OsPath.join destination "bin" = D +:+ "bin".
Proof. by apply join_relative. Qed.

Lemma bin_file_path :
  OsPath.join (OsPath.join destination "bin") name = D +:+ "bin/" +:+ name.
Proof.
  rewrite join_relative by apply name_relative.
  rewrite bin_dir_path, with_sep_app by done. by rewrite str_app_assoc.
Qed.

Lemma lib_dir_path :
  OsPath.join3 destination "lib" name = D +:+ "lib/" +:+ name.
Proof.
  unfold OsPath.join3. rewrite join_relative by apply name_relative.
  rewrite (join_relative destination) by done.
  rewrite with_sep_app by done. by rewrite str_app_assoc.
Qed.

Lemma lib_file_path (x : string) :
  Str.startswith "/" x = false →
  OsPath.join (OsPath.join3 destination "lib" name) x
  = D +:+ OsPath.with_sep ("lib/" +:+ name) +:+ x.
Proof.
  intros Hx. rewrite join_relative by done. rewrite lib_dir_path.
  rewrite with_sep_app by done. by rewrite str_app_assoc.
Qed.
End Paths.

(** ** Lists of operations *)

Lemma for_each_app {S E A : Type} (l1 l2 : list A) (body : A → M S E unit) (s : S) :
  for_each (l1 ++ l2) body s
  = match for_each l1 body s with
    | (s', Ok _) => for_each l2 body s'
    | (s', Err e) => (s', Err e)
    end.
Proof.
  revert s. induction l1 as [|x l1 IH]; intros s; simpl; [done|].
  unfold bind. destruct (body x s) as [s' [[]|e]]; [apply IH|done].
Qed.

Lemma for_each_ext {S E A : Type} (l : list A) (f g : A → M S E unit) (s : S) :
  (∀ x s', f x s' = g x s') → for_each l f s = for_each l g s.
Proof.
  intros Hfg. revert s. induction l as [|x l IH]; intros s; simpl; [done|].
  unfold bind. rewrite Hfg. destruct (g x s) as [s' [[]|e]]; [apply IH|done].
Qed.

Lemma for_each_fmap {S E A B : Type} (h : A → B) (l : list A)
    (g : B → M S E unit) (s : S) :
  for_each (h <$> l) g s = for_each l (λ x, g (h x)) s.
Proof.
  revert s. induction l as [|x l IH]; intros s; simpl; [done|].
  unfold bind. destruct (g (h x) s) as [s' [[]|e]]; [apply IH|done].
Qed.

#[local] Opaque Builder.ensure_directory Builder.copyfile Builder.open_w
  Builder.write OsPath.join OsPath.join3 pretty render_site.

(** For a probed record of the documented shape the construction runs the
    operations of [plan], one after the other. *)
Lemma create_as_plan spawn decode_utf8 json_loads self order destination i t :
  _get_base_python_info spawn decode_utf8 json_loads self = Ok (info_json i) →
  create_virtual_environment spawn decode_utf8 json_loads self order destination t
  = run_ops (plan i order destination) t.
Proof.
  intros Hprobe. unfold create_virtual_environment.
  unfold mbind at 1. unfold M_bind, bind at 1. rewrite Hprobe.
  unfold lift at 1. unfold plan, run_ops.
  rewrite for_each_app.
  simpl. unfold mbind, M_bind, bind. simpl.
  repeat match goal with
  | |- context [ensure_directory ?d ?s] =>
      destruct (ensure_directory d s) as [? [[]|?]]; simpl; [|reflexivity]
  | |- context [copyfile ?a ?b ?s] =>
      destruct (copyfile a b s) as [? [[]|?]]; simpl; [|reflexivity]
  end.
  rewrite for_each_app, for_each_fmap.
  rewrite (for_each_ext order _ (λ x, run_op (CopyFile (OsPath.join (lib i) x)
    (OsPath.join (OsPath.join3 destination "lib"
       ("python" +:+ pretty (major i) +:+ "." +:+ pretty (minor i))) x))));
    [|reflexivity].
  destruct (for_each order _ g5) as [s' [[]|e]]; [|reflexivity].
  simpl. unfold mbind, M_bind, bind.
  destruct (open_w _ s') as [s'' [[]|e]]; [|reflexivity].
  destruct (write _ _ s'') as [s3 [[]|e]]; reflexivity.
Qed.

#[local] Transparent Builder.ensure_directory Builder.copyfile Builder.open_w
  Builder.write OsPath.join OsPath.join3 pretty render_site.

(** ** What a list of operations does *)

Lemma run_op_frame (o : op) (t : fs) (k : string) :
  k ≠ target o → (run_op o t).1 !! k = t !! k.
Proof.
  intros Hk. destruct o as [d|src dst|dst data]; simpl in *.
  - unfold ensure_directory. destruct (t !! d) as [[|]|]; simpl; try done.
    by rewrite lookup_insert_ne.
  - unfold copyfile. destruct (t !! src) as [[|data x]|]; simpl; try done.
    destruct (t !! dst) as [[|]|]; simpl; try done; by rewrite lookup_insert_ne.
  - unfold mbind, M_bind, bind, open_w, write.
    destruct (t !! dst) as [[|old x]|] eqn:E; simpl; try done.
    + rewrite lookup_insert_eq. simpl. by rewrite !lookup_insert_ne.
    + rewrite lookup_insert_eq. simpl. by rewrite !lookup_insert_ne.
Qed.

(** A path that no operation writes keeps what it had, also when the list
    stops at a failure. *)
Lemma run_ops_frame (ops : list op) (t : fs) (k : string) :
  k ∉ target <$> ops → (run_ops ops t).1 !! k = t !! k.
Proof.
  unfold run_ops. revert t. induction ops as [|o ops IH]; intros t Hk; [done|].
  rewrite fmap_cons, not_elem_of_cons in Hk. destruct Hk as [Hk Hks].
  simpl. unfold bind.
  pose proof (run_op_frame o t k Hk) as Hf.
  destruct (run_op o t) as [t' [[]|e]]; simpl in *; [|done].
  rewrite IH by done. done.
Qed.

Lemma effects_app (t : fs) (l1 l2 : list op) :
  effects t (l1 ++ l2) = (effects t l1 ++ effects t l2)%list.
Proof. unfold effects. apply omap_app. Qed.

Lemma image_lookup (t : fs) (ops : list op) (k : string) (v : node) :
  functional (effects t ops) → (k, v) ∈ effects t ops →
  image t ops !! k = Some v.
Proof.
  intros Hf Hin. unfold image. apply elem_of_list_to_map_1'; [|done].
  intros v' Hin'. by apply (Hf k).
Qed.

Lemma image_lookup_inv (t : fs) (ops : list op) (k : string) (v : node) :
  image t ops !! k = Some v → (k, v) ∈ effects t ops.
Proof. unfold image. apply elem_of_list_to_map_2. Qed.

Lemma image_snoc (t : fs) (done : list op) (o : op) (k : string) (v : node) :
  effect t o = Some (k, v) →
  functional (effects t (done ++ [o])) →
  image t (done ++ [o]) ∪ t = <[k := v]> (image t done ∪ t).
Proof.
  intros He Hf. apply map_eq. intros j.
  destruct (decide (j = k)) as [->|Hne].
  - rewrite lookup_insert_eq. apply lookup_union_Some_l.
    apply image_lookup; [done|]. rewrite effects_app. apply elem_of_app. right.
    unfold effects. simpl. rewrite He. by left.
  - rewrite lookup_insert_ne by done. rewrite !lookup_union. f_equal.
    unfold image. rewrite effects_app. rewrite list_to_map_app.
    rewrite lookup_union. unfold effects at 2. simpl. rewrite He. simpl.
    rewrite lookup_insert_ne by done. rewrite lookup_empty.
    by destruct (list_to_map (effects t done) !! j).
Qed.

(** One operation on a tree that holds what the operations before it
    wrote. *)
Lemma run_op_image (t : fs) (done todo : list op) (o : op) :
  Forall (ready t) (done ++ o :: todo) →
  functional (effects t (done ++ o :: todo)) →
  stable t (done ++ o :: todo) →
  run_op o (image t done ∪ t) = (image t (done ++ [o]) ∪ t, Ok tt).
Proof.
  intros Hready Hfun Hstable.
  assert (Hall : ∀ k v, (k, v) ∈ effects t (done ++ [o]) →
                        (k, v) ∈ effects t (done ++ o :: todo)).
  { intros k v. rewrite (cons_middle o done todo), app_assoc.
    rewrite (effects_app t (done ++ [o]) todo). intros ?. apply elem_of_app. by left. }
  assert (Hfun' : functional (effects t (done ++ [o]))).
  { intros k v v' ??. apply (Hfun k); by apply Hall. }
  assert (Hdone : ∀ k v v', image t done !! k = Some v' →
                    effect t o = Some (k, v) → v' = v).
  { intros k v v' Hl He. apply image_lookup_inv in Hl.
    apply (Hfun' k); rewrite effects_app; apply elem_of_app; [by left|right].
    unfold effects. simpl. rewrite He. by left. }
  assert (Ho : ready t o).
  { rewrite Forall_app, Forall_cons in Hready. tauto. }
  destruct o as [d|src dst|dst data]; simpl in Ho.
  - rewrite (image_snoc t done _ d Dir) by done.
    unfold run_op, ensure_directory. rewrite lookup_union.
    destruct (image t done !! d) as [v'|] eqn:Hl.
    + rewrite (Hdone d Dir v' Hl eq_refl).
      rewrite union_Some_l. rewrite insert_id; [done|].
      rewrite lookup_union, Hl, (Hdone d Dir v' Hl eq_refl). apply union_Some_l.
    + rewrite (left_id None _). destruct Ho as [->| Hd]; [done|].
      rewrite Hd. rewrite insert_id; [done|].
      by rewrite lookup_union, Hl, (left_id None _).
  - destruct Ho as [(data & x & Hsrc) Hdst].
    assert (He : effect t (CopyFile src dst) = Some (dst, File data x)).
    { simpl. by rewrite Hsrc. }
    rewrite (image_snoc t done _ dst (File data x)) by done.
    unfold run_op, copyfile.
    assert (Hs : (image t done ∪ t) !! src = Some (File data x)).
    { rewrite lookup_union. destruct (image t done !! src) as [v'|] eqn:Hl.
      - rewrite union_Some_l. f_equal.
        apply image_lookup_inv in Hl.
        assert (Hi : image t (done ++ CopyFile src dst :: todo) !! src = Some v').
        { apply image_lookup; [done|]. rewrite effects_app.
          apply elem_of_app. by left. }
        destruct (Hstable src dst) as [Hn|Hn].
        + apply elem_of_app. right. by left.
        + congruence.
        + congruence.
      - by rewrite (left_id None _). }
    rewrite Hs. rewrite lookup_union.
    destruct (image t done !! dst) as [v'|] eqn:Hl.
    + rewrite (Hdone dst (File data x) v' Hl He). by rewrite union_Some_l.
    + rewrite (left_id None _). destruct (t !! dst) as [[|]|]; done.
  - set (x0 := match t !! dst with Some (File _ x) => x | _ => false end).
    assert (He : effect t (WriteText dst data) = Some (dst, File data x0)) by done.
    rewrite (image_snoc t done _ dst (File data x0)) by done.
    unfold run_op, mbind, M_bind, bind, open_w, write. rewrite lookup_union.
    destruct (image t done !! dst) as [v'|] eqn:Hl.
    + rewrite (Hdone dst (File data x0) v' Hl He). rewrite union_Some_l.
      rewrite lookup_insert_eq. simpl. by rewrite insert_insert_eq.
    + rewrite (left_id None _). subst x0.
      destruct (t !! dst) as [[|old x]|] eqn:Ht; try done.
      * rewrite lookup_insert_eq. simpl. by rewrite insert_insert_eq.
      * rewrite lookup_insert_eq. simpl. by rewrite insert_insert_eq.
Qed.

(** Operations that the tree does not stand in the way of, that agree on
    what they leave at a path and that do not overwrite their sources all
    succeed, and the tree they leave is what they write over what was
    there. *)
Lemma run_ops_image (t : fs) (ops : list op) :
  Forall (ready t) ops → functional (effects t ops) → stable t ops →
  run_ops ops t = (image t ops ∪ t, Ok tt).
Proof.
  intros Hready Hfun Hstable.
  assert (Hgen : ∀ todo done, ops = (done ++ todo)%list →
            run_ops todo (image t done ∪ t) = (image t ops ∪ t, Ok tt)).
  { induction todo as [|o todo IH]; intros done ->.
    - by rewrite app_nil_r.
    - unfold run_ops. simpl. unfold bind.
      rewrite (run_op_image t done todo o) by done.
      apply (IH (done ++ [o])%list). by rewrite <- app_assoc. }
  specialize (Hgen ops [] eq_refl).
  unfold image at 1 in Hgen. simpl in Hgen.
  by rewrite (left_id ∅ _) in Hgen.
Qed.

(** ** The operations of the construction *)

Lemma module_cases (m : string) :
  m ∈ modules →
  m ∈ [ "posixpath.py"; "stat.py"; "genericpath.py"; "warnings.py";
        "linecache.py"; "types.py"; "UserDict.py"; "_abcoll.py"; "abc.py";
        "_weakrefset.py"; "copy_reg.py" ].
Proof.
  unfold modules. rewrite !elem_of_union, !elem_of_singleton, !elem_of_cons.
  tauto.
Qed.

Lemma module_relative (m : string) :
  m ∈ modules → Str.startswith "/" m = false.
Proof.
  intros Hm%module_cases. repeat (apply elem_of_cons in Hm as [->|Hm]; [done|]).
  by apply elem_of_nil in Hm.
Qed.

Lemma module_not_reserved (m : string) :
  m ∈ modules → m ≠ "os.py" ∧ m ≠ "site.py" ∧ m ≠ "site-packages".
Proof.
  intros Hm%module_cases. repeat (apply elem_of_cons in Hm as [->|Hm]; [done|]).
  by apply elem_of_nil in Hm.
Qed.

Lemma module_nonempty (m : string) : m ∈ modules → m ≠ EmptyString.
Proof.
  intros Hm%module_cases. repeat (apply elem_of_cons in Hm as [->|Hm]; [done|]).
  by apply elem_of_nil in Hm.
Qed.

Lemma str_app_inv_head (d a b : string) : d +:+ a = d +:+ b → a = b.
Proof. apply String.app_inj. Qed.

(** The operations with their targets written below the destination: [s] is
    the separator between the library directory and a file in it. *)
Lemma plan_below (i : BaseInterpreterInfo) (order : list string)
    (destination : string) :
  Forall (λ m, m ∈ modules) order →
  let D := OsPath.with_sep destination in
  let N := "python" +:+ pretty (major i) +:+ "." +:+ pretty (minor i) in
  ∃ s,
    plan i order destination
    = ([ EnsureDirectory (D +:+ "bin")
       ; CopyFile (executable i) (D +:+ "bin/" +:+ "python")
       ; CopyFile (executable i) (D +:+ "bin/" +:+ "python" +:+ pretty (major i))
       ; CopyFile (executable i) (D +:+ "bin/" +:+ N)
       ; EnsureDirectory (D +:+ "lib/" +:+ N)
       ; EnsureDirectory (D +:+ "lib/" +:+ N +:+ s +:+ "site-packages")
       ; CopyFile (OsPath.join (lib i) "os.py")
                  (D +:+ "lib/" +:+ N +:+ s +:+ "os.py") ]
       ++ ((λ m, CopyFile (OsPath.join (lib i) m)
                          (D +:+ "lib/" +:+ N +:+ s +:+ m)) <$> order)
       ++ [ WriteText (D +:+ "lib/" +:+ N +:+ s +:+ "site.py")
              (render_site destination (prefix i) (exec_prefix i) (site_py i)) ])%list.
Proof.
  intros Hmods D N. subst D.
  destruct (with_sep_suffix ("lib/" +:+ N)) as [s Hs]. exists s.
  assert (HN : Str.startswith "python" N = true) by apply startswith_app.
  assert (Hchild : ∀ x, Str.startswith "/" x = false →
            OsPath.join (OsPath.join3 destination "lib" N) x
            = OsPath.with_sep destination +:+ "lib/" +:+ N +:+ s +:+ x).
  { intros x Hx. rewrite (lib_file_path destination N HN x Hx), Hs.
    f_equal. by rewrite !str_app_assoc. }
  unfold plan. fold N.
  rewrite (bin_dir_path destination).
  rewrite <- (bin_dir_path destination).
  rewrite (bin_file_path destination "python" eq_refl).
  rewrite (bin_file_path destination ("python" +:+ pretty (major i))
             (startswith_app _ _)).
  rewrite (bin_file_path destination N HN).
  rewrite (bin_dir_path destination), (lib_dir_path destination N HN).
  rewrite <- (lib_dir_path destination N HN).
  rewrite !Hchild by done.
  rewrite (lib_dir_path destination N HN).
  f_equal. f_equal.
  apply Forall_fmap_ext_1. eapply Forall_impl; [exact Hmods|].
  intros m Hm. cbv beta. rewrite <- (lib_dir_path destination N HN).
  rewrite Hchild; [done|]. by apply module_relative.
Qed.

(** Two paths below the destination that are the same path. *)
Ltac same_path H :=
  apply str_app_inv_head in H; simpl in H;
  first
    [ discriminate H
    | exfalso; injection H as H;
      first
        [ apply str_app_ne_self in H; [exact H|];
          intros [_ ?]%str_app_eq_nil; simplify_eq
        | symmetry in H; apply str_app_ne_self in H; [exact H|];
          intros [_ ?]%str_app_eq_nil; simplify_eq
        | do 2 apply str_app_inv_head in H; simplify_eq ]
    | idtac ].

Ltac module_facts Hmods :=
  repeat match goal with
  | H : ?m ∈ _ |- _ =>
      pose proof (module_nonempty m (Hmods m H));
      destruct (module_not_reserved m (Hmods m H)) as (? & ? & ?);
      clear H
  end.

(** No two operations of the construction leave different things at one
    path. *)
Lemma plan_functional (i : BaseInterpreterInfo) (order : list string)
    (destination : string) (t : fs) :
  Forall (λ m, m ∈ modules) order →
  functional (effects t (plan i order destination)).
Proof.
  intros Hmods. destruct (plan_below i order destination Hmods) as [s ->].
  rewrite Forall_forall in Hmods.
  generalize ("python" +:+ pretty (major i) +:+ "." +:+ pretty (minor i)).
  generalize (pretty (major i)). intros pM N.
  generalize (OsPath.with_sep destination). intros D.
  intros k v v' Hin Hin'. unfold effects in *.
  apply list_elem_of_omap in Hin as (o & Ho & He).
  apply list_elem_of_omap in Hin' as (o' & Ho' & He').
  rewrite !elem_of_app, !elem_of_cons, elem_of_nil, list_elem_of_fmap in Ho, Ho'.
  destruct Ho as [[->|[->|[->|[->|[->|[->|[->|[]]]]]]]]|[(m & -> & Hm)|[->|[]]]];
  destruct Ho' as [[->|[->|[->|[->|[->|[->|[->|[]]]]]]]]|[(m' & -> & Hm')|[->|[]]]];
  simpl in He, He';
  repeat match goal with
  | H : match ?t !! ?k with _ => _ end = Some _ |- _ =>
      destruct (t !! k) as [[|??]|] eqn:?; try discriminate H
  end;
  apply (inj Some) in He; apply pair_equal_spec in He as [<- <-];
  apply (inj Some) in He'; apply pair_equal_spec in He' as [Hk <-];
  try reflexivity;
  try congruence.
  all: try (same_path Hk; fail).
  all: module_facts Hmods.
  all: apply str_app_inv_head in Hk; simpl in Hk; injection Hk as Hk.
  all: first
    [ exfalso; apply str_app_ne_self in Hk; [exact Hk|];
      intros [_ ?]%str_app_eq_nil; congruence
    | exfalso; symmetry in Hk; apply str_app_ne_self in Hk; [exact Hk|];
      intros [_ ?]%str_app_eq_nil; congruence
    | do 2 apply str_app_inv_head in Hk; congruence
    ].
Qed.

(** ** Runs on a tree with nothing below the destination *)

Lemma effect_target (t : fs) (o : op) (k : string) (v : node) :
  effect t o = Some (k, v) → k = target o.
Proof.
  destruct o as [d|src dst|dst data]; simpl.
  - by intros [= <- _].
  - destruct (t !! src) as [[|??]|]; try done. by intros [= <- _].
  - by intros [= <- _].
Qed.

Lemma plan_targets_below (i : BaseInterpreterInfo) (order : list string)
    (destination : string) (o : op) :
  Forall (λ m, m ∈ modules) order →
  o ∈ plan i order destination →
  Str.startswith (OsPath.with_sep destination) (target o) = true.
Proof.
  intros Hmods. destruct (plan_below i order destination Hmods) as [s ->].
  rewrite !elem_of_app, !elem_of_cons, elem_of_nil, list_elem_of_fmap.
  intros [[->|[->|[->|[->|[->|[->|[->|[]]]]]]]]|[(m & -> & Hm)|[->|[]]]];
    apply startswith_app.
Qed.

(** ** Runs on a tree that already holds what the operations write *)

Lemma image_same_elements (t t' : fs) (ops ops' : list op) :
  functional (effects t ops) → functional (effects t' ops') →
  (∀ e, e ∈ effects t ops ↔ e ∈ effects t' ops') →
  image t ops = image t' ops'.
Proof.
  intros Hf Hf' Hsame. apply map_eq. intros k.
  destruct (image t ops !! k) as [v|] eqn:Hl.
  - symmetry. apply image_lookup; [done|]. apply Hsame.
    by apply image_lookup_inv.
  - destruct (image t' ops' !! k) as [v|] eqn:Hl'; [|done].
    apply image_lookup_inv, Hsame in Hl'.
    apply (image_lookup _ _ _ _ Hf) in Hl'. congruence.
Qed.

(** Operations run on a tree that holds their own image leave it as it
    is. *)
Lemma run_ops_again (t : fs) (ops : list op) :
  sources_ok t ops → functional (effects t ops) →
  (∀ k v, image t ops !! k = Some v → t !! k = Some v) →
  run_ops ops t = (t, Ok tt).
Proof.
  intros Hsrc Hfun Hheld.
  assert (Heff : ∀ o k v, o ∈ ops → effect t o = Some (k, v) → t !! k = Some v).
  { intros o k v Ho He. apply Hheld. apply image_lookup; [done|].
    unfold effects. apply list_elem_of_omap. by exists o. }
  rewrite run_ops_image; [|apply Forall_forall|done|].
  - f_equal. apply map_eq. intros k. rewrite lookup_union.
    destruct (image t ops !! k) as [v|] eqn:Hl.
    + rewrite (Hheld k v Hl). by rewrite union_Some_l.
    + by rewrite (left_id None _).
  - intros o Ho. destruct o as [d|src dst|dst data]; simpl.
    + right. by apply (Heff _ _ _ Ho).
    + destruct (Hsrc src dst Ho) as (data & x & Hf). split; [by exists data, x|].
      rewrite (Heff _ dst (File data x) Ho); [done|]. simpl. by rewrite Hf.
    + pose proof (Heff _ dst _ Ho eq_refl) as Hd. by rewrite Hd.
  - intros src dst Hin.
    destruct (image t ops !! src) as [v|] eqn:Hl; [right|by left].
    symmetry. by apply Hheld.
Qed.

Section Fresh.
Variable destination : string.
Variable t : fs.
Variable ops : list op.
Hypothesis below : ∀ o, o ∈ ops →
  Str.startswith (OsPath.with_sep destination) (target o) = true.
Hypothesis fresh : empty_below destination t.

Lemma image_fresh (k : string) (v : node) :
  image t ops !! k = Some v → t !! k = None.
Proof.
  intros Hl%image_lookup_inv. unfold effects in Hl.
  apply list_elem_of_omap in Hl as (o & Ho & He).
  apply effect_target in He as ->. apply fresh. by apply below.
Qed.

(** On a fresh destination, operations that agree with each other and
    whose sources are files all succeed. *)
Lemma run_ops_fresh :
  sources_ok t ops → functional (effects t ops) →
  run_ops ops t = (image t ops ∪ t, Ok tt).
Proof.
  intros Hsrc Hfun. apply run_ops_image; [|done|].
  - apply Forall_forall. intros o Ho. pose proof (below o Ho) as Hb.
    apply fresh in Hb. destruct o as [d|src dst|dst data]; simpl in *.
    + by left.
    + split; [by apply (Hsrc src dst)|]. by rewrite Hb.
    + by rewrite Hb.
  - intros src dst Hin. left.
    destruct (image t ops !! src) as [v|] eqn:Hl; [|done].
    apply image_fresh in Hl. destruct (Hsrc src dst Hin) as (data & x & Hf).
    congruence.
Qed.

Hypothesis sources : sources_ok t ops.
Hypothesis agree : functional (effects t ops).

Let t1 := image t ops ∪ t.

Lemma source_after (src dst : string) :
  CopyFile src dst ∈ ops → t1 !! src = t !! src.
Proof.
  intros Hin. unfold t1. rewrite lookup_union.
  destruct (image t ops !! src) as [v|] eqn:Hl; [|by rewrite (left_id None _)].
  apply image_fresh in Hl. destruct (sources src dst Hin) as (data & x & Hf).
  congruence.
Qed.

(** After the run an operation would leave what it left. *)
Lemma effect_after (o : op) : o ∈ ops → effect t1 o = effect t o.
Proof.
  intros Ho. destruct o as [d|src dst|dst data]; simpl.
  - done.
  - by rewrite (source_after src dst Ho).
  - assert (Hd : t !! dst = None).
    { apply fresh. by apply (below _ Ho). }
    assert (Hw : image t ops !! dst = Some (File data false)).
    { apply image_lookup; [done|]. unfold effects.
      apply list_elem_of_omap. exists (WriteText dst data). split; [done|].
      simpl. by rewrite Hd. }
    unfold t1. rewrite lookup_union, Hw, Hd. done.
Qed.

Lemma effects_after (ops' : list op) (e : string * node) :
  (∀ o, o ∈ ops' ↔ o ∈ ops) →
  e ∈ effects t1 ops' ↔ e ∈ effects t ops.
Proof.
  intros Hsame. unfold effects. rewrite !list_elem_of_omap. split.
  - intros (o & Ho & He). exists o. apply Hsame in Ho.
    by rewrite <- (effect_after o Ho).
  - intros (o & Ho & He). exists o. split; [by apply Hsame|].
    by rewrite (effect_after o Ho).
Qed.

(** The same operations, in any order, run again on the tree they left:
    all succeed and the tree is as it was. *)
Lemma run_ops_rerun (ops' : list op) :
  (∀ o, o ∈ ops' ↔ o ∈ ops) →
  run_ops ops' t1 = (t1, Ok tt).
Proof.
  intros Hsame.
  assert (Hfun' : functional (effects t1 ops')).
  { intros k v v' H1 H2. apply (effects_after ops' _ Hsame) in H1, H2.
    by apply (agree k). }
  apply run_ops_again; [|done|].
  - intros src dst Hin. apply Hsame in Hin.
    unfold is_file. rewrite (source_after src dst Hin).
    by apply (sources src dst).
  - intros k v Hl%image_lookup_inv. apply (effects_after ops' _ Hsame) in Hl.
    unfold t1. apply lookup_union_Some_l. by apply image_lookup.
Qed.
End Fresh.


(** ** The construction on a complete base installation *)

Lemma order_modules (order : list string) :
  order ≡ₚ elements modules → Forall (λ m, m ∈ modules) order.
Proof.
  intros Hperm. apply Forall_forall. intros m Hm.
  rewrite Hperm in Hm. by apply elem_of_elements in Hm.
Qed.

Lemma plan_sources (i : BaseInterpreterInfo) (order : list string)
    (destination : string) (t : fs) :
  complete_base t i → Forall (λ m, m ∈ modules) order →
  sources_ok t (plan i order destination).
Proof.
  intros (Hexe & Hos & Hmod) Hmods src dst. rewrite Forall_forall in Hmods.
  unfold plan.
  rewrite !elem_of_app, !elem_of_cons, elem_of_nil, list_elem_of_fmap.
  intros [[?|[?|[?|[?|[?|[?|[?|[]]]]]]]]|[(m & ? & Hm)|[?|[]]]]; simplify_eq;
    auto.
Qed.

Lemma plan_same_operations (i : BaseInterpreterInfo) (order order' : list string)
    (destination : string) (o : op) :
  order ≡ₚ order' →
  o ∈ plan i order destination ↔ o ∈ plan i order' destination.
Proof.
  intros Hperm. unfold plan.
  rewrite !elem_of_app, !list_elem_of_fmap.
  by setoid_rewrite Hperm.
Qed.

(** On a complete base installation and a destination with nothing below
    it, the construction succeeds, and run again, visiting the modules in
    any order, it succeeds and leaves the tree as it was. *)
Lemma construction_twice spawn decode_utf8 json_loads self i
    (order1 order2 : list string) (destination : string) (t : fs) :
  _get_base_python_info spawn decode_utf8 json_loads self = Ok (info_json i) →
  order1 ≡ₚ elements modules → order2 ≡ₚ elements modules →
  empty_below destination t → complete_base t i →
  ∃ t1,
    create_virtual_environment spawn decode_utf8 json_loads self order1
                               destination t = (t1, Ok tt)
    ∧ create_virtual_environment spawn decode_utf8 json_loads self order2
                                 destination t1 = (t1, Ok tt).
Proof.
  intros Hprobe H1 H2 Hfresh Hbase.
  pose proof (order_modules order1 H1) as Hm1.
  exists (image t (plan i order1 destination) ∪ t).
  rewrite !(create_as_plan _ _ _ _ _ _ i) by done.
  assert (Hbelow : ∀ o, o ∈ plan i order1 destination →
            Str.startswith (OsPath.with_sep destination) (target o) = true).
  { intros o. by apply plan_targets_below. }
  pose proof (plan_sources i order1 destination t Hbase Hm1) as Hsrc.
  pose proof (plan_functional i order1 destination t Hm1) as Hfun.
  split.
  - by apply (run_ops_fresh destination).
  - apply (run_ops_rerun destination); try done.
    intros o. apply plan_same_operations. by rewrite H1, H2.
Qed.

(** The sample disk has nothing below [/tmp/env] and holds a complete base
    installation. *)
Lemma sample_fresh : empty_below "/tmp/env" Sample.disk.
Proof.
  intros path Hpath. destruct (Sample.disk !! path) as [n|] eqn:Hl; [|done].
  exfalso. apply elem_of_map_to_list in Hl.
  revert Hl. vm_compute map_to_list. rewrite !elem_of_cons, elem_of_nil.
  intros Hl. repeat destruct Hl as [Hl|Hl]; try done; by simplify_eq.
Qed.

Lemma sample_complete : complete_base Sample.disk Sample.base.
Proof.
  split; [|split].
  - eexists _, _. vm_compute. reflexivity.
  - eexists _, _. vm_compute. reflexivity.
  - intros m Hm%module_cases.
    repeat (apply elem_of_cons in Hm as [->|Hm];
            [eexists _, _; vm_compute; reflexivity|]).
    by apply elem_of_nil in Hm.
Qed.

(** C9: with the same base interpreter info, a complete base installation
    and an initially empty destination, the construction succeeds, and a
    second construction on the tree the first one left succeeds and leaves
    exactly that tree, in whatever order either run visits the modules. *)
Theorem construction_idempotent spawn decode_utf8 json_loads self i
    (order1 order2 : list string) (destination : string) (t : fs) :
  _get_base_python_info spawn decode_utf8 json_loads self = Ok (info_json i) →
  order1 ≡ₚ elements modules → order2 ≡ₚ elements modules →
  empty_below destination t → complete_base t i →
  ∃ t1,
    create_virtual_environment spawn decode_utf8 json_loads self order1
                               destination t = (t1, Ok tt)
    ∧ create_virtual_environment spawn decode_utf8 json_loads self order2
                                 destination t1 = (t1, Ok tt).
Proof. apply construction_twice. Qed.

Lemma construction_idempotent_witness :
  ∃ t1,
    Sample.create (elements modules) "/tmp/env" Sample.disk = (t1, Ok tt)
    ∧ Sample.create (reverse (elements modules)) "/tmp/env" t1 = (t1, Ok tt).
Proof.
  apply (construction_idempotent Sample.spawn JsonText.decode JsonText.loads
           Sample.builder Sample.base (elements modules)
           (reverse (elements modules)) "/tmp/env" Sample.disk).
  - vm_compute. reflexivity.
  - reflexivity.
  - apply reverse_Permutation.
  - exact sample_fresh.
  - exact sample_complete.
Defined.

(** ** The layout *)

(** With a destination that is not empty and has no trailing separator the
    library directory reads [destination/lib/pythonM.m]. *)
Lemma lib_dir_plain (destination name : string) :
  Str.startswith "python" name = true →
  destination ≠ EmptyString → Str.endswith_sep destination = false →
  OsPath.join3 destination "lib" name = destination +:+ "/lib/" +:+ name.
Proof.
  intros Hname Hne Hend. rewrite lib_dir_path by done.
  unfold OsPath.with_sep. rewrite decide_False by done. rewrite Hend.
  by rewrite str_app_assoc.
Qed.

(** The layout as the design states it: the library directory is the
    destination joined with [lib] and [pythonM.m], the binary directory the
    destination joined with [bin], the private-package directory the
    library directory joined with [site-packages]; another micro component
    gives the same layout; and these three are the directories among the
    operations of [plan]. *)
Lemma layout_planned (i : BaseInterpreterInfo) (destination : string) :
  let name := "python" +:+ pretty (major i) +:+ "." +:+ pretty (minor i) in
  let l := Layout (OsPath.join destination "bin")
                  (OsPath.join3 destination "lib" name)
                  (OsPath.join (OsPath.join3 destination "lib" name)
                               "site-packages") in
  layout (info_json i) destination = Ok l
  ∧ lib_dir l = OsPath.with_sep destination +:+ "lib/" +:+ name
  ∧ (∀ p, layout (info_json (Info (major i) (minor i) p (releaselevel i)
                                 (serial i) (executable i) (prefix i)
                                 (exec_prefix i) (lib i) (site_py i)))
                 destination
          = layout (info_json i) destination)
  ∧ (∀ order directory,
       EnsureDirectory directory ∈ plan i order destination
       ↔ directory ∈ [bin_dir l; lib_dir l; site_packages_dir l]).
Proof.
  intros name l. split; [reflexivity|]. split; [|split].
  - simpl. apply lib_dir_path. apply startswith_app.
  - intros p. reflexivity.
  - intros order directory. unfold plan. fold name.
    rewrite !elem_of_app, !elem_of_cons, !elem_of_nil, list_elem_of_fmap.
    simpl. split.
    + intros [[?|[?|[?|[?|[?|[?|[?|[]]]]]]]]|[(m & ? & _)|[?|[]]]];
        simplify_eq; auto.
    + intros [->|[->|[->|[]]]]; auto 10.
Qed.

(** The version (3, 8, 2) at [/tmp/env]. *)
Example layout_sample :
  layout (info_json Sample.base) "/tmp/env"
  = Ok (Layout "/tmp/env/bin" "/tmp/env/lib/python3.8"
               "/tmp/env/lib/python3.8/site-packages").
Proof. vm_compute. reflexivity. Qed.

(** ** The binaries *)

Lemma functional_app_l (l1 l2 : list (string * node)) :
  functional (l1 ++ l2) → functional l1.
Proof.
  intros Hf k v v' H1 H2. apply (Hf k); apply elem_of_app; by left.
Qed.

Lemma not_target (ops : list op) (k : string) :
  (∀ o, o ∈ ops → target o ≠ k) → k ∉ target <$> ops.
Proof.
  intros Hne (o & -> & Ho)%list_elem_of_fmap. by apply (Hne o).
Qed.

(** The three copies of the executable are in place after the construction,
    however far it went: the operations after them write below [lib]. *)
Lemma binaries_after spawn decode_utf8 json_loads self i (order : list string)
    (destination : string) (t : fs) (data : string) (x : bool) :
  _get_base_python_info spawn decode_utf8 json_loads self = Ok (info_json i) →
  Forall (λ m, m ∈ modules) order →
  t !! executable i = Some (File data x) →
  (t !! OsPath.join destination "bin" = None
   ∨ t !! OsPath.join destination "bin" = Some Dir) →
  (∀ name,
     name ∈ [ "python"; "python" +:+ pretty (major i);
              "python" +:+ pretty (major i) +:+ "." +:+ pretty (minor i) ] →
     t !! OsPath.join (OsPath.join destination "bin") name ≠ Some Dir) →
  ∀ name,
    name ∈ [ "python"; "python" +:+ pretty (major i);
             "python" +:+ pretty (major i) +:+ "." +:+ pretty (minor i) ] →
    (create_virtual_environment spawn decode_utf8 json_loads self order
                                destination t).1
    !! OsPath.join (OsPath.join destination "bin") name
    = Some (File data x).
Proof.
  intros Hprobe Hmods Hexe Hbin Hfree name Hname.
  rewrite (create_as_plan _ _ _ _ _ _ i) by done.
  pose proof (plan_functional i order destination t Hmods) as Hfun.
  destruct (plan_below i order destination Hmods) as [s Hplan].
  set (N := "python" +:+ pretty (major i) +:+ "." +:+ pretty (minor i)) in *.
  set (D := OsPath.with_sep destination) in *.
  assert (HN : Str.startswith "python" N = true) by apply startswith_app.
  assert (Hfree0 := Hfree "python" ltac:(by left)).
  assert (Hfree1 := Hfree ("python" +:+ pretty (major i))
                          ltac:(by right; left)).
  assert (Hfree2 := Hfree N ltac:(by right; right; left)).
  rewrite (bin_dir_path destination) in Hbin.
  rewrite (bin_file_path destination "python" eq_refl) in Hfree0.
  rewrite (bin_file_path destination _ (startswith_app _ _)) in Hfree1.
  rewrite (bin_file_path destination N HN) in Hfree2.
  fold D in Hbin, Hfree0, Hfree1, Hfree2.
  assert (Hkey : ∃ n, OsPath.join (OsPath.join destination "bin") name
                      = D +:+ "bin/" +:+ n
                      ∧ n ∈ ["python"; "python" +:+ pretty (major i); N]).
  { exists name. split; [|done]. apply bin_file_path.
    rewrite !elem_of_cons, elem_of_nil in Hname.
    destruct Hname as [->|[->|[->|[]]]]; [done|apply startswith_app|done]. }
  destruct Hkey as (n & -> & Hn). clear Hname Hfree.
  rewrite Hplan in Hfun |- *.
  match goal with
  | |- context [run_ops ([?a; ?b; ?c; ?d; ?e; ?f; ?g] ++ ?X)] =>
      set (bins := [a; b; c; d]); set (rest := ([e; f; g] ++ X)%list);
      change ([a; b; c; d; e; f; g] ++ X)%list with (bins ++ rest)%list in *
  end.
  assert (Heff : effects t bins
                 = [ (D +:+ "bin", Dir)
                   ; (D +:+ "bin/" +:+ "python", File data x)
                   ; (D +:+ "bin/" +:+ "python" +:+ pretty (major i), File data x)
                   ; (D +:+ "bin/" +:+ N, File data x) ]).
  { unfold effects, bins. simpl. by rewrite Hexe. }
  assert (Hfunb : functional (effects t bins)).
  { rewrite effects_app in Hfun. by apply functional_app_l in Hfun. }
  assert (Hrun : run_ops bins t = (image t bins ∪ t, Ok tt)).
  { apply run_ops_image; [|done|].
    - unfold bins. repeat apply Forall_cons_2; try apply Forall_nil_2; simpl;
        try done; split; try done; by exists data, x.
    - intros src dst Hin.
      assert (src = executable i) as ->.
      { unfold bins in Hin. rewrite !elem_of_cons, elem_of_nil in Hin.
        destruct Hin as [?|[?|[?|[?|[]]]]]; by simplify_eq. }
      destruct (image t bins !! executable i) as [v|] eqn:Hl; [right|by left].
      apply image_lookup_inv in Hl. rewrite Heff in Hl.
      rewrite !elem_of_cons, elem_of_nil in Hl.
      destruct Hl as [Hl|[Hl|[Hl|[Hl|[]]]]]; simplify_eq; try done.
      destruct Hbin; congruence. }
  clearbody N D. unfold run_ops in *. rewrite for_each_app, Hrun.
  fold (run_ops rest (image t bins ∪ t)). rewrite run_ops_frame.
  - apply lookup_union_Some_l. apply image_lookup; [done|]. rewrite Heff.
    rewrite !elem_of_cons, elem_of_nil in Hn. rewrite !elem_of_cons.
    destruct Hn as [->|[->|[->|[]]]]; auto.
  - apply not_target. intros o Ho Hk. unfold rest in Ho.
    rewrite !elem_of_app, !elem_of_cons, !elem_of_nil, list_elem_of_fmap in Ho.
    destruct Ho as [[->|[->|[->|[]]]]|[(m & -> & _)|[->|[]]]]; simpl in Hk;
      by same_path Hk.
Qed.

(** C4: for a base interpreter with version (M, m, p) the three names are
    [python], [pythonM] and [pythonM.m], the version tuple cut to its first
    0, 1 and 2 components; when the source executable is a file with its
    executable bit set, the binary directory is not a file and none of the
    three paths is a directory, then after the construction each of the
    three paths in the binary directory holds a file with the bytes of the
    source executable and the executable bit set. *)
Theorem binaries_staged spawn decode_utf8 json_loads self i (order : list string)
    (destination : string) (t : fs) (data : string) :
  _get_base_python_info spawn decode_utf8 json_loads self = Ok (info_json i) →
  order ≡ₚ elements modules →
  t !! executable i = Some (File data true) →
  (t !! OsPath.join destination "bin" = None
   ∨ t !! OsPath.join destination "bin" = Some Dir) →
  (∀ name,
     name ∈ [ "python"; "python" +:+ pretty (major i);
              "python" +:+ pretty (major i) +:+ "." +:+ pretty (minor i) ] →
     t !! OsPath.join (OsPath.join destination "bin") name ≠ Some Dir) →
  python_name (info_json i) <$> [0; 1; 2]
  = [ Ok "python"; Ok ("python" +:+ pretty (major i));
      Ok ("python" +:+ pretty (major i) +:+ "." +:+ pretty (minor i)) ]
  ∧ ∀ name,
      name ∈ [ "python"; "python" +:+ pretty (major i);
               "python" +:+ pretty (major i) +:+ "." +:+ pretty (minor i) ] →
      (create_virtual_environment spawn decode_utf8 json_loads self order
                                  destination t).1
      !! OsPath.join (OsPath.join destination "bin") name
      = Some (File data true).
Proof.
  intros Hprobe Horder Hexe Hbin Hfree. split; [reflexivity|].
  apply (binaries_after _ _ _ _ i); try done. by apply order_modules.
Qed.

Lemma binaries_staged_witness :
  let t' := (Sample.create (elements modules) "/tmp/env" Sample.disk).1 in
  t' !! "/tmp/env/bin/python" = Some (File Sample.elf true)
  ∧ t' !! "/tmp/env/bin/python3" = Some (File Sample.elf true)
  ∧ t' !! "/tmp/env/bin/python3.8" = Some (File Sample.elf true).
Proof.
  destruct (binaries_staged Sample.spawn JsonText.decode JsonText.loads
              Sample.builder Sample.base (elements modules) "/tmp/env"
              Sample.disk Sample.elf) as [_ H].
  - vm_compute. reflexivity.
  - reflexivity.
  - vm_compute. reflexivity.
  - left. vm_compute. reflexivity.
  - intros name Hname. rewrite !elem_of_cons, elem_of_nil in Hname.
    destruct Hname as [->|[->|[->|[]]]]; vm_compute; discriminate.
  - split; [|split].
    + apply (H "python"). by left.
    + apply (H "python3"). by right; left.
    + apply (H "python3.8"). by right; right; left.
Defined.

(** ** A module that is missing *)

Lemma with_sep_ends (d : string) :
  OsPath.with_sep d = EmptyString ∨ Str.endswith_sep (OsPath.with_sep d) = true.
Proof.
  unfold OsPath.with_sep. destruct (decide (d = EmptyString)); [by left|].
  destruct (Str.endswith_sep d) eqn:E; [by right|]. right.
  by rewrite endswith_sep_app.
Qed.

Lemma startswith_app_r (p a x : string) :
  Str.startswith p a = true → Str.startswith p (a +:+ x) = true.
Proof.
  revert a. induction p as [|c p IH]; intros a; [done|].
  destruct a as [|b a]; [done|]. simpl.
  destruct (decide (c = b)); [apply IH|done].
Qed.

(** A prefix that ends with the separator reaches into a string only if the
    string has a separator. *)
Lemma prefix_ends_sep (p m : string) :
  Str.startswith p m = true → Str.endswith_sep p = true →
  Str.contains "/" m = true.
Proof.
  revert m. induction p as [|c p IH]; intros m; [done|].
  destruct m as [|b m]; [done|]. simpl.
  destruct (decide (c = b)) as [->|]; [|done]. intros Hp Hend.
  destruct p as [|c' p].
  - destruct (decide (b = Str.sep)) as [->|]; [done|done].
  - destruct (decide ("/"%char = b)); [done|]. simpl. by apply IH.
Qed.

Lemma prefix_of_app (p a m : string) :
  p = EmptyString ∨ Str.endswith_sep p = true →
  Str.contains "/" m = false →
  Str.startswith p (a +:+ m) = true → Str.startswith p a = true.
Proof.
  intros Hp Hm. revert a Hp. induction p as [|c p IH]; intros a Hp; [done|].
  destruct Hp as [?|Hend]; [done|].
  destruct a as [|b a].
  - intros Hpre. change (EmptyString +:+ m) with m in Hpre.
    pose proof (prefix_ends_sep _ _ Hpre Hend). congruence.
  - simpl. destruct (decide (c = b)); [|done]. apply IH.
    destruct p; [by left|by right].
Qed.

Lemma module_plain (m : string) : m ∈ modules → Str.contains "/" m = false.
Proof.
  intros Hm%module_cases. repeat (apply elem_of_cons in Hm as [->|Hm]; [done|]).
  by apply elem_of_nil in Hm.
Qed.

(** With nothing below the destination and [os.py] in the base library, no
    module of the base library lies below the destination. *)
Lemma module_source_outside (i : BaseInterpreterInfo) (destination : string)
    (t : fs) (m : string) :
  empty_below destination t → is_file t (OsPath.join (lib i) "os.py") →
  m ∈ modules →
  Str.startswith (OsPath.with_sep destination) (OsPath.join (lib i) m) = false.
Proof.
  intros Hfresh (data & x & Hos) Hm.
  destruct (Str.startswith _ (OsPath.join (lib i) m)) eqn:E; [|done].
  rewrite join_relative in E by by apply module_relative.
  apply prefix_of_app in E; [|apply with_sep_ends|by apply module_plain].
  rewrite join_relative in Hos by done.
  rewrite Hfresh in Hos; [done|]. by apply startswith_app_r.
Qed.

(** The first module the loop does not find. *)
Lemma first_missing (t : fs) (base : string) (order : list string) :
  (∀ m, m ∈ order →
        is_file t (OsPath.join base m) ∨ t !! OsPath.join base m = None) →
  (∃ m, m ∈ order ∧ t !! OsPath.join base m = None) →
  ∃ pre m post,
    order = (pre ++ m :: post)%list
    ∧ Forall (λ m', is_file t (OsPath.join base m')) pre
    ∧ t !! OsPath.join base m = None.
Proof.
  induction order as [|m0 order IH]; intros Hall (m & Hin & Hnone).
  - by apply elem_of_nil in Hin.
  - destruct (Hall m0) as [Hfile|Hmiss]; [by left| |].
    + destruct IH as (pre & m1 & post & -> & Hpre & Hm1).
      * intros m' Hm'. apply Hall. by right.
      * apply elem_of_cons in Hin as [->|Hin]; [|by exists m].
        destruct Hfile as (? & ? & ?). congruence.
      * exists (m0 :: pre), m1, post. split; [done|]. split; [|done].
        by apply Forall_cons.
    + exists [], m0, order. split; [done|]. split; [apply Forall_nil_2|done].
Qed.

(** When the loop reaches a module that the base library does not have, the
    construction stops there with the path of that module; the directories
    made and the files copied until then are in the tree, and nothing that
    existed was changed. *)
Lemma construction_missing_module spawn decode_utf8 json_loads self i
    (pre post : list string) (m : string) (destination : string) (t : fs) :
  _get_base_python_info spawn decode_utf8 json_loads self = Ok (info_json i) →
  (pre ++ m :: post)%list ≡ₚ elements modules →
  empty_below destination t →
  is_file t (executable i) → is_file t (OsPath.join (lib i) "os.py") →
  Forall (λ m', is_file t (OsPath.join (lib i) m')) pre →
  t !! OsPath.join (lib i) m = None →
  let name := "python" +:+ pretty (major i) +:+ "." +:+ pretty (minor i) in
  let bin := OsPath.join destination "bin" in
  let lib_dir := OsPath.join3 destination "lib" name in
  ∃ t',
    create_virtual_environment spawn decode_utf8 json_loads self
                               (pre ++ m :: post) destination t
    = (t', Err (MissingDependencyModule (OsPath.join (lib i) m)))
    ∧ (∀ directory,
         directory ∈ [bin; lib_dir; OsPath.join lib_dir "site-packages"] →
         t' !! directory = Some Dir)
    ∧ (∀ n, n ∈ ["python"; "python" +:+ pretty (major i); name] →
            t' !! OsPath.join bin n = t !! executable i)
    ∧ t' !! OsPath.join lib_dir "os.py" = t !! OsPath.join (lib i) "os.py"
    ∧ (∀ m', m' ∈ pre →
             t' !! OsPath.join lib_dir m' = t !! OsPath.join (lib i) m')
    ∧ (∀ k, is_Some (t !! k) → t' !! k = t !! k).
Proof.
  intros Hprobe Hperm Hfresh Hexe Hos Hpre Hmiss name bin lib_dir.
  pose proof (order_modules _ Hperm) as Hmods.
  rewrite (create_as_plan _ _ _ _ _ _ i) by done.
  set (copy := λ module, CopyFile (OsPath.join (lib i) module)
                                  (OsPath.join lib_dir module)).
  set (stage :=
    ([ EnsureDirectory bin
     ; CopyFile (executable i) (OsPath.join bin "python")
     ; CopyFile (executable i) (OsPath.join bin ("python" +:+ pretty (major i)))
     ; CopyFile (executable i) (OsPath.join bin name)
     ; EnsureDirectory lib_dir
     ; EnsureDirectory (OsPath.join lib_dir "site-packages")
     ; CopyFile (OsPath.join (lib i) "os.py") (OsPath.join lib_dir "os.py") ]
     ++ (copy <$> pre))%list).
  assert (Hsplit : ∃ rest, plan i (pre ++ m :: post) destination
                           = (stage ++ copy m :: rest)%list).
  { eexists. unfold plan, stage. fold name bin lib_dir copy.
    rewrite fmap_app, fmap_cons, <- !app_assoc. reflexivity. }
  destruct Hsplit as [rest Hsplit].
  assert (Hin : ∀ o, o ∈ stage → o ∈ plan i (pre ++ m :: post) destination).
  { intros o Ho. rewrite Hsplit. apply elem_of_app. by left. }
  assert (Hbelow : ∀ o, o ∈ stage →
            Str.startswith (OsPath.with_sep destination) (target o) = true).
  { intros o Ho. eapply plan_targets_below; [exact Hmods|by apply Hin]. }
  assert (Hsrc : sources_ok t stage).
  { intros src dst. unfold stage.
    rewrite !elem_of_app, !elem_of_cons, elem_of_nil, list_elem_of_fmap.
    rewrite Forall_forall in Hpre.
    intros [[?|[?|[?|[?|[?|[?|[?|[]]]]]]]]|(m' & ? & Hm')];
      unfold copy in *; simplify_eq; auto. }
  assert (Hfun : functional (effects t stage)).
  { pose proof (plan_functional i _ destination t Hmods) as Hf.
    rewrite Hsplit, effects_app in Hf. by apply functional_app_l in Hf. }
  pose proof (run_ops_fresh destination t stage Hbelow Hfresh Hsrc Hfun) as Hrun.
  set (t' := image t stage ∪ t) in *.
  assert (Hdir : ∀ d, EnsureDirectory d ∈ stage → t' !! d = Some Dir).
  { intros d Hd. apply lookup_union_Some_l. apply image_lookup; [done|].
    unfold effects. apply list_elem_of_omap. by exists (EnsureDirectory d). }
  assert (Hcopy : ∀ src dst, CopyFile src dst ∈ stage → t' !! dst = t !! src).
  { intros src dst Hc. destruct (Hsrc src dst Hc) as (data & x & Hf).
    rewrite Hf. apply lookup_union_Some_l. apply image_lookup; [done|].
    unfold effects. apply list_elem_of_omap. exists (CopyFile src dst).
    split; [done|]. simpl. by rewrite Hf. }
  assert (Hkeep : ∀ k, is_Some (t !! k) → t' !! k = t !! k).
  { intros k [v Hv]. unfold t'. rewrite lookup_union.
    destruct (image t stage !! k) as [w|] eqn:Hl; [|by rewrite (left_id None _)].
    apply (image_fresh destination t stage Hbelow Hfresh) in Hl. congruence. }
  exists t'. split; [|split; [|split; [|split; [|split]]]].
  - rewrite Hsplit. unfold run_ops in *. rewrite for_each_app, Hrun.
    simpl. unfold bind, copyfile.
    assert (Hnone : t' !! OsPath.join (lib i) m = None).
    { unfold t'. rewrite lookup_union, Hmiss, (right_id None _).
      destruct (image t stage !! OsPath.join (lib i) m) as [w|] eqn:Hl; [|done].
      apply image_lookup_inv in Hl. unfold effects in Hl.
      apply list_elem_of_omap in Hl as (o & Ho & He).
      apply effect_target in He. apply Hbelow in Ho. rewrite <- He in Ho.
      rewrite (module_source_outside i destination t m) in Ho; try done.
      rewrite Forall_forall in Hmods. apply Hmods.
      apply elem_of_app. right. by left. }
    by rewrite Hnone.
  - intros d Hd. apply Hdir. unfold stage.
    rewrite !elem_of_cons, elem_of_nil in Hd. apply elem_of_app. left.
    rewrite !elem_of_cons. destruct Hd as [->|[->|[->|[]]]]; auto 10.
  - intros n Hn. apply Hcopy. unfold stage.
    rewrite !elem_of_cons, elem_of_nil in Hn. apply elem_of_app. left.
    rewrite !elem_of_cons. destruct Hn as [->|[->|[->|[]]]]; auto 10.
  - apply Hcopy. unfold stage. apply elem_of_app. left.
    rewrite !elem_of_cons. auto 10.
  - intros m' Hm'. apply Hcopy. unfold stage. apply elem_of_app. right.
    apply list_elem_of_fmap. by exists m'.
  - exact Hkeep.
Qed.

(** C7: with nothing below the destination, the executable and [os.py] in
    place and every module of the set either a file of the base library or
    absent from it, if some module is absent the construction fails with
    [MissingDependencyModule] carrying the path of an absent module, the
    first such module the loop reaches; the directories made and the files
    copied before that are in the tree the failure leaves, and what existed
    before is unchanged. *)
Theorem missing_module_reported spawn decode_utf8 json_loads self i
    (order : list string) (destination : string) (t : fs) :
  _get_base_python_info spawn decode_utf8 json_loads self = Ok (info_json i) →
  order ≡ₚ elements modules →
  empty_below destination t →
  is_file t (executable i) → is_file t (OsPath.join (lib i) "os.py") →
  (∀ m, m ∈ modules →
        is_file t (OsPath.join (lib i) m) ∨ t !! OsPath.join (lib i) m = None) →
  (∃ m, m ∈ modules ∧ t !! OsPath.join (lib i) m = None) →
  let name := "python" +:+ pretty (major i) +:+ "." +:+ pretty (minor i) in
  let bin := OsPath.join destination "bin" in
  let lib_dir := OsPath.join3 destination "lib" name in
  ∃ pre m post t',
    order = (pre ++ m :: post)%list
    ∧ m ∈ modules
    ∧ t !! OsPath.join (lib i) m = None
    ∧ create_virtual_environment spawn decode_utf8 json_loads self order
                                 destination t
      = (t', Err (MissingDependencyModule (OsPath.join (lib i) m)))
    ∧ (∀ directory,
         directory ∈ [bin; lib_dir; OsPath.join lib_dir "site-packages"] →
         t' !! directory = Some Dir)
    ∧ (∀ n, n ∈ ["python"; "python" +:+ pretty (major i); name] →
            t' !! OsPath.join bin n = t !! executable i)
    ∧ t' !! OsPath.join lib_dir "os.py" = t !! OsPath.join (lib i) "os.py"
    ∧ (∀ m', m' ∈ pre →
             t' !! OsPath.join lib_dir m' = t !! OsPath.join (lib i) m')
    ∧ (∀ k, is_Some (t !! k) → t' !! k = t !! k).
Proof.
  intros Hprobe Hperm Hfresh Hexe Hos Hall (m0 & Hm0 & Hnone) name bin lib_dir.
  destruct (first_missing t (lib i) order) as (pre & m & post & -> & Hpre & Hm).
  - intros m' Hm'. apply Hall. rewrite Hperm in Hm'.
    by apply elem_of_elements in Hm'.
  - exists m0. split; [|done]. rewrite Hperm. by apply elem_of_elements.
  - destruct (construction_missing_module spawn decode_utf8 json_loads self i
                pre post m destination t) as (t' & Hrun & Hrest); try done.
    exists pre, m, post, t'. split; [done|]. split; [|by split].
    pose proof (order_modules _ Hperm) as Hmods.
    rewrite Forall_forall in Hmods. apply Hmods. apply elem_of_app.
    right. by left.
Qed.

Lemma sample_without_stat (m : string) :
  m ∈ modules →
  is_file Sample.disk_without_stat (OsPath.join (lib Sample.base) m)
  ∨ Sample.disk_without_stat !! OsPath.join (lib Sample.base) m = None.
Proof.
  intros Hm%module_cases.
  repeat (apply elem_of_cons in Hm as [->|Hm];
          [first [ right; vm_compute; reflexivity
                 | left; eexists _, _; vm_compute; reflexivity ]|]).
  by apply elem_of_nil in Hm.
Qed.

Lemma missing_module_reported_witness :
  ∃ pre m post t',
    elements modules = (pre ++ m :: post)%list
    ∧ m ∈ modules
    ∧ Sample.disk_without_stat !! OsPath.join "/usr/lib/python3.8" m = None
    ∧ Sample.create (elements modules) "/tmp/env" Sample.disk_without_stat
      = (t', Err (MissingDependencyModule (OsPath.join "/usr/lib/python3.8" m)))
    ∧ (∀ directory,
         directory ∈ [ "/tmp/env/bin"; "/tmp/env/lib/python3.8";
                       "/tmp/env/lib/python3.8/site-packages" ] →
         t' !! directory = Some Dir).
Proof.
  destruct (missing_module_reported Sample.spawn JsonText.decode JsonText.loads
              Sample.builder Sample.base (elements modules) "/tmp/env"
              Sample.disk_without_stat)
    as (pre & m & post & t' & Ho & Hm & Hnone & Hrun & Hdirs & _).
  - vm_compute. reflexivity.
  - reflexivity.
  - intros path Hpath. unfold Sample.disk_without_stat.
    destruct (decide ("/usr/lib/python3.8/stat.py" = path)) as [<-|Hne].
    + apply lookup_delete_eq.
    + rewrite lookup_delete_ne by done. by apply sample_fresh.
  - eexists _, _. vm_compute. reflexivity.
  - eexists _, _. vm_compute. reflexivity.
  - exact sample_without_stat.
  - exists "stat.py". split; [|vm_compute; reflexivity].
    unfold modules. rewrite !elem_of_union, !elem_of_singleton. tauto.
  - exists pre, m, post, t'. repeat split; done.
Defined.

(** * Further properties *)

(** ** The search path, at its edges *)

Lemma drop_app_char (p : string) (c : ascii) (rest : string) :
  Str.drop (String.length p + 1) (p +:+ String c rest) = rest.
Proof. induction p as [|a p IH]; simpl; [done|]. apply IH. Qed.

(** X1: an entry that starts with the prefix loses the prefix and the one
    character after it, whatever that character is, and what is left is
    joined to the base prefix. *)
Theorem rewritten_drops_one_character (st : Script.interp) (c : ascii)
    (rest : string) :
  Script.rewritten st (Script.sys_prefix st +:+ String c rest)
  = OsPath.join (Script.sys_base_prefix st) rest.
Proof.
  unfold Script.rewritten. by rewrite startswith_app, drop_app_char.
Qed.

Lemma drop_past_end (p : string) :
  Str.drop (String.length p + 1) p = EmptyString.
Proof. induction p as [|a p IH]; simpl; [done|]. apply IH. Qed.

Lemma startswith_refl (p : string) : Str.startswith p p = true.
Proof. induction p as [|a p IH]; simpl; [done|]. by rewrite decide_True. Qed.

(** X2: an entry that is the prefix itself becomes the base prefix with a
    separator at its end (an empty base prefix stays empty). *)
Theorem rewritten_prefix_itself (st : Script.interp) :
  Script.rewritten st (Script.sys_prefix st)
  = OsPath.with_sep (Script.sys_base_prefix st).
Proof.
  unfold Script.rewritten. rewrite startswith_refl, drop_past_end.
  rewrite join_relative by done. apply str_app_nil_r.
Qed.

(** X3: below the prefix the prefix is replaced: the prefix, a separator and
    a relative remainder become the base prefix, a separator and the
    remainder, for a base prefix that is not empty and does not end with a
    separator. *)
Theorem rewritten_replaces_prefix (st : Script.interp) (rest : string) :
  Script.sys_base_prefix st ≠ EmptyString →
  Str.endswith_sep (Script.sys_base_prefix st) = false →
  Str.startswith "/" rest = false →
  Script.rewritten st (Script.sys_prefix st +:+ "/" +:+ rest)
  = Script.sys_base_prefix st +:+ "/" +:+ rest.
Proof. apply rewritten_below_prefix. Qed.

Lemma rewritten_replaces_prefix_witness :
  Script.rewritten
    ((Script.assign_prefixes ScriptSample.lits) ScriptSample.st0).1
    ("/env" +:+ "/" +:+ "lib/python2.7")
  = "/usr" +:+ "/" +:+ "lib/python2.7".
Proof.
  apply (rewritten_replaces_prefix
           ((Script.assign_prefixes ScriptSample.lits) ScriptSample.st0).1
           "lib/python2.7"); [done|reflexivity|reflexivity].
Defined.

(** X4: in a script whose prefix and exec-prefix literals are the same
    string, as the builder renders it, the exec-prefix branch is never
    taken: every entry is rewritten with the base prefix or kept. *)
Theorem rewrite_same_prefixes (destination bp be site : string)
    (st : Script.interp) :
  let c := Script.Literals destination destination bp be site in
  Script.sys_path ((Script.assign_prefixes c;; Script.rewrite_sys_path) st).1
  = map (λ entry,
      if Str.startswith destination entry then
        OsPath.join bp (Str.drop (String.length destination + 1) entry)
      else entry)
      (Script.sys_path st).
Proof.
  simpl. rewrite rewrite_loop_map. simpl. apply map_ext. intros entry.
  unfold Script.rewritten. simpl.
  by destruct (Str.startswith destination entry).
Qed.

(** ** The module registry, again *)

(** X5: the purge gives the same registry whatever the order of the names
    in the snapshot, and no [del] fails. *)
Theorem purge_order_irrelevant (keys : list string) (st : Script.interp) :
  keys ≡ₚ (map_to_list (Script.sys_modules st)).*1 →
  Script.purge_keys keys st = Script.purge_modules st
  ∧ (Script.purge_keys keys st).2 = Ok tt.
Proof.
  intros Hperm. rewrite (purge_keys_any_order keys st Hperm).
  split; [done|]. by rewrite purge_modules_spec.
Qed.

Lemma purge_order_irrelevant_witness :
  Script.purge_keys ["site"; "os"; "__builtin__"; "sys"] ScriptSample.st0
  = Script.purge_modules ScriptSample.st0
  ∧ (Script.purge_keys ["site"; "os"; "__builtin__"; "sys"] ScriptSample.st0).2
    = Ok tt.
Proof.
  apply (purge_order_irrelevant ["site"; "os"; "__builtin__"; "sys"]
           ScriptSample.st0).
  apply NoDup_Permutation.
  - vm_compute. repeat constructor; rewrite ?elem_of_cons, ?elem_of_nil;
      intros H; repeat destruct H as [H|H]; done.
  - apply NoDup_fst_map_to_list.
  - intros x. vm_compute fmap. rewrite !elem_of_cons, !elem_of_nil. tauto.
Defined.

(** X6: the purge changes nothing but the registry, and purging again
    changes nothing at all. *)
Theorem purge_idempotent (st : Script.interp) :
  let st' := (Script.purge_modules st).1 in
  Script.purge_modules st' = (st', Ok tt)
  ∧ Script.sys_path st' = Script.sys_path st
  ∧ Script.sys_flags st' = Script.sys_flags st
  ∧ Script.sys_prefix st' = Script.sys_prefix st
  ∧ Script.sys_exec_prefix st' = Script.sys_exec_prefix st.
Proof.
  rewrite purge_modules_spec. simpl. split; [|done].
  rewrite purge_modules_spec. f_equal. destruct st; simpl.
  unfold Script.set_sys_modules; simpl. f_equal.
  apply map_filter_id. intros k v Hl. by apply map_lookup_filter_Some in Hl as [_ ?].
Qed.

(** ** The flags, at the time of [exec] *)

(** The state the script has reached when it opens the base start-up
    module. *)
Lemma run_reaches read_source exec_source attrdict_attrs c st :
  ∃ st1,
    Script.run read_source exec_source attrdict_attrs c st
    = match read_source (Script.lit_site c) with
      | None => (st1, Err (Script.IOError (Script.lit_site c)))
      | Some source =>
          match exec_source source st1 with
          | (st2, Ok _) => Script.restore_flags st2
          | (st2, Err e) => (st2, Err e)
          end
      end
    ∧ Script._real_sys_flags st1 = Some (Script.sys_flags st)
    ∧ Script.sys_flags st1
      = Script.AttrDict (<["no_user_site" := Script.PBool true]>
                           (Script.flag_attrs attrdict_attrs (Script.sys_flags st)))
    ∧ Script.sys_modules st1
      = filter (λ kv, kv.1 ∈ Script.keep) (Script.sys_modules st)
    ∧ Script.sys_prefix st1 = Script.lit_prefix c
    ∧ Script.sys_exec_prefix st1 = Script.lit_exec_prefix c
    ∧ Script.sys_base_prefix st1 = Script.lit_base_prefix c
    ∧ Script.sys_base_exec_prefix st1 = Script.lit_base_exec_prefix c
    ∧ length (Script.sys_path st1) = length (Script.sys_path st).
Proof.
  unfold Script.run. simpl. unfold mbind, M_bind, bind. simpl.
  rewrite purge_modules_spec. simpl.
  eexists. split.
  - unfold Script.exec_site.
    destruct (read_source (Script.lit_site c)); reflexivity.
  - simpl. repeat split; try reflexivity.
    rewrite rewrite_loop_map. simpl. by rewrite length_map.
Qed.

(** X7: the base start-up module is executed with [sys.flags] bound to an
    [AttrDict] whose items are: under [no_user_site] the value [True], and
    under every other name what [dir] and [getattr] showed of the
    interpreter's structure under that name (no item where they showed
    none); the structure itself is kept under [_real_sys_flags].  This is
    about the items of the dictionary: an attribute that [dict] has of
    its own is answered by [dict], not by an item. *)
Theorem exec_sees_spoofed_flags read_source exec_source attrdict_attrs c st
    (attrs : gmap string Script.pyval) (source : string) :
  Script.sys_flags st = Script.RealFlags attrs →
  read_source (Script.lit_site c) = Some source →
  ∃ st1 items,
    Script.run read_source exec_source attrdict_attrs c st
    = match exec_source source st1 with
      | (st2, Ok _) => Script.restore_flags st2
      | (st2, Err e) => (st2, Err e)
      end
    ∧ Script.sys_flags st1 = Script.AttrDict items
    ∧ items !! "no_user_site" = Some (Script.PBool true)
    ∧ (∀ name, name ≠ "no_user_site" → items !! name = attrs !! name)
    ∧ Script._real_sys_flags st1 = Some (Script.RealFlags attrs).
Proof.
  intros Hflags Hread.
  destruct (run_reaches read_source exec_source attrdict_attrs c st)
    as (st1 & Hrun & Hsaved & Hspoof & _).
  rewrite Hread in Hrun. rewrite Hflags in Hsaved, Hspoof. simpl in Hspoof.
  exists st1, (<["no_user_site" := Script.PBool true]> attrs).
  split; [done|]. split; [done|]. split; [apply lookup_insert_eq|].
  split; [|done]. intros name Hname. by rewrite lookup_insert_ne.
Qed.

Lemma exec_sees_spoofed_flags_witness :
  ∃ st1 items,
    Script.run ScriptSample.read_any ScriptSample.exec_ok ∅ ScriptSample.lits
               ScriptSample.st0
    = match ScriptSample.exec_ok "pass" st1 with
      | (st2, Ok _) => Script.restore_flags st2
      | (st2, Err e) => (st2, Err e)
      end
    ∧ Script.sys_flags st1 = Script.AttrDict items
    ∧ items !! "no_user_site" = Some (Script.PBool true)
    ∧ (∀ name, name ≠ "no_user_site" →
         items !! name
         = ({[ "debug" := Script.PInt 0; "no_user_site" := Script.PInt 0 ]}
              : gmap string Script.pyval) !! name)
    ∧ Script._real_sys_flags st1 = Some ScriptSample.real_flags.
Proof.
  apply (exec_sees_spoofed_flags ScriptSample.read_any ScriptSample.exec_ok ∅
           ScriptSample.lits ScriptSample.st0 _ "pass"); reflexivity.
Defined.

(** X8: when the base start-up module cannot be read the script raises
    [IOError] with its path; nothing is executed, the registry is already
    purged and [sys.flags] is left bound to the stand-in. *)
Theorem unreadable_site_raises read_source exec_source attrdict_attrs c st :
  read_source (Script.lit_site c) = None →
  ∃ st1 items,
    (∀ exec_other,
       Script.run read_source exec_other attrdict_attrs c st
       = (st1, Err (Script.IOError (Script.lit_site c))))
    ∧ Script.run read_source exec_source attrdict_attrs c st
      = (st1, Err (Script.IOError (Script.lit_site c)))
    ∧ Script.sys_flags st1 = Script.AttrDict items
    ∧ Script.sys_modules st1
      = filter (λ kv, kv.1 ∈ Script.keep) (Script.sys_modules st).
Proof.
  intros Hread.
  destruct (run_reaches read_source exec_source attrdict_attrs c st)
    as (st1 & Hrun & _ & Hspoof & Hmods & _).
  rewrite Hread in Hrun.
  exists st1, (<["no_user_site" := Script.PBool true]>
                 (Script.flag_attrs attrdict_attrs (Script.sys_flags st))).
  split; [|split; [done|split; done]].
  intros exec_other. rewrite <- Hrun.
  unfold Script.run. simpl. unfold mbind, M_bind, bind. simpl.
  rewrite purge_modules_spec. simpl. unfold Script.exec_site, mbind, M_bind, bind.
  by rewrite Hread.
Qed.

Lemma unreadable_site_raises_witness :
  ∃ st1 items,
    (∀ exec_other,
       Script.run (λ _, None) exec_other ∅ ScriptSample.lits ScriptSample.st0
       = (st1, Err (Script.IOError "/usr/lib/python2.7/site.py")))
    ∧ Script.run (λ _, None) ScriptSample.exec_ok ∅ ScriptSample.lits
                 ScriptSample.st0
      = (st1, Err (Script.IOError "/usr/lib/python2.7/site.py"))
    ∧ Script.sys_flags st1 = Script.AttrDict items
    ∧ Script.sys_modules st1
      = filter (λ kv, kv.1 ∈ Script.keep) (Script.sys_modules ScriptSample.st0).
Proof.
  apply (unreadable_site_raises (λ _, None) ScriptSample.exec_ok ∅
           ScriptSample.lits ScriptSample.st0). reflexivity.
Defined.

(** ** What the construction never does *)

Lemma tame_ret (D : string) {A : Type} (x : A) : tame D (ret x).
Proof. intros t. simpl. split; [by intros c|]. split; auto. Qed.

Lemma tame_bind (D : string) {A B : Type} (m : M fs error A)
    (k : A → M fs error B) :
  tame D m → (∀ x t t', m t = (t', Ok x) → tame D (k x)) → tame D (bind m k).
Proof.
  intros Hm Hk t. unfold bind. destruct (Hm t) as (Hq & Hw & Hkeep).
  destruct (m t) as [t' [x|e]] eqn:Hmt; simpl in *.
  - destruct (Hk x t t' Hmt t') as (Hq' & Hw' & Hkeep').
    destruct (k x t') as [t'' r]; simpl in *.
    split; [assumption|]. split.
    + intros j Hj. by rewrite Hw', Hw.
    + intros j Hj. auto.
  - split; [intros c [= ->]; by destruct (Hq c)|]. split; done.
Qed.

Lemma tame_lift (D : string) {A B : Type} (r : result error A)
    (k : A → M fs error B) :
  followed r → (∀ x, r = Ok x → tame D (k x)) → tame D (bind (lift r) k).
Proof.
  intros Hr Hk t. unfold bind, lift. destruct r as [x|e]; simpl.
  - by apply Hk.
  - split; [intros c [= ->]; by destruct (Hr c)|]. split; auto.
Qed.

Lemma tame_for_each (D : string) {A : Type} (l : list A)
    (body : A → M fs error unit) :
  (∀ x, x ∈ l → tame D (body x)) → tame D (for_each l body).
Proof.
  induction l as [|x l IH]; intros Hbody; simpl; [apply tame_ret|].
  apply tame_bind; [apply Hbody; by left|]. intros _ _ _ _.
  apply IH. intros y Hy. apply Hbody. by right.
Qed.

Lemma tame_ensure_directory (D d : string) :
  Str.startswith D d = true → tame D (ensure_directory d).
Proof.
  intros Hd t. unfold ensure_directory.
  destruct (t !! d) as [[|]|] eqn:E; simpl; repeat split; auto; try done.
  - intros k Hk. rewrite lookup_insert_ne; [done|]. congruence.
  - intros k Hk. destruct (decide (d = k)) as [->|];
      [by rewrite lookup_insert_eq|by rewrite lookup_insert_ne].
Qed.

Lemma tame_copyfile (D src dst : string) :
  Str.startswith D dst = true → tame D (copyfile src dst).
Proof.
  intros Hd t. unfold copyfile.
  destruct (t !! src) as [[|data x]|]; simpl; try (repeat split; auto; done).
  destruct (t !! dst) as [[|]|] eqn:E; simpl; repeat split; auto; try done.
  - intros k Hk. rewrite lookup_insert_ne; [done|]. congruence.
  - intros k Hk. destruct (decide (dst = k)) as [->|];
      [by rewrite lookup_insert_eq|by rewrite lookup_insert_ne].
  - intros k Hk. rewrite lookup_insert_ne; [done|]. congruence.
  - intros k Hk. destruct (decide (dst = k)) as [->|];
      [by rewrite lookup_insert_eq|by rewrite lookup_insert_ne].
Qed.

Lemma tame_open_w (D dst : string) :
  Str.startswith D dst = true → tame D (open_w dst).
Proof.
  intros Hd t. unfold open_w.
  destruct (t !! dst) as [[|]|] eqn:E; simpl; repeat split; auto; try done.
  - intros k Hk. rewrite lookup_insert_ne; [done|]. congruence.
  - intros k Hk. destruct (decide (dst = k)) as [->|];
      [by rewrite lookup_insert_eq|by rewrite lookup_insert_ne].
  - intros k Hk. rewrite lookup_insert_ne; [done|]. congruence.
  - intros k Hk. destruct (decide (dst = k)) as [->|];
      [by rewrite lookup_insert_eq|by rewrite lookup_insert_ne].
Qed.

Lemma tame_write (D dst data : string) :
  Str.startswith D dst = true → tame D (write dst data).
Proof.
  intros Hd t. unfold write.
  destruct (t !! dst) as [[|]|] eqn:E; simpl; repeat split; auto; try done.
  - intros k Hk. rewrite lookup_insert_ne; [done|]. congruence.
  - intros k Hk. destruct (decide (dst = k)) as [->|];
      [by rewrite lookup_insert_eq|by rewrite lookup_insert_ne].
Qed.

Lemma followed_subscript (v : json) (key : string) : followed (subscript v key).
Proof.
  intros c. destruct v; simpl; try done. by destruct (assoc_last key members).
Qed.

Lemma followed_as_str (v : json) : followed (as_str v).
Proof. intros c. by destruct v. Qed.

Lemma followed_py_str (v : json) : printable v → followed (py_str v).
Proof. intros Hv c. by destruct v as [| [|] | | | | |]. Qed.

Lemma followed_map_str (l : list json) :
  Forall printable l → followed (map_str l).
Proof.
  intros Hl c. induction Hl as [|v l Hv Hl IH]; simpl; [done|].
  unfold mbind, result_bind, rbind.
  pose proof (followed_py_str v Hv c). destruct (py_str v); [|congruence].
  destruct (map_str l); [done|congruence].
Qed.

Lemma printable_chars (s : string) : Forall printable (chars s).
Proof. induction s as [|c s IH]; simpl; by constructor. Qed.

Lemma followed_python_name (v : json) (n : nat) :
  plain_version v → followed (python_name v n).
Proof.
  intros Hv c. unfold python_name. simpl. unfold mbind, result_bind, rbind.
  pose proof (followed_subscript v "sys.version_info" c).
  destruct (subscript v "sys.version_info") as [vi|] eqn:Hsub; [|congruence].
  destruct vi; simpl; try done.
  - pose proof (followed_map_str (take n (chars s))
                  ltac:(apply Forall_take, printable_chars) c).
    destruct (map_str (take n (chars s))); [done|congruence].
  - pose proof (followed_map_str (take n items)
                  ltac:(apply Forall_take, (Hv items Hsub)) c).
    destruct (map_str (take n items)); [done|congruence].
Qed.

Lemma followed_lib_file (v : json) (name : string) : followed (lib_file v name).
Proof.
  intros c. unfold lib_file. simpl. unfold mbind, result_bind, rbind.
  pose proof (followed_subscript v "lib" c).
  destruct (subscript v "lib") as [l|]; [|congruence]. by destruct l.
Qed.

Lemma followed_render (v : json) (destination : string) :
  followed (render v destination).
Proof.
  intros c. unfold render. simpl. unfold mbind, result_bind, rbind.
  pose proof (followed_subscript v "sys.prefix" c).
  destruct (subscript v "sys.prefix") as [p|]; [|congruence].
  destruct p; simpl; try done.
  pose proof (followed_subscript v "sys.exec_prefix" c).
  destruct (subscript v "sys.exec_prefix") as [p|]; [|congruence].
  destruct p; simpl; try done.
  pose proof (followed_subscript v "site.py" c).
  destruct (subscript v "site.py") as [p|]; [|congruence].
  by destruct p.
Qed.

Lemma python_name_python (v : json) (n : nat) (name : string) :
  python_name v n = Ok name → Str.startswith "python" name = true.
Proof.
  unfold python_name. simpl. unfold mbind, result_bind, rbind.
  destruct (subscript v "sys.version_info") as [vi|]; [|done].
  destruct (slice_to n vi) as [parts|]; [|done].
  destruct (map_str parts) as [strs|]; [|done].
  intros [= <-]. reflexivity.
Qed.

(** After a probe that gave a value with a plain version, the construction
    is tame below the destination. *)
Lemma create_tame spawn decode_utf8 json_loads self (v : json)
    (order : list string) (destination : string) :
  _get_base_python_info spawn decode_utf8 json_loads self = Ok v →
  plain_version v →
  Forall (λ m, m ∈ modules) order →
  tame (OsPath.with_sep destination)
       (create_virtual_environment spawn decode_utf8 json_loads self order
                                   destination).
Proof.
  intros Hprobe Hv Hmods. rewrite Forall_forall in Hmods.
  unfold create_virtual_environment. unfold mbind at 1. unfold M_bind.
  set (D := OsPath.with_sep destination).
  apply tame_lift; [rewrite Hprobe; by intros what|].
  intros v' Hv'. rewrite Hprobe in Hv'. injection Hv' as <-.
  assert (Hbin : ∀ name, Str.startswith "python" name = true →
            Str.startswith D (OsPath.join (OsPath.join destination "bin") name)
            = true).
  { intros name Hn. rewrite bin_file_path by done. apply startswith_app. }
  assert (Hlib : ∀ name x, Str.startswith "python" name = true →
            Str.startswith "/" x = false →
            Str.startswith D (OsPath.join (OsPath.join3 destination "lib" name) x)
            = true).
  { intros name x Hn Hx. rewrite lib_file_path by done. apply startswith_app. }
  unfold mbind, M_bind.
  apply tame_bind.
  { apply tame_ensure_directory. rewrite bin_dir_path. apply startswith_app. }
  intros _ _ _ _. apply tame_bind.
  { apply tame_for_each. intros n _.
    apply tame_lift; [apply followed_subscript|]. intros exe _.
    apply tame_lift; [by apply followed_python_name|]. intros name Hname.
    apply tame_lift; [apply followed_as_str|]. intros exe' _.
    apply tame_copyfile. apply Hbin. by apply python_name_python in Hname. }
  intros _ _ _ _.
  apply tame_lift; [by apply followed_python_name|]. intros name Hname.
  apply python_name_python in Hname.
  apply tame_bind.
  { apply tame_ensure_directory. rewrite lib_dir_path by done.
    apply startswith_app. }
  intros _ _ _ _. apply tame_bind.
  { apply tame_ensure_directory. by apply Hlib. }
  intros _ _ _ _.
  apply tame_lift; [apply followed_lib_file|]. intros src _.
  apply tame_bind; [apply tame_copyfile; by apply Hlib|].
  intros _ _ _ _. apply tame_bind.
  { apply tame_for_each. intros m Hm.
    apply tame_lift; [apply followed_lib_file|]. intros src' _.
    apply tame_copyfile. apply Hlib; [done|]. apply module_relative. auto. }
  intros _ _ _ _. apply tame_bind; [apply tame_open_w; by apply Hlib|].
  intros _ _ _ _.
  apply tame_lift; [apply followed_render|]. intros data _.
  apply tame_write. by apply Hlib.
Qed.

(** X9: a probe that fails ends the construction with its own error, before
    anything is read or written: the tree is the one the construction was
    started on. *)
Theorem failed_probe_touches_nothing spawn decode_utf8 json_loads self
    (order : list string) (destination : string) (t : fs) (e : error) :
  _get_base_python_info spawn decode_utf8 json_loads self = Err e →
  create_virtual_environment spawn decode_utf8 json_loads self order
                             destination t
  = (t, Err e).
Proof.
  intros Hprobe. unfold create_virtual_environment.
  unfold mbind at 1. unfold M_bind, bind at 1. by rewrite Hprobe.
Qed.

Lemma failed_probe_touches_nothing_witness :
  create_virtual_environment Sample.spawn JsonText.decode JsonText.loads
    Hosts.nowhere (elements modules) "/tmp/env" Sample.disk
  = (Sample.disk, Err (ProbeFailure CannotLaunch)).
Proof.
  apply (failed_probe_touches_nothing Sample.spawn JsonText.decode
           JsonText.loads Hosts.nowhere (elements modules) "/tmp/env"
           Sample.disk (ProbeFailure CannotLaunch)).
  reflexivity.
Defined.

Lemma sample_plain_version : plain_version (info_json Sample.base).
Proof. intros items [= <-]. repeat constructor. Qed.



(** X11: for a probed value with a plain version, of any shape otherwise,
    and however far the construction gets, every path that existed before
    still exists after: the construction removes nothing; and the run is
    followed to its end. *)
Theorem removes_nothing spawn decode_utf8 json_loads self
    (v : json) (order : list string) (destination : string) (t : fs)
    (path : string) :
  _get_base_python_info spawn decode_utf8 json_loads self = Ok v →
  plain_version v →
  order ≡ₚ elements modules →
  is_Some (t !! path) →
  let out := create_virtual_environment spawn decode_utf8 json_loads self
               order destination t in
  is_Some (out.1 !! path) ∧ followed out.2.
Proof.
  intros Hprobe Hv Horder Hpath out.
  destruct (create_tame spawn decode_utf8 json_loads self v order destination
              Hprobe Hv (order_modules _ Horder) t) as (Hf & _ & Hk).
  split; [by apply Hk|exact Hf].
Qed.

Lemma removes_nothing_witness :
  is_Some ((Sample.create (elements modules) "/tmp/env"
              Sample.disk_without_stat).1 !! "/usr/bin/python3.8")
  ∧ followed (Sample.create (elements modules) "/tmp/env"
                Sample.disk_without_stat).2.
Proof.
  apply (removes_nothing Sample.spawn JsonText.decode JsonText.loads
           Sample.builder (info_json Sample.base) (elements modules)
           "/tmp/env" Sample.disk_without_stat "/usr/bin/python3.8");
    [vm_compute; reflexivity|exact sample_plain_version|reflexivity|].
  eexists. vm_compute. reflexivity.
Defined.

(** X12: a probed value from which [sys.executable] cannot be read makes
    the construction fail with the error of that read, right after the
    binary directory was made and before anything is copied. *)
Theorem unreadable_executable_entry spawn decode_utf8 json_loads self
    (order : list string) (destination : string) (t t1 : fs) (v : json)
    (e : error) :
  _get_base_python_info spawn decode_utf8 json_loads self = Ok v →
  subscript v "sys.executable" = Err e →
  ensure_directory (OsPath.join destination "bin") t = (t1, Ok tt) →
  create_virtual_environment spawn decode_utf8 json_loads self order
                             destination t
  = (t1, Err e).
Proof.
  intros Hprobe Hsub Hdir. unfold create_virtual_environment.
  unfold mbind at 1. unfold M_bind, bind at 1. rewrite Hprobe.
  unfold lift at 1. cbv beta iota.
  unfold mbind at 1. unfold M_bind, bind at 1. rewrite Hdir.
  unfold mbind at 1. unfold M_bind, bind at 1.
  simpl for_each. unfold bind at 1. unfold mbind at 1. unfold M_bind, bind at 1.
  rewrite Hsub. reflexivity.
Qed.

Lemma unreadable_executable_entry_witness :
  create_virtual_environment Hosts.spawn_object JsonText.decode JsonText.loads
    Sample.builder (elements modules) "/tmp/env" Sample.disk
  = (<["/tmp/env/bin" := Dir]> Sample.disk, Err (KeyError "sys.executable")).
Proof.
  apply (unreadable_executable_entry Hosts.spawn_object JsonText.decode
           JsonText.loads Sample.builder (elements modules) "/tmp/env"
           Sample.disk (<["/tmp/env/bin" := Dir]> Sample.disk) (JObj [])
           (KeyError "sys.executable")).
  - vm_compute. reflexivity.
  - reflexivity.
  - unfold ensure_directory.
    replace (Sample.disk !! OsPath.join "/tmp/env" "bin") with (@None node)
      by (vm_compute; reflexivity).
    reflexivity.
Defined.

(** ** The tree a successful construction leaves *)

(** The successful run, as the tree it builds. *)
Lemma construction_result spawn decode_utf8 json_loads self i
    (order : list string) (destination : string) (t : fs) :
  _get_base_python_info spawn decode_utf8 json_loads self = Ok (info_json i) →
  order ≡ₚ elements modules →
  empty_below destination t → complete_base t i →
  create_virtual_environment spawn decode_utf8 json_loads self order
                             destination t
  = (image t (plan i order destination) ∪ t, Ok tt)
  ∧ functional (effects t (plan i order destination)).
Proof.
  intros Hprobe Horder Hfresh Hbase.
  pose proof (order_modules order Horder) as Hm.
  rewrite (create_as_plan _ _ _ _ _ _ i) by done.
  split; [|by apply plan_functional].
  apply (run_ops_fresh destination); try done.
  - intros o. by apply plan_targets_below.
  - by apply plan_sources.
  - by apply plan_functional.
Qed.

(** X13: on a complete base installation and a destination with nothing
    below it, the outcome of the construction does not depend on the order
    in which the loop visits the set of modules. *)
Theorem order_of_modules_irrelevant spawn decode_utf8 json_loads self i
    (order1 order2 : list string) (destination : string) (t : fs) :
  _get_base_python_info spawn decode_utf8 json_loads self = Ok (info_json i) →
  order1 ≡ₚ elements modules → order2 ≡ₚ elements modules →
  empty_below destination t → complete_base t i →
  create_virtual_environment spawn decode_utf8 json_loads self order1
                             destination t
  = create_virtual_environment spawn decode_utf8 json_loads self order2
                               destination t.
Proof.
  intros Hprobe H1 H2 Hfresh Hbase.
  destruct (construction_result spawn decode_utf8 json_loads self i order1
              destination t) as [-> Hf1]; try done.
  destruct (construction_result spawn decode_utf8 json_loads self i order2
              destination t) as [-> Hf2]; try done.
  f_equal. f_equal. apply image_same_elements; try done.
  intros e. unfold effects. rewrite !list_elem_of_omap.
  split; intros (o & Ho & He); exists o; (split; [|done]);
    (eapply plan_same_operations; [|exact Ho]); by rewrite H1, H2.
Qed.

Lemma order_of_modules_irrelevant_witness :
  Sample.create (elements modules) "/tmp/env" Sample.disk
  = Sample.create (reverse (elements modules)) "/tmp/env" Sample.disk.
Proof.
  apply (order_of_modules_irrelevant Sample.spawn JsonText.decode
           JsonText.loads Sample.builder Sample.base (elements modules)
           (reverse (elements modules)) "/tmp/env" Sample.disk).
  - vm_compute. reflexivity.
  - reflexivity.
  - apply reverse_Permutation.
  - exact sample_fresh.
  - exact sample_complete.
Defined.

(** X14: the tree of a successful construction: the three directories, the
    three binaries with what the executable holds, [os.py] and every module
    with what the base library holds, the rendered [site.py] as a file
    that is not executable; and below the destination nothing exists but
    these and the directory [lib] that holds the library directory. *)
Theorem successful_tree spawn decode_utf8 json_loads self i
    (order : list string) (destination : string) (t : fs) :
  _get_base_python_info spawn decode_utf8 json_loads self = Ok (info_json i) →
  order ≡ₚ elements modules →
  empty_below destination t → complete_base t i →
  let name := "python" +:+ pretty (major i) +:+ "." +:+ pretty (minor i) in
  let bin := OsPath.join destination "bin" in
  let lib_dir := OsPath.join3 destination "lib" name in
  ∃ t',
    create_virtual_environment spawn decode_utf8 json_loads self order
                               destination t = (t', Ok tt)
    ∧ (∀ directory,
         directory ∈ [bin; lib_dir; OsPath.join lib_dir "site-packages"] →
         t' !! directory = Some Dir)
    ∧ (∀ n, n ∈ ["python"; "python" +:+ pretty (major i); name] →
            t' !! OsPath.join bin n = t !! executable i)
    ∧ t' !! OsPath.join lib_dir "os.py" = t !! OsPath.join (lib i) "os.py"
    ∧ (∀ m, m ∈ modules →
            t' !! OsPath.join lib_dir m = t !! OsPath.join (lib i) m)
    ∧ t' !! OsPath.join lib_dir "site.py"
      = Some (File (render_site destination (prefix i) (exec_prefix i)
                                (site_py i)) false)
    ∧ (∀ path,
         Str.startswith (OsPath.with_sep destination) path = true →
         is_Some (t' !! path) →
         path = OsPath.join destination "lib"
         ∨ path ∈ ([bin; lib_dir; OsPath.join lib_dir "site-packages";
                    OsPath.join lib_dir "os.py"; OsPath.join lib_dir "site.py"]
                   ++ (OsPath.join bin <$>
                         ["python"; "python" +:+ pretty (major i); name])
                   ++ (OsPath.join lib_dir <$> order))%list).
Proof.
  intros Hprobe Horder Hfresh Hbase name bin lib_dir.
  destruct (construction_result spawn decode_utf8 json_loads self i order
              destination t) as [Hrun Hfun]; try done.
  pose proof (order_modules order Horder) as Hm.
  pose proof (plan_sources i order destination t Hbase Hm) as Hsrc.
  set (ops := plan i order destination) in *.
  set (t' := image t ops ∪ t) in *.
  assert (Hdir : ∀ d, EnsureDirectory d ∈ ops → t' !! d = Some Dir).
  { intros d Hd. apply lookup_union_Some_l. apply image_lookup; [done|].
    unfold effects. apply list_elem_of_omap. by exists (EnsureDirectory d). }
  assert (Hcopy : ∀ src dst, CopyFile src dst ∈ ops → t' !! dst = t !! src).
  { intros src dst Hc. destruct (Hsrc src dst Hc) as (data & x & Hf).
    rewrite Hf. apply lookup_union_Some_l. apply image_lookup; [done|].
    unfold effects. apply list_elem_of_omap. exists (CopyFile src dst).
    split; [done|]. simpl. by rewrite Hf. }
  exists t'. split; [done|].
  split; [|split; [|split; [|split; [|split]]]].
  - intros d Hd. apply Hdir. unfold ops, plan. fold name bin lib_dir.
    rewrite !elem_of_cons, elem_of_nil in Hd. apply elem_of_app. left.
    rewrite !elem_of_cons. destruct Hd as [->|[->|[->|[]]]]; auto 10.
  - intros n Hn. apply Hcopy. unfold ops, plan. fold name bin lib_dir.
    rewrite !elem_of_cons, elem_of_nil in Hn. apply elem_of_app. left.
    rewrite !elem_of_cons. destruct Hn as [->|[->|[->|[]]]]; auto 10.
  - apply Hcopy. unfold ops, plan. fold name bin lib_dir.
    apply elem_of_app. left. rewrite !elem_of_cons. auto 10.
  - intros m Hmod. apply Hcopy. unfold ops, plan. fold name bin lib_dir.
    apply elem_of_app. right. apply elem_of_app. left.
    apply list_elem_of_fmap. exists m. split; [done|].
    rewrite Horder. by apply elem_of_elements.
  - assert (Hsite : WriteText (OsPath.join lib_dir "site.py")
              (render_site destination (prefix i) (exec_prefix i) (site_py i))
              ∈ ops).
    { unfold ops, plan. fold name bin lib_dir.
      apply elem_of_app. right. apply elem_of_app. right. by left. }
    assert (Hnone : t !! OsPath.join lib_dir "site.py" = None).
    { apply Hfresh. by apply (plan_targets_below i order destination _ Hm Hsite). }
    apply lookup_union_Some_l. apply image_lookup; [done|].
    unfold effects. apply list_elem_of_omap. eexists. split; [exact Hsite|].
    simpl. by rewrite Hnone.
  - intros path Hbelow [v Hv]. unfold t' in Hv.
    apply lookup_union_Some_raw in Hv as [Hv|[_ Hv]];
      [right|by rewrite (Hfresh path Hbelow) in Hv].
    apply image_lookup_inv in Hv. unfold effects in Hv.
    apply list_elem_of_omap in Hv as (o & Ho & He).
    apply effect_target in He as ->.
    unfold ops, plan in Ho. fold name bin lib_dir in Ho.
    rewrite !elem_of_app, !elem_of_cons, elem_of_nil, list_elem_of_fmap in Ho.
    rewrite !elem_of_app, !elem_of_cons, !list_elem_of_fmap.
    destruct Ho as [[->|[->|[->|[->|[->|[->|[->|[]]]]]]]]|[(m & -> & Hmo)|[->|[]]]];
      simpl; eauto 12.
    + right; left. exists "python". split; [done|]. by left.
    + right; left. exists ("python" +:+ pretty (major i)). split; [done|].
      right. by left.
    + right; left. exists name. split; [done|]. right; right. by left.
Qed.

Lemma successful_tree_witness :
  ∃ t',
    Sample.create (elements modules) "/tmp/env" Sample.disk = (t', Ok tt)
    ∧ t' !! "/tmp/env/lib/python3.8/site-packages" = Some Dir
    ∧ t' !! "/tmp/env/lib/python3.8/site.py"
      = Some (File (render_site "/tmp/env" "/usr" "/usr"
                                "/usr/lib/python3.8/site.py") false).
Proof.
  destruct (successful_tree Sample.spawn JsonText.decode JsonText.loads
              Sample.builder Sample.base (elements modules) "/tmp/env"
              Sample.disk)
    as (t' & Hrun & Hdirs & _ & _ & _ & Hsite & _).
  - vm_compute. reflexivity.
  - reflexivity.
  - exact sample_fresh.
  - exact sample_complete.
  - exists t'. split; [exact Hrun|]. split; [|exact Hsite].
    apply Hdirs. right; right. by left.
Defined.

(** ** The names *)

Lemma contains_cons (p : string) (c : ascii) (s : string) :
  Str.contains p (String c s) = Str.startswith p (String c s) || Str.contains p s.
Proof. reflexivity. Qed.

Lemma pretty_N_char_no_dot (y : N) : pretty_N_char y ≠ "."%char.
Proof. unfold pretty_N_char. by repeat case_match. Qed.

Lemma pretty_N_go_no_dot (x : N) (s : string) :
  Str.contains "." s = false → Str.contains "." (pretty_N_go x s) = false.
Proof.
  revert s. induction (N.lt_wf_0 x) as [x _ IH]; intros s Hs.
  destruct (decide (x = 0)%N) as [->|Hx]; [by rewrite pretty_N_go_0|].
  rewrite pretty_N_go_step by lia. apply IH.
  - apply N.div_lt; lia.
  - rewrite contains_cons, Hs, orb_false_r. simpl.
    rewrite decide_False; [done|]. intros Heq.
    by apply (pretty_N_char_no_dot (x `mod` 10)%N).
Qed.

Lemma pretty_N_no_dot (x : N) : Str.contains "." (pretty x) = false.
Proof.
  unfold pretty, pretty_N. destruct (decide (x = 0)%N); [done|].
  by apply pretty_N_go_no_dot.
Qed.

(** The decimal writing of an integer has no dot. *)
Lemma pretty_Z_no_dot (z : Z) : Str.contains "." (pretty z) = false.
Proof.
  destruct z as [|p|p]; [done| |].
  - apply (pretty_N_no_dot (Npos p)).
  - change (pretty (Z.neg p)) with ("-" +:+ pretty (Npos p)).
    simpl. apply (pretty_N_no_dot (Npos p)).
Qed.

Lemma dot_split (a a' b b' : string) :
  Str.contains "." a = false → Str.contains "." a' = false →
  a +:+ "." +:+ b = a' +:+ "." +:+ b' → a = a' ∧ b = b'.
Proof.
  revert a'. induction a as [|c a IH]; intros [|c' a'] Ha Ha' Heq.
  - by simplify_eq/=.
  - simpl in Heq. injection Heq as <- _. rewrite contains_cons in Ha'. done.
  - simpl in Heq. injection Heq as -> _. rewrite contains_cons in Ha. done.
  - simpl in Heq. injection Heq as -> Heq.
    rewrite contains_cons in Ha, Ha'. apply orb_false_iff in Ha as [_ Ha].
    apply orb_false_iff in Ha' as [_ Ha'].
    destruct (IH a' Ha Ha' Heq) as [-> ->]. done.
Qed.

(** X15: the name of the library directory determines the major and the
    minor component: two interpreters get the same [pythonM.m] only if they
    agree on both. *)
Theorem lib_name_determines_version (i j : BaseInterpreterInfo) :
  python_name (info_json i) 2 = python_name (info_json j) 2 →
  major i = major j ∧ minor i = minor j.
Proof.
  change (python_name (info_json i) 2)
    with (@Ok error _ ("python" +:+ pretty (major i) +:+ "." +:+ pretty (minor i))).
  change (python_name (info_json j) 2)
    with (@Ok error _ ("python" +:+ pretty (major j) +:+ "." +:+ pretty (minor j))).
  intros [= Heq].
  apply (dot_split (pretty (major i)) (pretty (major j))) in Heq as [HM Hm]; try apply pretty_Z_no_dot.
  split; by apply (inj pretty).
Qed.

Lemma lib_name_determines_version_witness :
  major Sample.base = major Sample.base ∧ minor Sample.base = minor Sample.base.
Proof.
  apply (lib_name_determines_version Sample.base Sample.base). reflexivity.
Defined.

Lemma map_str_ints (ints : list Z) :
  map_str (JInt <$> ints) = Ok (pretty <$> ints).
Proof.
  induction ints as [|z ints IH]; [done|].
  rewrite !fmap_cons. cbn [map_str py_str].
  unfold mbind, result_bind, rbind. by rewrite IH.
Qed.

(** X16: the names are built from as many leading components as the
    version tuple has: the slice never fails, and a tuple with fewer than
    [n] components gives the name of the whole tuple. *)
Theorem python_name_of_components (v : json) (ints : list Z) (n : nat) :
  subscript v "sys.version_info" = Ok (JArr (JInt <$> ints)) →
  python_name v n = Ok ("python" +:+ Str.join "." (pretty <$> take n ints))
  ∧ ((List.length ints ≤ n)%nat →
     python_name v n = python_name v (List.length ints)).
Proof.
  intros Hsub.
  assert (Hn : ∀ k, python_name v k
                    = Ok ("python" +:+ Str.join "." (pretty <$> take k ints))).
  { intros k. unfold python_name. rewrite Hsub.
    unfold mbind, result_bind, rbind, slice_to.
    by rewrite <- fmap_take, map_str_ints, fmap_take. }
  split; [apply Hn|]. intros Hle. rewrite !Hn.
  by rewrite take_ge, firstn_all by done.
Qed.

Lemma python_name_of_components_witness :
  python_name (JObj [("sys.version_info", JArr [JInt 3])]) 2 = Ok "python3"
  ∧ python_name (JObj [("sys.version_info", JArr [])]) 2 = Ok "python".
Proof.
  split.
  - apply (python_name_of_components _ [3%Z] 2). reflexivity.
  - apply (python_name_of_components _ [] 2). reflexivity.
Defined.

(** ** Rendering the template *)

Lemma site_text_assemble (a b c d e : string) :
  site_text a b c d e = Template.assemble a b c d e.
Proof.
  unfold site_text, site_lines, Str.join, Str.quoted, Template.assemble,
    Template.lit.
  rewrite !str_app_assoc. reflexivity.
Qed.

Lemma contains_cons_false (t : string) (c : ascii) (s : string) :
  Str.contains t (String c s) = false →
  Str.startswith t (String c s) = false ∧ Str.contains t s = false.
Proof. rewrite contains_cons. apply orb_false_iff. Qed.

(** A text that starts a longer one whose next character is foreign to [old]
    started already before that character. *)
Lemma startswith_before_foreign (old u : string) (q : ascii) (rest : string) :
  Str.contains (String q EmptyString) old = false →
  Str.startswith old (u +:+ String q rest) = true →
  Str.startswith old u = true.
Proof.
  revert u. induction old as [|a old IH]; intros u Hq Hs; [done|].
  apply contains_cons_false in Hq as [Ha Hq]. simpl in Ha.
  destruct u as [|b u]; simpl in *.
  - destruct (decide (a = q)) as [->|]; [|done].
    by rewrite decide_True in Ha.
  - destruct (decide (a = b)); [|done]. by apply IH.
Qed.

(** The scan passes over a stretch without an occurrence that is followed
    by a character foreign to [old]. *)
Lemma replace_go_free (old new v : string) (q : ascii) (rest : string) :
  Str.contains old v = false →
  Str.contains (String q EmptyString) old = false →
  Str.replace_go old new 0 (v +:+ String q rest)
  = v +:+ String q (Str.replace_go old new 0 rest).
Proof.
  intros Hv Hq. induction v as [|c v IH].
  - destruct old as [|a old]; [done|].
    apply contains_cons_false in Hq as [Ha _]. simpl in Ha |- *.
    destruct (decide (a = q)) as [->|]; [|done].
    by rewrite decide_True in Ha.
  - apply contains_cons_false in Hv as [Hc Hv].
    change (String c v +:+ String q rest) with (String c (v +:+ String q rest)).
    cbn [Str.replace_go].
    destruct (Str.startswith old (String c (v +:+ String q rest))) eqn:Hs.
    + apply (startswith_before_foreign old (String c v)) in Hs; [|done].
      congruence.
    + rewrite (IH Hv). done.
Qed.

Lemma replace_go_absent (old new x : string) :
  Str.contains old x = false → Str.replace_go old new 0 x = x.
Proof.
  induction x as [|c x IH]; intros Hx; [done|].
  apply contains_cons_false in Hx as [Hc Hx].
  cbn [Str.replace_go]. rewrite Hc, (IH Hx). done.
Qed.

Lemma replace_go_skip (old new u rest : string) :
  Str.replace_go old new (String.length u) (u +:+ rest)
  = Str.replace_go old new 0 rest.
Proof.
  induction u as [|c u IH]; simpl; [|done].
  destruct rest; done.
Qed.

(** At an occurrence the scan puts [new] and goes on behind it. *)
Lemma replace_go_token (old new rest : string) :
  old ≠ EmptyString →
  Str.replace_go old new 0 (old +:+ rest)
  = new +:+ Str.replace_go old new 0 rest.
Proof.
  destruct old as [|a old]; [done|]. intros _.
  change (String a old +:+ rest) with (String a (old +:+ rest)).
  cbn [Str.replace_go].
  change (String a (old +:+ rest)) with (String a old +:+ rest).
  rewrite startswith_app. cbn [String.length]. rewrite Nat.sub_1_r. simpl.
  by rewrite replace_go_skip.
Qed.

Lemma replace_go_char (old new : string) (q : ascii) (rest : string) :
  old ≠ EmptyString →
  Str.contains (String q EmptyString) old = false →
  Str.replace_go old new 0 (String q rest)
  = String q (Str.replace_go old new 0 rest).
Proof.
  intros Hold Hq. destruct old as [|a old]; [done|].
  apply contains_cons_false in Hq as [Ha _]. simpl in Ha |- *.
  destruct (decide (a = q)) as [->|]; [|done].
  by rewrite decide_True in Ha.
Qed.

Ltac scan :=
  repeat first
    [ rewrite replace_go_token by done
    | rewrite replace_go_char by (vm_compute; done)
    | rewrite replace_go_free by (assumption || (vm_compute; reflexivity))
    | rewrite replace_go_absent by (vm_compute; reflexivity) ].

Ltac stage :=
  intros; unfold Str.replace, Template.assemble, Template.lit; scan;
  reflexivity.

Section Stages.
Import Template.
Variables (d x p e new : string).

Lemma stage_prefix :
  Str.replace "__PREFIX__" new
    (assemble "__PREFIX__" "__EXEC_PREFIX__" "__BASE_PREFIX__"
              "__BASE_EXEC_PREFIX__" "__SITE__")
  = assemble new "__EXEC_PREFIX__" "__BASE_PREFIX__"
             "__BASE_EXEC_PREFIX__" "__SITE__".
Proof. stage. Qed.

Lemma stage_exec_prefix :
  Str.contains "__EXEC_PREFIX__" d = false →
  Str.replace "__EXEC_PREFIX__" new
    (assemble d "__EXEC_PREFIX__" "__BASE_PREFIX__"
              "__BASE_EXEC_PREFIX__" "__SITE__")
  = assemble d new "__BASE_PREFIX__" "__BASE_EXEC_PREFIX__" "__SITE__".
Proof. stage. Qed.

Lemma stage_base_prefix :
  Str.contains "__BASE_PREFIX__" d = false →
  Str.contains "__BASE_PREFIX__" x = false →
  Str.replace "__BASE_PREFIX__" new
    (assemble d x "__BASE_PREFIX__" "__BASE_EXEC_PREFIX__" "__SITE__")
  = assemble d x new "__BASE_EXEC_PREFIX__" "__SITE__".
Proof. stage. Qed.

Lemma stage_base_exec_prefix :
  Str.contains "__BASE_EXEC_PREFIX__" d = false →
  Str.contains "__BASE_EXEC_PREFIX__" x = false →
  Str.contains "__BASE_EXEC_PREFIX__" p = false →
  Str.replace "__BASE_EXEC_PREFIX__" new
    (assemble d x p "__BASE_EXEC_PREFIX__" "__SITE__")
  = assemble d x p new "__SITE__".
Proof. stage. Qed.

Lemma stage_site :
  Str.contains "__SITE__" d = false →
  Str.contains "__SITE__" x = false →
  Str.contains "__SITE__" p = false →
  Str.contains "__SITE__" e = false →
  Str.replace "__SITE__" new (assemble d x p e "__SITE__")
  = assemble d x p e new.
Proof. stage. Qed.

End Stages.

(** X17: the rendering for every destination and every base installation:
    when the destination holds none of the four placeholders replaced after
    the first, the base prefix none of the last two and the base exec-prefix
    not the last, the five replacements give the template with the
    destination at the prefix and the exec-prefix site, the two base
    prefixes at theirs and the path of the start-up module, whatever it
    holds, at the [open] site. *)
Theorem render_site_general (destination sys_prefix sys_exec_prefix site_py : string) :
  Template.free_of
    ["__EXEC_PREFIX__"; "__BASE_PREFIX__"; "__BASE_EXEC_PREFIX__"; "__SITE__"]
    destination →
  Template.free_of ["__BASE_EXEC_PREFIX__"; "__SITE__"] sys_prefix →
  Template.free_of ["__SITE__"] sys_exec_prefix →
  render_site destination sys_prefix sys_exec_prefix site_py
  = site_text destination destination sys_prefix sys_exec_prefix site_py.
Proof.
  unfold Template.free_of. rewrite !Forall_cons. 
  intros (Hd2 & Hd3 & Hd4 & Hd5 & _) (Hp4 & Hp5 & _) (He5 & _).
  unfold render_site, SITE. rewrite !site_text_assemble.
  rewrite stage_prefix, stage_exec_prefix, stage_base_prefix,
    stage_base_exec_prefix, stage_site by done.
  reflexivity.
Qed.

Lemma render_site_general_witness :
  render_site "/env" "/usr" "/usr/local" "/usr/lib/python3.8/site.py"
  = site_text "/env" "/env" "/usr" "/usr/local" "/usr/lib/python3.8/site.py".
Proof.
  apply render_site_general; unfold Template.free_of;
    repeat (apply Forall_cons; split; [vm_compute; reflexivity|]);
    apply Forall_nil_2.
Defined.

Lemma startswith_app_foreign (t a : string) (q : ascii) (x : string) :
  Str.contains (String q EmptyString) t = false →
  Str.startswith t (a +:+ String q x) = true → Str.startswith t a = true.
Proof. apply startswith_before_foreign. Qed.

(** An occurrence does not reach across a character foreign to the text
    sought. *)
Lemma contains_app_foreign (t a : string) (q : ascii) (x : string) :
  t ≠ EmptyString →
  Str.contains (String q EmptyString) t = false →
  Str.contains t a = false → Str.contains t x = false →
  Str.contains t (a +:+ String q x) = false.
Proof.
  intros Ht Hq Ha Hx. induction a as [|c a IH].
  - change (EmptyString +:+ String q x) with (String q x).
    rewrite contains_cons, Hx, orb_false_r.
    destruct t as [|b t]; [done|].
    apply contains_cons_false in Hq as [Hb _]. simpl in Hb |- *.
    destruct (decide (b = q)) as [->|]; [|done]. by rewrite decide_True in Hb.
  - apply contains_cons_false in Ha as [Hc Ha].
    change (String c a +:+ String q x) with (String c (a +:+ String q x)).
    rewrite contains_cons, (IH Ha), orb_false_r.
    destruct (Str.startswith t (String c (a +:+ String q x))) eqn:Hs; [|done].
    apply (startswith_before_foreign t (String c a)) in Hs; [|done].
    congruence.
Qed.

Lemma replace_go_site_inside (a new rest : string) :
  Str.contains "__SITE__" a = false →
  Str.replace_go "__SITE__" new 0
    ((a +:+ String "/" "__SITE__") +:+ String Template.quote rest)
  = (a +:+ String "/" new)
    +:+ String Template.quote (Str.replace_go "__SITE__" new 0 rest).
Proof.
  intros Ha. rewrite !str_app_assoc.
  change (String "/" "__SITE__" +:+ String Template.quote rest)
    with (String "/" ("__SITE__" +:+ String Template.quote rest)).
  rewrite replace_go_free by (assumption || (vm_compute; reflexivity)).
  rewrite replace_go_token by done.
  rewrite replace_go_char by (vm_compute; done).
  reflexivity.
Qed.

(** X18: a placeholder inside a value is replaced as well: for a
    destination whose last component is the text [__SITE__], the last
    replacement puts the path of the start-up module into the two prefixes
    already written. *)
Theorem placeholder_in_destination_replaced
    (a sys_prefix sys_exec_prefix site_py : string) :
  Template.free_of
    ["__EXEC_PREFIX__"; "__BASE_PREFIX__"; "__BASE_EXEC_PREFIX__"; "__SITE__"]
    a →
  Template.free_of ["__BASE_EXEC_PREFIX__"; "__SITE__"] sys_prefix →
  Template.free_of ["__SITE__"] sys_exec_prefix →
  render_site (a +:+ "/__SITE__") sys_prefix sys_exec_prefix site_py
  = site_text (a +:+ "/" +:+ site_py) (a +:+ "/" +:+ site_py)
              sys_prefix sys_exec_prefix site_py.
Proof.
  unfold Template.free_of. rewrite !Forall_cons.
  intros (Ha2 & Ha3 & Ha4 & Ha5 & _) (Hp4 & Hp5 & _) (He5 & _).
  unfold render_site, SITE. rewrite !site_text_assemble.
  rewrite stage_prefix, stage_exec_prefix, stage_base_prefix,
    stage_base_exec_prefix
    by (done || (apply contains_app_foreign; done)).
  unfold Str.replace, Template.assemble, Template.lit.
  repeat first
    [ rewrite replace_go_site_inside by done
    | rewrite replace_go_token by done
    | rewrite replace_go_char by (vm_compute; done)
    | rewrite replace_go_free by (assumption || (vm_compute; reflexivity))
    | rewrite replace_go_absent by (vm_compute; reflexivity) ].
  reflexivity.
Qed.

Lemma placeholder_in_destination_replaced_witness :
  render_site "/tmp/__SITE__" "/usr" "/usr" "/usr/lib/site.py"
  = site_text "/tmp//usr/lib/site.py" "/tmp//usr/lib/site.py"
              "/usr" "/usr" "/usr/lib/site.py".
Proof.
  apply (placeholder_in_destination_replaced "/tmp"); unfold Template.free_of;
    repeat (apply Forall_cons; split; [vm_compute; reflexivity|]);
    apply Forall_nil_2.
Defined.

(** ** A probed record without the keys of the rendering *)

Lemma plan_staging (i : BaseInterpreterInfo) (order : list string)
    (destination : string) :
  plan i order destination
  = (staging i order destination
     ++ [WriteText
           (OsPath.join
              (OsPath.join3 destination "lib"
                 ("python" +:+ pretty (major i) +:+ "." +:+ pretty (minor i)))
              "site.py")
           (render_site destination (prefix i) (exec_prefix i) (site_py i))])%list.
Proof. unfold plan, staging. cbv zeta. by rewrite <- !app_assoc. Qed.

Lemma same_layout_reads (v : json) (i : BaseInterpreterInfo) :
  same_layout v i →
  subscript v "sys.executable" = Ok (JStr (executable i))
  ∧ python_name v 0 = Ok "python"
  ∧ python_name v 1 = Ok ("python" +:+ pretty (major i))
  ∧ python_name v 2
    = Ok ("python" +:+ pretty (major i) +:+ "." +:+ pretty (minor i))
  ∧ ∀ name, lib_file v name = Ok (OsPath.join (lib i) name).
Proof.
  unfold same_layout. rewrite !Forall_cons.
  intros (Hexe & Hver & Hlib & _).
  split; [exact Hexe|].
  unfold python_name, lib_file. rewrite Hver, Hlib. done.
Qed.

#[local] Opaque Builder.ensure_directory Builder.copyfile Builder.open_w
  Builder.write OsPath.join OsPath.join3 pretty render_site
  Builder.subscript Builder.python_name Builder.lib_file Builder.render.

(** Up to the opening of [site.py] the construction reads three keys of the
    probed value, and runs the operations of [staging]. *)
Lemma create_with_layout spawn decode_utf8 json_loads self order destination
    (v : json) (i : BaseInterpreterInfo) (t : fs) :
  _get_base_python_info spawn decode_utf8 json_loads self = Ok v →
  same_layout v i →
  create_virtual_environment spawn decode_utf8 json_loads self order
                             destination t
  = match run_ops (staging i order destination) t with
    | (s, Ok _) =>
        let dst :=
          OsPath.join
            (OsPath.join3 destination "lib"
               ("python" +:+ pretty (major i) +:+ "." +:+ pretty (minor i)))
            "site.py" in
        (open_w dst;; data ← lift (render v destination); write dst data) s
    | (s, Err e) => (s, Err e)
    end.
Proof.
  intros Hprobe (Hexe & Hn0 & Hn1 & Hn2 & Hlib)%same_layout_reads.
  unfold create_virtual_environment.
  unfold mbind at 1. unfold M_bind, bind at 1. rewrite Hprobe.
  unfold lift at 1. unfold staging, run_ops.
  rewrite for_each_app.
  simpl. unfold mbind, M_bind, bind, lift.
  rewrite Hexe, Hn0, Hn1, Hn2, (Hlib "os.py"). simpl.
  repeat match goal with
  | |- context [ensure_directory ?d ?s] =>
      destruct (ensure_directory d s) as [? [[]|?]]; simpl; [|reflexivity]
  | |- context [copyfile ?a ?b ?s] =>
      destruct (copyfile a b s) as [? [[]|?]]; simpl; [|reflexivity]
  end.
  rewrite for_each_fmap.
  rewrite (for_each_ext order _ (λ x, run_op (CopyFile (OsPath.join (lib i) x)
    (OsPath.join (OsPath.join3 destination "lib"
       ("python" +:+ pretty (major i) +:+ "." +:+ pretty (minor i))) x))));
    [|intros x s'; by rewrite Hlib].
  destruct (for_each order _ _) as [s' [[]|e]]; reflexivity.
Qed.

#[local] Transparent Builder.ensure_directory Builder.copyfile Builder.open_w
  Builder.write OsPath.join OsPath.join3 pretty render_site
  Builder.subscript Builder.python_name Builder.lib_file Builder.render.

(** No operation before the last one writes [site.py]. *)
Lemma staged_not_site_py (i : BaseInterpreterInfo) (order : list string)
    (destination : string) (o : op) :
  Forall (λ m, m ∈ modules) order →
  o ∈ staging i order destination →
  target o
  ≠ OsPath.join
      (OsPath.join3 destination "lib"
         ("python" +:+ pretty (major i) +:+ "." +:+ pretty (minor i)))
      "site.py".
Proof.
  intros Hmods Ho Heq.
  set (dst := OsPath.join _ "site.py") in Heq.
  set (data := render_site destination (prefix i) (exec_prefix i) (site_py i)).
  assert (Hin : o ∈ plan i order destination).
  { rewrite plan_staging. apply elem_of_app. by left. }
  assert (Hw : WriteText dst data ∈ plan i order destination).
  { rewrite plan_staging. apply elem_of_app. right. by left. }
  clearbody data dst.
  destruct o as [d|src dstf|dstf data0]; simpl in Heq; subst.
  - pose proof (plan_functional i order destination ∅ Hmods dst Dir
                  (File data false)) as Hf.
    discriminate Hf; unfold effects; apply list_elem_of_omap.
    + by exists (EnsureDirectory dst).
    + exists (WriteText dst data). split; [done|]. simpl.
      by rewrite lookup_empty.
  - set (held := File (String "x" data) true).
    set (t' := ({[ src := held ]} : fs)).
    pose proof (plan_functional i order destination t' Hmods dst held
                  (File data match t' !! dst with
                             | Some (File _ x) => x
                             | _ => false
                             end)) as Hf.
    assert (Hne : String "x" data ≠ data).
    { intros Hd. apply (f_equal String.length) in Hd. simpl in Hd. lia. }
    assert (Hcopy : (dst, held) ∈ effects t' (plan i order destination)).
    { unfold effects. apply list_elem_of_omap.
      exists (CopyFile src dst). split; [done|]. simpl. unfold t'.
      by rewrite lookup_singleton_eq. }
    assert (Hwrite : (dst, File data match t' !! dst with
                                     | Some (File _ x) => x
                                     | _ => false
                                     end) ∈ effects t' (plan i order destination)).
    { unfold effects. apply list_elem_of_omap. by exists (WriteText dst data). }
    specialize (Hf Hcopy Hwrite). unfold held in Hf. by injection Hf as Hd _.
  - unfold staging in Ho.
    rewrite !elem_of_app, !elem_of_cons, elem_of_nil, list_elem_of_fmap in Ho.
    destruct Ho as [[?|[?|[?|[?|[?|[?|[?|[]]]]]]]]|(m & ? & _)]; done.
Qed.

(** X19: [site.py] is opened for writing before the probed value is read
    for the rendering: when that read fails, on a complete base
    installation and a destination with nothing below it, the construction
    stops with the error of the read and leaves [site.py] as an empty file
    that is not executable, next to everything a successful run stages. *)
Theorem failed_rendering_leaves_empty_site_py spawn decode_utf8 json_loads self
    (v : json) (i : BaseInterpreterInfo) (e : error)
    (order : list string) (destination : string) (t : fs) :
  _get_base_python_info spawn decode_utf8 json_loads self = Ok v →
  same_layout v i →
  render v destination = Err e →
  order ≡ₚ elements modules →
  empty_below destination t → complete_base t i →
  let dst :=
    OsPath.join
      (OsPath.join3 destination "lib"
         ("python" +:+ pretty (major i) +:+ "." +:+ pretty (minor i)))
      "site.py" in
  ∃ t',
    create_virtual_environment spawn decode_utf8 json_loads self order
                               destination t = (t', Err e)
    ∧ t' !! dst = Some (File EmptyString false)
    ∧ ∀ k, k ≠ dst → t' !! k = (image t (plan i order destination) ∪ t) !! k.
Proof.
  intros Hprobe Hsame Hrender Horder Hfresh Hbase dst.
  pose proof (order_modules order Horder) as Hm.
  rewrite (create_with_layout _ _ _ _ _ _ v i) by done. fold dst.
  assert (Hfull : run_ops (plan i order destination) t
                  = (image t (plan i order destination) ∪ t, Ok tt)).
  { apply (run_ops_fresh destination); try done.
    - intros o. by apply plan_targets_below.
    - by apply plan_sources.
    - by apply plan_functional. }
  assert (Hnone : t !! dst = None).
  { apply Hfresh.
    apply (plan_targets_below i order destination (WriteText dst
             (render_site destination (prefix i) (exec_prefix i) (site_py i)))
             Hm).
    rewrite plan_staging. apply elem_of_app. right. by left. }
  assert (Hkept : (run_ops (staging i order destination) t).1 !! dst = None).
  { rewrite run_ops_frame; [done|]. apply not_target. intros o Ho.
    by apply (staged_not_site_py i order destination). }
  remember (image t (plan i order destination) ∪ t) as tf eqn:Htf. clear Htf.
  pose proof (plan_staging i order destination) as Hplan. fold dst in Hplan.
  set (data := render_site _ _ _ _) in Hplan. clearbody data dst.
  rewrite Hplan in Hfull. unfold run_ops in Hfull, Hkept |- *.
  rewrite for_each_app in Hfull.
  destruct (for_each (staging i order destination) run_op t)
    as [s [[]|e']]; [|done].
  simpl in Hkept. cbn [for_each run_op] in Hfull.
  unfold mbind, M_bind, bind, lift, ret, open_w, write in Hfull |- *.
  rewrite Hkept in Hfull |- *. rewrite lookup_insert_eq in Hfull.
  rewrite Hrender. injection Hfull as <-.
  eexists. split; [reflexivity|]. split; [by rewrite lookup_insert_eq|].
  intros k Hk. by rewrite !lookup_insert_ne.
Qed.

Lemma failed_rendering_leaves_empty_site_py_witness :
  ∃ t',
    create_virtual_environment Partial.spawn JsonText.decode JsonText.loads
      Sample.builder (elements modules) "/tmp/env" Sample.disk
    = (t', Err (KeyError "sys.prefix"))
    ∧ t' !! "/tmp/env/lib/python3.8/site.py" = Some (File EmptyString false).
Proof.
  destruct (failed_rendering_leaves_empty_site_py Partial.spawn JsonText.decode
              JsonText.loads Sample.builder Partial.value Sample.base
              (KeyError "sys.prefix") (elements modules) "/tmp/env"
              Sample.disk)
    as (t' & Hrun & Hsite & _).
  - vm_compute. reflexivity.
  - unfold same_layout. repeat (apply Forall_cons; split; [reflexivity|]).
    apply Forall_nil_2.
  - reflexivity.
  - reflexivity.
  - exact sample_fresh.
  - exact sample_complete.
  - exists t'. split; [exact Hrun|exact Hsite].
Defined.

(** ** The directories of the construction *)

(** No operation puts something else where a directory is. *)
Lemma run_op_keeps_directory (o : op) (t : fs) (k : string) :
  t !! k = Some Dir → (run_op o t).1 !! k = Some Dir.
Proof.
  intros Hk. destruct o as [d|src dst|dst data]; simpl.
  - unfold ensure_directory. destruct (t !! d) as [[|]|] eqn:E; simpl; try done.
    rewrite lookup_insert_ne; [done|]. congruence.
  - unfold copyfile. destruct (t !! src) as [[|data x]|]; simpl; try done.
    destruct (t !! dst) as [[|]|] eqn:E; simpl; try done;
      (rewrite lookup_insert_ne; [done|]; congruence).
  - unfold mbind, M_bind, bind, open_w, write.
    destruct (t !! dst) as [[|old x]|] eqn:E; simpl; try done.
    + rewrite lookup_insert_eq. simpl.
      rewrite !lookup_insert_ne; [done|congruence..].
    + rewrite lookup_insert_eq. simpl.
      rewrite !lookup_insert_ne; [done|congruence..].
Qed.

Lemma run_ops_keeps_directory (ops : list op) (t : fs) (k : string) :
  t !! k = Some Dir → (run_ops ops t).1 !! k = Some Dir.
Proof.
  unfold run_ops. revert t. induction ops as [|o ops IH]; intros t Hk; [done|].
  simpl. unfold bind.
  pose proof (run_op_keeps_directory o t k Hk) as Hd.
  destruct (run_op o t) as [t1 [[]|e]]; simpl in *; [|done]. by apply IH.
Qed.

(** After a list of operations that all succeeded, every directory among
    them is there. *)
Lemma run_ops_directories (ops : list op) (t t' : fs) (d : string) :
  run_ops ops t = (t', Ok tt) → EnsureDirectory d ∈ ops → t' !! d = Some Dir.
Proof.
  unfold run_ops. revert t. induction ops as [|o ops IH]; intros t Hrun Hin.
  - by apply elem_of_nil in Hin.
  - simpl in Hrun. unfold bind in Hrun.
    destruct (run_op o t) as [t1 [[]|e]] eqn:Ho; [|done].
    apply elem_of_cons in Hin as [<-|Hin]; [|by apply (IH t1)].
    assert (Hd : t1 !! d = Some Dir).
    { simpl in Ho. unfold ensure_directory in Ho.
      destruct (t !! d) as [[|]|] eqn:E; simplify_eq; [done|].
      by rewrite lookup_insert_eq. }
    pose proof (run_ops_keeps_directory ops t1 d Hd) as Hkept.
    unfold run_ops in Hkept. by rewrite Hrun in Hkept.
Qed.

(** C3: for a base interpreter with version (M, m, p) and any destination,
    the library directory the construction computes is the destination,
    [lib] and [pythonM.m] under it; the construction runs the operations of
    [plan], whose directories are exactly the binary directory
    [destination/bin], that library directory and [site-packages] in it;
    whenever the construction succeeds these three are directories of the
    tree it leaves; and with another micro component alone the construction
    does the same on every tree. *)
Theorem construction_layout spawn decode_utf8 json_loads self
    (i : BaseInterpreterInfo) (order : list string) (destination : string) :
  _get_base_python_info spawn decode_utf8 json_loads self = Ok (info_json i) →
  let name := "python" +:+ pretty (major i) +:+ "." +:+ pretty (minor i) in
  let lib_dir := OsPath.with_sep destination +:+ "lib/" +:+ name in
  python_name (info_json i) 2 = Ok name
  ∧ OsPath.join3 destination "lib" name = lib_dir
  ∧ (∀ t,
       create_virtual_environment spawn decode_utf8 json_loads self order
                                  destination t
       = run_ops (plan i order destination) t)
  ∧ (∀ directory,
       EnsureDirectory directory ∈ plan i order destination
       ↔ directory ∈ [OsPath.join destination "bin"; lib_dir;
                      OsPath.join lib_dir "site-packages"])
  ∧ (∀ t t',
       create_virtual_environment spawn decode_utf8 json_loads self order
                                  destination t = (t', Ok tt) →
       t' !! OsPath.join destination "bin" = Some Dir
       ∧ t' !! lib_dir = Some Dir
       ∧ t' !! OsPath.join lib_dir "site-packages" = Some Dir)
  ∧ (∀ p spawn' decode_utf8' json_loads' self',
       _get_base_python_info spawn' decode_utf8' json_loads' self'
       = Ok (info_json (with_micro p i)) →
       ∀ t,
         create_virtual_environment spawn' decode_utf8' json_loads' self'
                                    order destination t
         = create_virtual_environment spawn decode_utf8 json_loads self
                                      order destination t).
Proof.
  intros Hprobe name lib_dir.
  assert (Hlib : OsPath.join3 destination "lib" name = lib_dir).
  { apply lib_dir_path. apply startswith_app. }
  split; [reflexivity|]. split; [exact Hlib|].
  split; [intros t; by apply create_as_plan|]. split; [|split].
  - intros directory. rewrite <- Hlib. unfold plan. fold name.
    rewrite !elem_of_app, !elem_of_cons, !elem_of_nil, list_elem_of_fmap.
    split.
    + intros [[?|[?|[?|[?|[?|[?|[?|[]]]]]]]]|[(m & ? & _)|[?|[]]]];
        simplify_eq; auto.
    + intros [->|[->|[->|[]]]]; auto 10.
  - intros t t' Hrun. rewrite (create_as_plan _ _ _ _ _ _ i) in Hrun by done.
    rewrite <- Hlib.
    repeat split; apply (run_ops_directories _ _ _ _ Hrun);
      unfold plan; fold name; apply elem_of_app; left;
      rewrite !elem_of_cons; auto 10.
  - intros p spawn' decode_utf8' json_loads' self' Hprobe' t.
    rewrite (create_as_plan _ _ _ _ _ _ (with_micro p i) t Hprobe').
    rewrite (create_as_plan _ _ _ _ _ _ i t Hprobe).
    reflexivity.
Qed.

Lemma construction_layout_witness :
  ∃ t',
    Sample.create (elements modules) "/tmp/env" Sample.disk = (t', Ok tt)
    ∧ t' !! "/tmp/env/bin" = Some Dir
    ∧ t' !! "/tmp/env/lib/python3.8" = Some Dir
    ∧ t' !! "/tmp/env/lib/python3.8/site-packages" = Some Dir.
Proof.
  destruct (construction_layout Sample.spawn JsonText.decode JsonText.loads
              Sample.builder Sample.base (elements modules) "/tmp/env")
    as (_ & _ & _ & _ & Hdirs & _); [vm_compute; reflexivity|].
  destruct (construction_result Sample.spawn JsonText.decode JsonText.loads
              Sample.builder Sample.base (elements modules) "/tmp/env"
              Sample.disk) as [Hrun _];
    [vm_compute; reflexivity|reflexivity|exact sample_fresh
    |exact sample_complete|].
  eexists. split; [exact Hrun|]. exact (Hdirs _ _ Hrun).
Defined.
